(** * OKR progress-consistency engine of agiemme-planner

    A shallow embedding of the backend code that keeps objectives, key
    results and progress updates consistent:

    - the PostgreSQL migrations (tables, CHECK constraints, triggers and the
      PL/pgSQL functions [calculate_completion_percentage],
      [update_key_result_status], [update_key_result_from_progress]);
    - the models [objective.ts], [key-result.ts], [progress-update.ts];
    - the services of [objective-service.ts];
    - the route handlers of [/api/objectives/:id] and [/api/key-results];
    - [extractToken] of [auth-service.ts].

    Modelling choices.
    - A JavaScript [number] that the code reads, compares and passes on is
      given by the decimal it prints as, which is the text node-postgres
      sends for it, or is [NaN] or an infinity.  The completion percentage
      that [mapRowToKeyResult] computes is an IEEE double, with the
      operations of the machine.
    - A [DECIMAL(10,2)] column holds an integer number of hundredths or
      [NaN]; writing a number into such a column rounds it to two decimals,
      half away from zero, and fails when ten digits do not suffice.  A
      [VARCHAR(n)] column takes a longer text only when the excess is
      spaces, which it cuts off.
    - A text is a string of single-byte characters.
    - A [DATE] and a JavaScript [Date] are day numbers ([Z]); [CURRENT_DATE]
      is read from the environment of the running statement.
    - A UUID is a natural number; [gen_random_uuid()] is a counter kept with
      the tables.
    - A table is the list of its rows in insertion order, which stands for
      [ORDER BY created_at ASC]; the timestamp columns [created_at],
      [updated_at] and [recorded_at] are not represented.
    - The [users] table is not represented: the foreign key
      [objectives.user_id] is taken to be satisfied.
    - Every [pool.query] call is one statement in autocommit mode: it commits
      with the effects of its triggers, or fails and changes nothing.  The
      code opens no transaction anywhere, so a service call is a sequence of
      such commits; the sequence is recorded so that intermediate states can
      be talked about. *)

From Stdlib Require Import ZArith QArith Qround Qminmax Qabs List String Bool.
From Stdlib Require Import Ascii Lia Lqa Permutation.
From Stdlib Require Import Floats.PrimFloat Floats.FloatOps Floats.SpecFloat.
Import ListNotations.
Local Open Scope Z_scope.

(** ** Numbers *)

Module Num.

(** [x < y] on rationals. *)
Definition Qltb (x y : Q) : bool := negb (Qle_bool y x).

(** *** JavaScript numbers *)

(** A number as the code reads it from a request or from a row and passes
    it on: [num q] prints as the decimal [q]. *)
Inductive number : Set :=
| num (q : Q)
| NaN
| Infinity
| neg_Infinity.

(** [x < y] and [x <= y]: false when an operand is [NaN]. *)
Definition number_ltb (x y : number) : bool :=
  match x, y with
  | num a, num b => Qltb a b
  | num _, Infinity | neg_Infinity, num _ | neg_Infinity, Infinity => true
  | _, _ => false
  end.

Definition number_leb (x y : number) : bool :=
  match x, y with
  | num a, num b => Qle_bool a b
  | num _, Infinity | neg_Infinity, num _ | neg_Infinity, Infinity
  | Infinity, Infinity | neg_Infinity, neg_Infinity => true
  | _, _ => false
  end.

(** *** Doubles *)

(** The double nearest to an integer. *)
Definition double_of_Z (z : Z) : float :=
  SF2Prim (binary_normalize prec emax z 0 false).

(** [Math.round]: the nearest integer, ties towards plus infinity; a
    result that is zero keeps the sign of the argument. *)
Definition Math_round (x : float) : float :=
  match Prim2SF x with
  | S754_finite s m e =>
      if 0 <=? e then x
      else
        let d := 2 ^ (- e) in
        let n := ((if s then - (2 * Zpos m) else 2 * Zpos m) + d) / (2 * d) in
        if n =? 0 then (if s then (-0)%float else 0%float)
        else double_of_Z n
  | _ => x
  end.

(** [Math.min] of two numbers: [NaN] when one of them is, and minus zero
    below plus zero. *)
Definition Math_min (x y : float) : float :=
  if is_nan x || is_nan y then nan
  else if (x <? y)%float then x
  else if (y <? x)%float then y
  else if get_sign x then x else y.


(** *** SQL numerics *)

(** A value of type [DECIMAL]: PostgreSQL takes [NaN] to be equal to itself
    and greater than every number. *)
Inductive numeric : Set :=
| rational (q : Q)
| numeric_NaN.

Definition numeric_eqb (x y : numeric) : bool :=
  match x, y with
  | rational a, rational b => Qeq_bool a b
  | numeric_NaN, numeric_NaN => true
  | _, _ => false
  end.

Definition numeric_leb (x y : numeric) : bool :=
  match x, y with
  | rational a, rational b => Qle_bool a b
  | _, numeric_NaN => true
  | numeric_NaN, rational _ => false
  end.

Definition numeric_ltb (x y : numeric) : bool := negb (numeric_leb y x).

(** Division and multiplication; the divisor is not zero where the
    functions below divide. *)
Definition numeric_div (x y : numeric) : numeric :=
  match x, y with
  | rational a, rational b => rational (a / b)
  | _, _ => numeric_NaN
  end.

Definition numeric_mul (x y : numeric) : numeric :=
  match x, y with
  | rational a, rational b => rational (a * b)
  | _, _ => numeric_NaN
  end.

Definition LEAST (x y : numeric) : numeric :=
  if numeric_leb x y then x else y.

(** A value of a column [DECIMAL(10,2)]: hundredths, or [NaN]. *)
Inductive decimal_10_2 : Set :=
| dec (hundredths : Z)
| dec_NaN.

(** The rational that a number of hundredths is. *)
Definition hundredths_Q (v : Z) : Q := inject_Z v / 100.

(** The value of a cell in an SQL expression. *)
Definition value (x : decimal_10_2) : numeric :=
  match x with
  | dec v => rational (hundredths_Q v)
  | dec_NaN => numeric_NaN
  end.

(** [x <= y] and [x < y] on two cells, or a cell and an integer
    constant. *)
Definition dec_leb (x y : decimal_10_2) : bool :=
  match x, y with
  | dec a, dec b => a <=? b
  | _, dec_NaN => true
  | dec_NaN, dec _ => false
  end.

Definition dec_ltb (x y : decimal_10_2) : bool := negb (dec_leb y x).

(** Rounding to the nearest integer, ties away from zero (PostgreSQL
    [numeric]). *)
Definition round_half_away (x : Q) : Z :=
  let n := Qnum x in
  let d := Zpos (Qden x) in
  Z.sgn n * ((2 * Z.abs n + d) / (2 * d)).

(** A number sent as a parameter and assigned to a column
    [DECIMAL(10,2)]; [None] is "numeric field overflow", also raised for an
    infinity. *)
Definition to_decimal_10_2 (x : number) : option decimal_10_2 :=
  match x with
  | num q =>
      let v := round_half_away (q * 100) in
      if Z.abs v <? 10 ^ 10 then Some (dec v) else None
  | NaN => Some dec_NaN
  | Infinity | neg_Infinity => None
  end.

(** [parseFloat] of the text of a cell, as the number the code passes
    on. *)
Definition of_decimal (x : decimal_10_2) : number :=
  match x with
  | dec v => num (hundredths_Q v)
  | dec_NaN => NaN
  end.

(** [parseFloat] of the text of a cell, as the double the code computes
    with: the one nearest to the decimal. *)
Definition double_of_decimal (x : decimal_10_2) : float :=
  match x with
  | dec v => (double_of_Z v / 100)%float
  | dec_NaN => nan
  end.

End Num.

(** ** The relational store *)

Module Pg.

Import Num.

Inductive objective_category : Set :=
| career | health | relationships | skills | financial | personal.

Inductive objective_status : Set :=
| active | completed | archived | abandoned.

Inductive key_result_status : Set :=
| not_started | in_progress | kr_completed | at_risk.

Inductive PgError : Set :=
| check_violation (constraint : string)
| foreign_key_violation (constraint : string)
| string_data_right_truncation
| numeric_value_out_of_range.

Record objectives_row : Set := mk_objectives_row {
  o_id : nat;
  o_user_id : nat;
  o_title : string;
  o_description : option string;
  o_category : objective_category;
  o_target_date : Z;
  o_status : objective_status
}.

Record key_results_row : Set := mk_key_results_row {
  kr_id : nat;
  kr_objective_id : nat;
  kr_description : string;
  kr_target_value : decimal_10_2;
  kr_current_value : decimal_10_2;
  kr_unit : string;
  kr_deadline : Z;
  kr_status : key_result_status
}.

Record progress_updates_row : Set := mk_progress_updates_row {
  pu_id : nat;
  pu_key_result_id : nat;
  pu_value_recorded : decimal_10_2;
  pu_notes : option string
}.

Record DB : Set := mkDB {
  objectives : list objectives_row;
  key_results : list key_results_row;
  progress_updates : list progress_updates_row;
  next_uuid : nat
}.

Definition key_result_status_eqb (a b : key_result_status) : bool :=
  match a, b with
  | not_started, not_started | in_progress, in_progress
  | kr_completed, kr_completed | at_risk, at_risk => true
  | _, _ => false
  end.

Definition strlen (s : string) : Z := Z.of_nat (String.length s).

(** The first [n] characters of a text. *)
Definition truncate (n : nat) (s : string) : string := String.substring 0 n s.

(** Assignment of a text to a column [VARCHAR(n)]: characters beyond the
    [n]-th are cut off when they are all spaces, and refused otherwise. *)
Definition varchar (n : nat) (s : string) : PgError + string :=
  if (String.length s <=? n)%nat then inr s
  else if forallb (Ascii.eqb " ")
            (list_ascii_of_string
               (String.substring n (String.length s - n) s))
  then inr (truncate n s)
  else inl string_data_right_truncation.

(** The same for a column that the SET list of an UPDATE may leave out. *)
Definition varchar_opt (n : nat) (o : option string)
    : PgError + option string :=
  match o with
  | None => inr None
  | Some s =>
      match varchar n s with
      | inl e => inl e
      | inr s => inr (Some s)
      end
  end.

(** *** key_results: functions and triggers (migration 005) *)

(** [calculate_completion_percentage(current_val, target_val)].  The
    quotient is taken exactly; PostgreSQL keeps at least sixteen
    significant digits, which no comparison below can tell apart. *)
Definition calculate_completion_percentage (current_val target_val : numeric)
    : numeric :=
  if numeric_eqb target_val (rational 0) then rational 0
  else LEAST (numeric_mul (numeric_div current_val target_val) (rational 100))
         (rational 100).

(** The status that [update_key_result_status()] assigns. *)
Definition auto_status (current_date : Z)
    (current_value target_value : numeric) (deadline : Z)
    : key_result_status :=
  let completion_pct :=
    calculate_completion_percentage current_value target_value in
  let days_until_deadline := deadline - current_date in
  if numeric_leb (rational 100) completion_pct then kr_completed
  else if numeric_ltb (rational 0) current_value then
    if (days_until_deadline <? 14) && numeric_ltb completion_pct (rational 50)
    then at_risk else in_progress
  else not_started.

(** Trigger function [update_key_result_status()], on the row [NEW]. *)
Definition update_key_result_status (current_date : Z)
    (NEW : key_results_row) : key_results_row :=
  mk_key_results_row (kr_id NEW) (kr_objective_id NEW) (kr_description NEW)
    (kr_target_value NEW) (kr_current_value NEW) (kr_unit NEW)
    (kr_deadline NEW)
    (auto_status current_date (value (kr_current_value NEW))
       (value (kr_target_value NEW)) (kr_deadline NEW)).

(** CHECK constraints of [key_results]; PostgreSQL tests them in
    alphabetical order of their names. *)
Definition key_results_checks (r : key_results_row) : option PgError :=
  if negb (dec_leb (dec 0) (kr_current_value r)
           && dec_leb (kr_current_value r) (kr_target_value r))
  then Some (check_violation "key_results_current_value_valid")
  else if negb ((10 <=? strlen (kr_description r))
                && (strlen (kr_description r) <=? 300))
  then Some (check_violation "key_results_description_length")
  else if negb (dec_ltb (dec 0) (kr_target_value r))
  then Some (check_violation "key_results_target_value_positive")
  else None.

(** CHECK constraints of [objectives] (migration 004). *)
Definition objectives_checks (current_date : Z) (r : objectives_row)
    : option PgError :=
  if negb (current_date <=? o_target_date r)
  then Some (check_violation "objectives_target_date_future")
  else if negb ((5 <=? strlen (o_title r)) && (strlen (o_title r) <=? 200))
  then Some (check_violation "objectives_title_length")
  else None.

(** CHECK constraints of [progress_updates] (migration 006). *)
Definition progress_updates_checks (r : progress_updates_row)
    : option PgError :=
  if negb (match pu_notes r with
           | None => true
           | Some n => strlen n <=? 1000
           end)
  then Some (check_violation "progress_updates_notes_length")
  else if negb (dec_leb (dec 0) (pu_value_recorded r))
  then Some (check_violation "progress_updates_value_positive")
  else None.

(** [UPDATE t SET ... WHERE p]: every row that satisfies [p] is replaced by
    the row the SET list, the BEFORE triggers and the constraints let
    through; one rejected row aborts the statement.  The result is the new
    table and the updated rows ([RETURNING]). *)
Fixpoint update_where {R : Set} (p : R -> bool) (upd : R -> PgError + R)
    (rows : list R) : PgError + (list R * list R) :=
  match rows with
  | [] => inr ([], [])
  | r :: rest =>
      if p r then
        match upd r with
        | inl e => inl e
        | inr r' =>
            match update_where p upd rest with
            | inl e => inl e
            | inr (rest', ret) => inr (r' :: rest', r' :: ret)
            end
        end
      else
        match update_where p upd rest with
        | inl e => inl e
        | inr (rest', ret) => inr (r :: rest', ret)
        end
  end.

Definition with_current_value (r : key_results_row) (v : decimal_10_2)
    : key_results_row :=
  mk_key_results_row (kr_id r) (kr_objective_id r) (kr_description r)
    (kr_target_value r) v (kr_unit r) (kr_deadline r) (kr_status r).

(** Trigger function [update_key_result_from_progress()], fired AFTER
    INSERT on [progress_updates]: it runs
    [UPDATE key_results SET current_value = NEW.value_recorded WHERE id =
    NEW.key_result_id], which in turn fires the BEFORE UPDATE trigger
    [key_results_auto_status] and is subject to the CHECK constraints. *)
Definition update_key_result_from_progress (current_date : Z)
    (NEW : progress_updates_row) (krs : list key_results_row)
    : PgError + (list key_results_row * list key_results_row) :=
  update_where
    (fun r => Nat.eqb (kr_id r) (pu_key_result_id NEW))
    (fun r =>
       let r' := update_key_result_status current_date
                   (with_current_value r (pu_value_recorded NEW)) in
       match key_results_checks r' with
       | Some e => inl e
       | None => inr r'
       end)
    krs.

(** *** Statements *)

(** [INSERT INTO objectives (user_id, title, description, category,
    target_date) VALUES (...) RETURNING ...]. *)
Definition insert_objective (current_date : Z) (user_id : nat)
    (title : string) (description : option string)
    (category : objective_category) (target_date : Z) (db : DB)
    : PgError + (DB * objectives_row) :=
  match varchar 200 title with
  | inl e => inl e
  | inr title =>
      let NEW := mk_objectives_row (next_uuid db) user_id title description
                   category target_date active in
      match objectives_checks current_date NEW with
      | Some e => inl e
      | None =>
          inr (mkDB (objectives db ++ [NEW]) (key_results db)
                 (progress_updates db) (S (next_uuid db)), NEW)
      end
  end.

(** [INSERT INTO key_results (objective_id, description, target_value,
    current_value, unit, deadline) VALUES (...) RETURNING ...]; the BEFORE
    INSERT trigger [key_results_auto_status] sets the status. *)
Definition insert_key_result (current_date : Z) (objective_id : nat)
    (description : string) (target_value current_value : number)
    (unit : string) (deadline : Z) (db : DB)
    : PgError + (DB * key_results_row) :=
  match varchar 300 description with
  | inl e => inl e
  | inr description =>
      match to_decimal_10_2 target_value, to_decimal_10_2 current_value with
      | Some tv, Some cv =>
          match varchar 50 unit with
          | inl e => inl e
          | inr unit =>
              let NEW := update_key_result_status current_date
                           (mk_key_results_row (next_uuid db) objective_id
                              description tv cv unit deadline not_started) in
              match key_results_checks NEW with
              | Some e => inl e
              | None =>
                  if existsb (fun o => Nat.eqb (o_id o) objective_id)
                       (objectives db)
                  then inr (mkDB (objectives db) (key_results db ++ [NEW])
                              (progress_updates db) (S (next_uuid db)), NEW)
                  else inl (foreign_key_violation
                              "key_results_objective_id_fkey")
              end
          end
      | _, _ => inl numeric_value_out_of_range
      end
  end.

(** [INSERT INTO progress_updates (key_result_id, value_recorded, notes)
    VALUES (...) RETURNING ...], with its AFTER INSERT trigger
    [progress_updates_update_key_result]. *)
Definition insert_progress_update (current_date : Z) (key_result_id : nat)
    (value_recorded : number) (notes : option string) (db : DB)
    : PgError + (DB * progress_updates_row) :=
  match to_decimal_10_2 value_recorded with
  | None => inl numeric_value_out_of_range
  | Some v =>
      let NEW := mk_progress_updates_row (next_uuid db) key_result_id v
                   notes in
      match progress_updates_checks NEW with
      | Some e => inl e
      | None =>
          if existsb (fun r => Nat.eqb (kr_id r) key_result_id)
               (key_results db)
          then
            match update_key_result_from_progress current_date NEW
                    (key_results db) with
            | inl e => inl e
            | inr (krs', _) =>
                inr (mkDB (objectives db) krs'
                       (progress_updates db ++ [NEW]) (S (next_uuid db)),
                     NEW)
            end
          else
            inl (foreign_key_violation "progress_updates_key_result_id_fkey")
      end
  end.

(** [DELETE FROM key_results WHERE id = $1]; the foreign key of
    [progress_updates] is ON DELETE CASCADE.  The result carries the row
    count. *)
Definition delete_key_result (id : nat) (db : DB) : PgError + (DB * nat) :=
  inr (mkDB (objectives db)
         (filter (fun r => negb (Nat.eqb (kr_id r) id)) (key_results db))
         (filter (fun u => negb (Nat.eqb (pu_key_result_id u) id))
            (progress_updates db))
         (next_uuid db),
       List.length (filter (fun r => Nat.eqb (kr_id r) id) (key_results db))).

(** [UPDATE key_results SET <the given columns> WHERE id = $n RETURNING
    ...].  The values are coerced to the column types first; the trigger
    [key_results_auto_status] is BEFORE UPDATE OF current_value,
    target_value, deadline and fires only when one of them is in the SET
    list. *)
Definition update_key_result (current_date : Z) (id : nat)
    (description : option string)
    (target_value current_value : option number)
    (unit : option string) (deadline : option Z) (db : DB)
    : PgError + (DB * list key_results_row) :=
  let coerce (o : option number) : option (option decimal_10_2) :=
    match o with
    | None => Some None
    | Some x =>
        match to_decimal_10_2 x with
        | Some v => Some (Some v)
        | None => None
        end
    end in
  match varchar_opt 300 description with
  | inl e => inl e
  | inr description =>
      match coerce target_value, coerce current_value with
      | Some tv, Some cv =>
          match varchar_opt 50 unit with
          | inl e => inl e
          | inr unit =>
              let fires :=
                match tv, cv, deadline with
                | None, None, None => false
                | _, _, _ => true
                end in
              let set (r : key_results_row) :=
                mk_key_results_row (kr_id r) (kr_objective_id r)
                  (match description with
                   | Some d => d
                   | None => kr_description r
                   end)
                  (match tv with Some v => v | None => kr_target_value r end)
                  (match cv with Some v => v | None => kr_current_value r end)
                  (match unit with Some u => u | None => kr_unit r end)
                  (match deadline with Some d => d | None => kr_deadline r end)
                  (kr_status r) in
              match update_where (fun r => Nat.eqb (kr_id r) id)
                      (fun r =>
                         let r' := if fires
                                   then update_key_result_status current_date
                                          (set r)
                                   else set r in
                         match key_results_checks r' with
                         | Some e => inl e
                         | None => inr r'
                         end)
                      (key_results db) with
              | inl e => inl e
              | inr (krs', ret) =>
                  inr (mkDB (objectives db) krs' (progress_updates db)
                         (next_uuid db), ret)
              end
          end
      | _, _ => inl numeric_value_out_of_range
      end
  end.

(** [UPDATE objectives SET <the given columns> WHERE id = $n RETURNING
    ...].  The CHECK constraints are tested on every updated row, whatever
    the columns that changed. *)
Definition update_objective (current_date : Z) (id : nat)
    (title description : option string)
    (category : option objective_category) (target_date : option Z)
    (status : option objective_status) (db : DB)
    : PgError + (DB * list objectives_row) :=
  match varchar_opt 200 title with
  | inl e => inl e
  | inr title =>
      let set (r : objectives_row) :=
        mk_objectives_row (o_id r) (o_user_id r)
          (match title with Some t => t | None => o_title r end)
          (match description with
           | Some d => Some d
           | None => o_description r
           end)
          (match category with Some c => c | None => o_category r end)
          (match target_date with Some d => d | None => o_target_date r end)
          (match status with Some s => s | None => o_status r end) in
      match update_where (fun r => Nat.eqb (o_id r) id)
              (fun r =>
                 match objectives_checks current_date (set r) with
                 | Some e => inl e
                 | None => inr (set r)
                 end)
              (objectives db) with
      | inl e => inl e
      | inr (os', ret) =>
          inr (mkDB os' (key_results db) (progress_updates db)
                 (next_uuid db), ret)
      end
  end.

(** [DELETE FROM objectives WHERE id = $1]: the rows of [key_results] that
    reference a deleted Objective go with it (ON DELETE CASCADE), and with
    them the rows of [progress_updates] that reference those. *)
Definition delete_objective (id : nat) (db : DB) : PgError + (DB * nat) :=
  let deleted := filter (fun o => Nat.eqb (o_id o) id) (objectives db) in
  match deleted with
  | [] => inr (db, 0%nat)
  | _ :: _ =>
      let cascaded :=
        filter (fun r => Nat.eqb (kr_objective_id r) id) (key_results db) in
      inr (mkDB
             (filter (fun o => negb (Nat.eqb (o_id o) id)) (objectives db))
             (filter (fun r => negb (Nat.eqb (kr_objective_id r) id))
                (key_results db))
             (filter (fun u =>
                        negb (existsb
                                (fun r => Nat.eqb (kr_id r) (pu_key_result_id
                                    u))
                                cascaded))
                (progress_updates db))
             (next_uuid db),
           List.length deleted)
  end.

(** [DELETE FROM progress_updates WHERE id = $1]. *)
Definition delete_progress_update (id : nat) (db : DB)
    : PgError + (DB * nat) :=
  inr (mkDB (objectives db) (key_results db)
         (filter (fun u => negb (Nat.eqb (pu_id u) id)) (progress_updates db))
         (next_uuid db),
       List.length (filter (fun u => Nat.eqb (pu_id u) id)
                      (progress_updates db))).

(** [ORDER BY key ASC]: rows with equal keys keep the order they come in. *)
Fixpoint insert_by {R : Set} (key : R -> Z) (x : R) (rows : list R)
    : list R :=
  match rows with
  | [] => [x]
  | y :: rest =>
      if key x <=? key y then x :: y :: rest
      else y :: insert_by key x rest
  end.

Definition order_by {R : Set} (key : R -> Z) (rows : list R) : list R :=
  fold_right (insert_by key) [] rows.

End Pg.

(** ** Service calls as sequences of commits *)

Module Run.

Import Pg.

(** What a caller can catch: an error made by [createError(message,
    statusCode, code)], or an error raised by the store.  A message is a
    fixed text, or a text followed by an identifier
    ([`Key result not found: ${update.keyResultId}`]). *)
Inductive Message : Set :=
| text (s : string)
| text_id (s : string) (id : nat).

Inductive Error : Set :=
| AppError (message : Message) (statusCode : nat) (code : string)
| DatabaseError (e : PgError).

(** [createError(message, statusCode, code)] with a fixed message. *)
Notation createError message statusCode code :=
  (AppError (text message) statusCode code).

Inductive Outcome (A : Type) : Type :=
| Returned (a : A)
| Threw (e : Error).
Arguments Returned {A} a.
Arguments Threw {A} e.

(** The states committed by a call, oldest first, and how it ended. *)
Record Run (A : Type) : Type := mkRun {
  commits : list DB;
  outcome : Outcome A
}.
Arguments mkRun {A} commits outcome.
Arguments commits {A} r.
Arguments outcome {A} r.

(** The store when the call is over. *)
Definition final {A : Type} (db : DB) (r : Run A) : DB := last (commits r) db.

(** An [async] computation: it reads [CURRENT_DATE] and the store it
    starts from. *)
Definition M (A : Type) : Type := Z -> DB -> Run A.

Definition ret {A : Type} (a : A) : M A :=
  fun _ _ => mkRun [] (Returned a).

Definition throw {A : Type} (e : Error) : M A :=
  fun _ _ => mkRun [] (Threw e).

Definition bind {A B : Type} (m : M A) (k : A -> M B) : M B :=
  fun today db =>
    let r := m today db in
    match outcome r with
    | Returned a =>
        let r' := k a today (final db r) in
        mkRun (commits r ++ commits r') (outcome r')
    | Threw e => mkRun (commits r) (Threw e)
    end.

(** A SELECT. *)
Definition select {A : Type} (q : DB -> A) : M A :=
  fun _ db => mkRun [] (Returned (q db)).

(** A writing statement in autocommit mode. *)
Definition statement {A : Type} (st : Z -> DB -> PgError + (DB * A)) : M A :=
  fun today db =>
    match st today db with
    | inr (db', a) => mkRun [db'] (Returned a)
    | inl e => mkRun [] (Threw (DatabaseError e))
    end.

(** [Promise.all(ms)]: every computation of [ms] has been started, so all
    run to their end; the result is rejected when one of them is.  The
    statements are taken in list order, and so is the first rejection. *)
Fixpoint Promise_all {A : Type} (ms : list (M A)) : M (list A) :=
  fun today db =>
    match ms with
    | [] => mkRun [] (Returned [])
    | m :: rest =>
        let r := m today db in
        let r' := Promise_all rest today (final db r) in
        mkRun (commits r ++ commits r')
          (match outcome r, outcome r' with
           | Returned a, Returned l => Returned (a :: l)
           | Threw e, _ => Threw e
           | Returned _, Threw e => Threw e
           end)
    end.

(** [for (const x of xs) { await body(x) }]. *)
Fixpoint for_of {A : Type} (xs : list A) (body : A -> M unit) : M unit :=
  match xs with
  | [] => ret tt
  | x :: rest => bind (body x) (fun _ => for_of rest body)
  end.

(** The states another session can see while the call runs. *)
Definition observable {A : Type} (db : DB) (r : Run A) : list DB :=
  db :: commits r.

(** One atomic unit of work: nothing but the state before and the state
    after is ever visible, and a call that throws leaves the state
    before. *)
Definition all_or_nothing {A : Type} (db : DB) (r : Run A) : Prop :=
  Forall (fun s => s = db \/ s = final db r) (observable db r)
  /\ (forall e, outcome r = Threw e -> final db r = db).

End Run.

Declare Scope okr_scope.
Notation "x <- m ;; k" := (Run.bind m (fun x => k))
  (at level 61, m at next level, right associativity) : okr_scope.
Notation "m ;;; k" := (Run.bind m (fun _ => k))
  (at level 61, right associativity) : okr_scope.
Local Open Scope okr_scope.

(** ** Models *)

Module ObjectiveModel.

Import Pg Run.

Record Objective : Set := mkObjective {
  id : nat;
  userId : nat;
  title : string;
  description : option string;
  category : objective_category;
  targetDate : Z;
  status : objective_status
}.

Record CreateObjectiveData : Set := mkCreateObjectiveData {
  c_userId : nat;
  c_title : string;
  c_description : option string;
  c_category : objective_category;
  c_targetDate : Z
}.

Record UpdateObjectiveData : Set := mkUpdateObjectiveData {
  u_title : option string;
  u_description : option string;
  u_category : option objective_category;
  u_targetDate : option Z;
  u_status : option objective_status
}.

Definition mapRowToObjective (row : objectives_row) : Objective :=
  mkObjective (o_id row) (o_user_id row) (o_title row) (o_description row)
    (o_category row) (o_target_date row) (o_status row).

(** [x || null] on an optional string. *)
Definition or_null (x : option string) : option string :=
  match x with
  | Some EmptyString => None
  | _ => x
  end.

Definition createObjective (data : CreateObjectiveData) : M Objective :=
  row <- statement (fun today =>
           insert_objective today (c_userId data) (c_title data)
             (or_null (c_description data)) (c_category data)
             (c_targetDate data)) ;;
  ret (mapRowToObjective row).

Definition findObjectiveById (id : nat) : M (option Objective) :=
  select (fun db =>
    option_map mapRowToObjective
      (find (fun r => Nat.eqb (o_id r) id) (objectives db))).

Definition updateObjective (id : nat) (data : UpdateObjectiveData)
    : M (option Objective) :=
  match u_title data, u_description data, u_category data,
        u_targetDate data, u_status data with
  | None, None, None, None, None => findObjectiveById id
  | _, _, _, _, _ =>
      rows <- statement (fun today =>
                update_objective today id (u_title data)
                  (u_description data) (u_category data)
                  (u_targetDate data) (u_status data)) ;;
      match rows with
      | [] => ret None
      | row :: _ => ret (Some (mapRowToObjective row))
      end
  end.

(** [ORDER BY target_date ASC, created_at DESC]: among equal target dates
    the row inserted last comes first. *)
Definition findObjectivesByUserId (userId : nat)
    (category : option objective_category) (status : option objective_status)
    : M (list Objective) :=
  select (fun db =>
    map mapRowToObjective
      (order_by o_target_date
         (rev
            (filter
               (fun r =>
                  Nat.eqb (o_user_id r) userId
                  && match category with
                     | Some c =>
                         match o_category r, c with
                         | career, career | health, health
                         | relationships, relationships | skills, skills
                         | financial, financial | personal, personal => true
                         | _, _ => false
                         end
                     | None => true
                     end
                  && match status with
                     | Some st =>
                         match o_status r, st with
                         | active, active | completed, completed
                         | archived, archived | abandoned, abandoned => true
                         | _, _ => false
                         end
                     | None => true
                     end)
               (objectives db))))).

Definition deleteObjective (id : nat) : M bool :=
  rowCount <- statement (fun _ => delete_objective id) ;;
  ret (Nat.ltb 0 rowCount).

End ObjectiveModel.

Module KeyResultModel.

Import Num Pg Run.

Record KeyResult : Set := mkKeyResult {
  id : nat;
  objectiveId : nat;
  description : string;
  targetValue : number;
  currentValue : number;
  unit : string;
  deadline : Z;
  completionPercentage : float;
  status : key_result_status
}.

Record CreateKeyResultData : Set := mkCreateKeyResultData {
  c_objectiveId : nat;
  c_description : string;
  c_targetValue : number;
  c_unit : string;
  c_deadline : Z;
  c_currentValue : option number
}.

Record UpdateKeyResultData : Set := mkUpdateKeyResultData {
  u_description : option string;
  u_targetValue : option number;
  u_currentValue : option number;
  u_unit : option string;
  u_deadline : option Z
}.

Definition calculateCompletionPercentage (currentValue targetValue : float)
    : float :=
  if (targetValue =? 0)%float then 0%float
  else Math_min ((currentValue / targetValue) * 100)%float 100%float.

Definition mapRowToKeyResult (row : key_results_row) : KeyResult :=
  let completionPercentage :=
    calculateCompletionPercentage (double_of_decimal (kr_current_value row))
      (double_of_decimal (kr_target_value row)) in
  mkKeyResult (kr_id row) (kr_objective_id row) (kr_description row)
    (of_decimal (kr_target_value row)) (of_decimal (kr_current_value row))
    (kr_unit row) (kr_deadline row)
    (Math_round (completionPercentage * 100) / 100)%float
    (kr_status row).

(** [x || 0] on an optional number: [undefined], [NaN] and zero are
    falsy. *)
Definition or_zero (x : option number) : number :=
  match x with
  | None | Some NaN => num 0
  | Some (num q) => if Qeq_bool q 0 then num 0 else num q
  | Some x => x
  end.

Definition createKeyResult (data : CreateKeyResultData) : M KeyResult :=
  row <- statement (fun today =>
           insert_key_result today (c_objectiveId data) (c_description data)
             (c_targetValue data) (or_zero (c_currentValue data))
             (c_unit data) (c_deadline data)) ;;
  ret (mapRowToKeyResult row).

Definition findKeyResultById (id : nat) : M (option KeyResult) :=
  select (fun db =>
    option_map mapRowToKeyResult
      (find (fun r => Nat.eqb (kr_id r) id) (key_results db))).

Definition findKeyResultsByObjectiveId (objectiveId : nat)
    : M (list KeyResult) :=
  select (fun db =>
    map mapRowToKeyResult
      (filter (fun r => Nat.eqb (kr_objective_id r) objectiveId)
         (key_results db))).

Definition updateKeyResult (id : nat) (data : UpdateKeyResultData)
    : M (option KeyResult) :=
  match u_description data, u_targetValue data, u_currentValue data,
        u_unit data, u_deadline data with
  | None, None, None, None, None => findKeyResultById id
  | _, _, _, _, _ =>
      rows <- statement (fun today =>
                update_key_result today id (u_description data)
                  (u_targetValue data) (u_currentValue data) (u_unit data)
                  (u_deadline data)) ;;
      match rows with
      | [] => ret None
      | row :: _ => ret (Some (mapRowToKeyResult row))
      end
  end.

Definition deleteKeyResult (id : nat) : M bool :=
  rowCount <- statement (fun _ => delete_key_result id) ;;
  ret (Nat.ltb 0 rowCount).

(** [SELECT kr.* FROM key_results kr JOIN objectives o ON kr.objective_id =
    o.id WHERE o.user_id = $1 AND kr.status = 'at_risk' ORDER BY kr.deadline
    ASC]. *)
Definition getAtRiskKeyResults (userId : nat) : M (list KeyResult) :=
  select (fun db =>
    map mapRowToKeyResult
      (order_by kr_deadline
         (flat_map
            (fun kr =>
               flat_map
                 (fun o =>
                    if Nat.eqb (kr_objective_id kr) (o_id o)
                       && Nat.eqb (o_user_id o) userId
                       && key_result_status_eqb (kr_status kr) at_risk
                    then [kr] else [])
                 (objectives db))
            (key_results db)))).

End KeyResultModel.

Module ProgressUpdateModel.

Import Num Pg Run.

Record ProgressUpdate : Set := mkProgressUpdate {
  id : nat;
  keyResultId : nat;
  valueRecorded : number;
  notes : option string
}.

Record CreateProgressUpdateData : Set := mkCreateProgressUpdateData {
  c_keyResultId : nat;
  c_valueRecorded : number;
  c_notes : option string
}.

Definition mapRowToProgressUpdate (row : progress_updates_row)
    : ProgressUpdate :=
  mkProgressUpdate (pu_id row) (pu_key_result_id row)
    (of_decimal (pu_value_recorded row)) (pu_notes row).

Definition createProgressUpdate (data : CreateProgressUpdateData)
    : M ProgressUpdate :=
  row <- statement (fun today =>
           insert_progress_update today (c_keyResultId data)
             (c_valueRecorded data)
             (ObjectiveModel.or_null (c_notes data))) ;;
  ret (mapRowToProgressUpdate row).

Definition findProgressUpdateById (id : nat) : M (option ProgressUpdate) :=
  select (fun db =>
    option_map mapRowToProgressUpdate
      (find (fun u => Nat.eqb (pu_id u) id) (progress_updates db))).

Definition deleteProgressUpdate (id : nat) : M bool :=
  rowCount <- statement (fun _ => delete_progress_update id) ;;
  ret (Nat.ltb 0 rowCount).

End ProgressUpdateModel.

(** ** Services *)

Module ObjectiveService.

Import Pg Run.

Record KeyResultSpec : Set := mkKeyResultSpec {
  k_description : string;
  k_targetValue : Num.number;
  k_unit : string;
  k_deadline : Z
}.

Record CreateObjectiveRequest : Set := mkCreateObjectiveRequest {
  r_userId : nat;
  r_title : string;
  r_description : option string;
  r_category : objective_category;
  r_targetDate : Z;
  r_keyResults : list KeyResultSpec
}.

Record ObjectiveWithKeyResults : Set := mkObjectiveWithKeyResults {
  objective : ObjectiveModel.Objective;
  keyResults : list KeyResultModel.KeyResult
}.

Definition createObjectiveWithKeyResults (data : CreateObjectiveRequest)
    : M ObjectiveWithKeyResults :=
  if (List.length (r_keyResults data) <? 2)%nat
     || (5 <? List.length (r_keyResults data))%nat
  then throw (createError "Each objective must have between 2 and 5 key results"
      400 "INVALID_KEY_RESULTS_COUNT")
  else
    let invalidDeadlines :=
      filter (fun kr => r_targetDate data <? k_deadline kr)
        (r_keyResults data) in
    if (0 <? List.length invalidDeadlines)%nat
    then throw (createError
        "All key result deadlines must be on or before the objective target date"
          400 "INVALID_DEADLINE")
    else
      objective <- ObjectiveModel.createObjective
                     (ObjectiveModel.mkCreateObjectiveData (r_userId data)
                        (r_title data) (r_description data)
                        (r_category data) (r_targetDate data)) ;;
      keyResults <- Promise_all
                      (map (fun kr =>
                              KeyResultModel.createKeyResult
                                (KeyResultModel.mkCreateKeyResultData
                                   (ObjectiveModel.id objective)
                                   (k_description kr) (k_targetValue kr)
                                   (k_unit kr) (k_deadline kr) None))
                         (r_keyResults data)) ;;
      ret (mkObjectiveWithKeyResults objective keyResults).

Definition getObjectiveWithKeyResults (objectiveId : nat)
    : M (option ObjectiveWithKeyResults) :=
  objective <- ObjectiveModel.findObjectiveById objectiveId ;;
  match objective with
  | None => ret None
  | Some objective =>
      keyResults <- KeyResultModel.findKeyResultsByObjectiveId objectiveId ;;
      ret (Some (mkObjectiveWithKeyResults objective keyResults))
  end.

Definition updateObjective (objectiveId : nat)
    (data : ObjectiveModel.UpdateObjectiveData)
    : M (option ObjectiveModel.Objective) :=
  ObjectiveModel.updateObjective objectiveId data.

(** The test of [checkAndUpdateObjectiveCompletion]:
    [keyResults.length > 0 && keyResults.every(kr => kr.status ===
    'completed')]. *)
Definition allCompleted (keyResults : list KeyResultModel.KeyResult) : bool :=
  (0 <? List.length keyResults)%nat
  && forallb (fun kr =>
                key_result_status_eqb (KeyResultModel.status kr) kr_completed)
       keyResults.

Definition checkAndUpdateObjectiveCompletion (objectiveId : nat) : M unit :=
  keyResults <- KeyResultModel.findKeyResultsByObjectiveId objectiveId ;;
  if allCompleted keyResults
  then ObjectiveModel.updateObjective objectiveId
         (ObjectiveModel.mkUpdateObjectiveData None None None None
            (Some completed)) ;;;
       ret tt
  else ret tt.

Definition getUserObjectivesWithKeyResults (userId : nat)
    (category : option objective_category) (status : option objective_status)
    : M (list ObjectiveWithKeyResults) :=
  objectives <- ObjectiveModel.findObjectivesByUserId userId category status ;;
  Promise_all
    (map (fun objective =>
            keyResults <- KeyResultModel.findKeyResultsByObjectiveId
                            (ObjectiveModel.id objective) ;;
            ret (mkObjectiveWithKeyResults objective keyResults))
       objectives).

Definition deleteObjective (objectiveId : nat) : M bool :=
  ObjectiveModel.deleteObjective objectiveId.

End ObjectiveService.

Module KeyResultService.

Import Pg Run.

Record UpdateProgressRequest : Set := mkUpdateProgressRequest {
  keyResultId : nat;
  valueRecorded : Num.number;
  notes : option string
}.

Definition updateProgress (data : UpdateProgressRequest)
    : M ProgressUpdateModel.ProgressUpdate :=
  keyResult <- KeyResultModel.findKeyResultById (keyResultId data) ;;
  match keyResult with
  | None => throw (createError "Key result not found" 404
      "KEY_RESULT_NOT_FOUND")
  | Some keyResult =>
      if Num.number_ltb (valueRecorded data) (Num.num 0)
      then throw (createError "Progress value cannot be negative" 400
          "INVALID_PROGRESS_VALUE")
      else
        progressUpdate <- ProgressUpdateModel.createProgressUpdate
                            (ProgressUpdateModel.mkCreateProgressUpdateData
                               (keyResultId data) (valueRecorded data)
                               (notes data)) ;;
        ObjectiveService.checkAndUpdateObjectiveCompletion
          (KeyResultModel.objectiveId keyResult) ;;;
        ret progressUpdate
  end.

Definition updateKeyResult (keyResultId : nat)
    (data : KeyResultModel.UpdateKeyResultData)
    : M (option KeyResultModel.KeyResult) :=
  (match KeyResultModel.u_deadline data with
   | Some deadline =>
       keyResult <- KeyResultModel.findKeyResultById keyResultId ;;
       match keyResult with
       | None => throw (createError "Key result not found" 404
           "KEY_RESULT_NOT_FOUND")
       | Some keyResult =>
           objective <- ObjectiveService.getObjectiveWithKeyResults
                          (KeyResultModel.objectiveId keyResult) ;;
           match objective with
           | Some o =>
               if ObjectiveModel.targetDate (ObjectiveService.objective o)
                  <? deadline
               then throw (createError
                   "Key result deadline must be on or before the objective target date"
                     400 "INVALID_DEADLINE")
               else ret tt
           | None => ret tt
           end
       end
   | None => ret tt
   end) ;;;
  KeyResultModel.updateKeyResult keyResultId data.

Definition deleteKeyResult (keyResultId : nat) : M bool :=
  keyResult <- KeyResultModel.findKeyResultById keyResultId ;;
  match keyResult with
  | None => ret false
  | Some keyResult =>
      allKeyResults <- KeyResultModel.findKeyResultsByObjectiveId
                         (KeyResultModel.objectiveId keyResult) ;;
      if (List.length allKeyResults <=? 2)%nat
      then throw (createError
          "Cannot delete key result. Objectives must have at least 2 key results."
            400 "MINIMUM_KEY_RESULTS_REQUIRED")
      else KeyResultModel.deleteKeyResult keyResultId
  end.

(** [objectiveIds.add(x)] on a [Set<string>], kept in insertion order. *)
Definition Set_add (x : nat) (s : list nat) : list nat :=
  if existsb (Nat.eqb x) s then s else s ++ [x].

(** The first loop of [batchUpdateProgress], with its two accumulators. *)
Fixpoint batchUpdateProgress_loop (updates : list UpdateProgressRequest)
    (results : list ProgressUpdateModel.ProgressUpdate)
    (objectiveIds : list nat)
    : M (list ProgressUpdateModel.ProgressUpdate * list nat) :=
  match updates with
  | [] => ret (results, objectiveIds)
  | update :: rest =>
      keyResult <- KeyResultModel.findKeyResultById (keyResultId update) ;;
      match keyResult with
      | None => throw (AppError (text_id "Key result not found: " (keyResultId
          update)) 404 "KEY_RESULT_NOT_FOUND")
      | Some keyResult =>
          let objectiveIds :=
            Set_add (KeyResultModel.objectiveId keyResult) objectiveIds in
          progressUpdate <- ProgressUpdateModel.createProgressUpdate
                              (ProgressUpdateModel.mkCreateProgressUpdateData
                                 (keyResultId update) (valueRecorded update)
                                 (notes update)) ;;
          batchUpdateProgress_loop rest (results ++ [progressUpdate])
            objectiveIds
      end
  end.

Definition batchUpdateProgress (updates : list UpdateProgressRequest)
    : M (list ProgressUpdateModel.ProgressUpdate) :=
  acc <- batchUpdateProgress_loop updates [] [] ;;
  for_of (snd acc) ObjectiveService.checkAndUpdateObjectiveCompletion ;;;
  ret (fst acc).

Definition getAtRiskKeyResults (userId : nat)
    : M (list KeyResultModel.KeyResult) :=
  KeyResultModel.getAtRiskKeyResults userId.

End KeyResultService.

(** ** The route [PUT /api/objectives/:id] *)

Module ObjectivesRoute.

Import Pg Run.

(** The fields read from [req.body]; [category] and [status] arrive as
    text. *)
Record Body : Set := mkBody {
  title : option string;
  description : option string;
  category : option string;
  targetDate : option Z;
  status : option string
}.

Definition validCategories : list (string * objective_category) :=
  [("career", career); ("health", health);
   ("relationships", relationships); ("skills", skills);
   ("financial", financial); ("personal", personal)]%string.

Definition validStatuses : list (string * objective_status) :=
  [("active", active); ("completed", completed); ("archived", archived);
   ("abandoned", abandoned)]%string.

(** [valid.includes(x)], with the value of the enumeration it names. *)
Definition includes {A : Set} (valid : list (string * A)) (x : string)
    : option A :=
  option_map snd (find (fun p => String.eqb (fst p) x) valid).

Definition put (userId id : nat) (body : Body)
    : M (option ObjectiveModel.Objective) :=
  existing <- ObjectiveService.getObjectiveWithKeyResults id ;;
  match existing with
  | None => throw (createError "Objective not found" 404 "OBJECTIVE_NOT_FOUND")
  | Some existing =>
      if negb (Nat.eqb
                 (ObjectiveModel.userId (ObjectiveService.objective existing))
                 userId)
      then throw (createError "Access denied" 403 "ACCESS_DENIED")
      else
        u_title <-
          match title body with
          | None => ret None
          | Some t =>
              if (strlen t <? 5) || (200 <? strlen t)
              then throw (createError
                  "Title must be between 5 and 200 characters" 400
                      "INVALID_TITLE")
              else ret (Some t)
          end ;;
        u_category <-
          match category body with
          | None => ret None
          | Some c =>
              match includes validCategories c with
              | None => throw (createError "Invalid category" 400
                  "INVALID_CATEGORY")
              | Some c => ret (Some c)
              end
          end ;;
        u_targetDate <-
          match targetDate body with
          | None => ret None
          | Some target =>
              if existsb (fun kr => target <? KeyResultModel.deadline kr)
                   (ObjectiveService.keyResults existing)
              then throw (createError
                  "Cannot set target date before existing key result deadlines"
                      400 "INVALID_TARGET_DATE")
              else ret (Some target)
          end ;;
        u_status <-
          match status body with
          | None => ret None
          | Some s =>
              match includes validStatuses s with
              | None => throw (createError "Invalid status" 400
                  "INVALID_STATUS")
              | Some s => ret (Some s)
              end
          end ;;
        ObjectiveService.updateObjective id
          (ObjectiveModel.mkUpdateObjectiveData u_title (description body)
             u_category u_targetDate u_status)
  end.

(** [GET /api/objectives/:id]. *)
Definition get (userId id : nat) : M ObjectiveService.ObjectiveWithKeyResults :=
  objective <- ObjectiveService.getObjectiveWithKeyResults id ;;
  match objective with
  | None => throw (createError "Objective not found" 404 "OBJECTIVE_NOT_FOUND")
  | Some objective =>
      if negb (Nat.eqb
                 (ObjectiveModel.userId (ObjectiveService.objective objective))
                 userId)
      then throw (createError "Access denied" 403 "ACCESS_DENIED")
      else ret objective
  end.

(** [DELETE /api/objectives/:id]. *)
Definition delete (userId id : nat) : M unit :=
  existing <- ObjectiveService.getObjectiveWithKeyResults id ;;
  match existing with
  | None => throw (createError "Objective not found" 404 "OBJECTIVE_NOT_FOUND")
  | Some existing =>
      if negb (Nat.eqb
                 (ObjectiveModel.userId (ObjectiveService.objective existing))
                 userId)
      then throw (createError "Access denied" 403 "ACCESS_DENIED")
      else ObjectiveService.deleteObjective id ;;; ret tt
  end.

End ObjectivesRoute.

(** ** The routes of [/api/key-results] *)

Module KeyResultsRoute.

Import Pg Run.

(** The check every handler repeats after it has found the Key Result: the
    caller must own the parent Objective. *)
Definition verifyOwnership (userId : nat) (existing : KeyResultModel.KeyResult)
    : M unit :=
  objective <- ObjectiveModel.findObjectiveById
                 (KeyResultModel.objectiveId existing) ;;
  match objective with
  | None => throw (createError "Access denied" 403 "ACCESS_DENIED")
  | Some objective =>
      if negb (Nat.eqb (ObjectiveModel.userId objective) userId)
      then throw (createError "Access denied" 403 "ACCESS_DENIED")
      else ret tt
  end.

(** A value of the body where a number is expected, by what the handlers
    do with it: [ToNumber] is the number it is compared as, [parseFloat] the
    number read from its text.  For a JSON number both are this number; for
    the text ["12abc"] the first is [NaN] and the second 12; for [null] the
    first is 0 and the second [NaN]. *)
Record Value : Set := mkValue {
  ToNumber : Num.number;
  parseFloat : Num.number
}.

(** The fields read from the body of [PUT /api/key-results/:id]. *)
Record Body : Set := mkBody {
  description : option string;
  targetValue : option Value;
  currentValue : option Value;
  unit : option string;
  deadline : option Z
}.

(** [PUT /api/key-results/:id]. *)
Definition put (userId id : nat) (body : Body)
    : M (option KeyResultModel.KeyResult) :=
  existing <- KeyResultModel.findKeyResultById id ;;
  match existing with
  | None => throw (createError "Key result not found" 404
      "KEY_RESULT_NOT_FOUND")
  | Some existing =>
      verifyOwnership userId existing ;;;
      u_description <-
        match description body with
        | None => ret None
        | Some d =>
            if strlen d <? 5
            then throw (createError "Description must be at least 5 characters"
                400 "INVALID_DESCRIPTION")
            else ret (Some d)
        end ;;
      u_targetValue <-
        match targetValue body with
        | None => ret None
        | Some t =>
            if Num.number_leb (ToNumber t) (Num.num 0)
            then throw (createError "Target value must be positive" 400
                "INVALID_TARGET_VALUE")
            else ret (Some (parseFloat t))
        end ;;
      u_currentValue <-
        match currentValue body with
        | None => ret None
        | Some c =>
            if Num.number_ltb (ToNumber c) (Num.num 0)
            then throw (createError "Current value cannot be negative" 400
                "INVALID_CURRENT_VALUE")
            else ret (Some (parseFloat c))
        end ;;
      KeyResultService.updateKeyResult id
        (KeyResultModel.mkUpdateKeyResultData u_description u_targetValue
           u_currentValue (unit body) (deadline body))
  end.

(** [DELETE /api/key-results/:id]. *)
Definition delete (userId id : nat) : M Datatypes.unit :=
  existing <- KeyResultModel.findKeyResultById id ;;
  match existing with
  | None => throw (createError "Key result not found" 404
      "KEY_RESULT_NOT_FOUND")
  | Some existing =>
      verifyOwnership userId existing ;;;
      KeyResultService.deleteKeyResult id ;;;
      ret tt
  end.

(** [POST /api/key-results/:id/progress]; [valueRecorded] is [None] when
    the body has [undefined] or [null] for it.  The result carries the
    Progress Update and the Key Result as it is read afterwards. *)
Definition postProgress (userId id : nat) (valueRecorded : option Value)
    (notes : option string)
    : M (ProgressUpdateModel.ProgressUpdate
         * option KeyResultModel.KeyResult) :=
  match valueRecorded with
  | None => throw (createError "valueRecorded is required" 400 "MISSING_FIELD")
  | Some valueRecorded =>
      keyResult <- KeyResultModel.findKeyResultById id ;;
      match keyResult with
      | None => throw (createError "Key result not found" 404
          "KEY_RESULT_NOT_FOUND")
      | Some keyResult =>
          verifyOwnership userId keyResult ;;;
          progressUpdate <- KeyResultService.updateProgress
                              (KeyResultService.mkUpdateProgressRequest id
                                 (parseFloat valueRecorded) notes) ;;
          updatedKeyResult <- KeyResultModel.findKeyResultById id ;;
          ret (progressUpdate, updatedKeyResult)
      end
  end.

End KeyResultsRoute.

(** ** The Authorization header ([auth-service.ts]) *)

Module AuthService.

(** [extractToken(authHeader)]; [inl] carries the message of the [Error]
    thrown. *)
Definition extractToken (authHeader : option string) : string + string :=
  match authHeader with
  | None | Some EmptyString => inl "No authorization header"%string
  | Some authHeader =>
      if negb (String.prefix "Bearer " authHeader)
      then inl "Invalid authorization header format"%string
      else
        let token :=
          String.substring 7 (String.length authHeader - 7) authHeader in
        match token with
        | EmptyString => inl "No token provided"%string
        | _ => inr token
        end
  end.

End AuthService.

(** ** Reading the store *)

Module Read.

Import Pg.

Definition objective_row (db : DB) (id : nat) : option objectives_row :=
  find (fun r => Nat.eqb (o_id r) id) (objectives db).

Definition key_result_row (db : DB) (id : nat) : option key_results_row :=
  find (fun r => Nat.eqb (kr_id r) id) (key_results db).

Definition key_results_of (db : DB) (objective_id : nat)
    : list key_results_row :=
  filter (fun r => Nat.eqb (kr_objective_id r) objective_id) (key_results db).

Definition progress_updates_of (db : DB) (key_result_id : nat)
    : list progress_updates_row :=
  filter (fun u => Nat.eqb (pu_key_result_id u) key_result_id)
    (progress_updates db).

Definition all_key_results_completed (db : DB) (objective_id : nat) : Prop :=
  Forall (fun r => kr_status r = kr_completed) (key_results_of db objective_id).

(** The status the trigger function would give a stored row on day
    [today]. *)
Definition recomputed_status (today : Z) (r : key_results_row)
    : key_result_status :=
  auto_status today (Num.value (kr_current_value r))
    (Num.value (kr_target_value r)) (kr_deadline r).

End Read.

(** ** The specification's wording, for comparison *)

Module Spec.

Import Num Pg.

(** Section 4.1: [completionPercentage = min(currentValue / targetValue *
    100, 100)], using 0 when targetValue is 0. *)
Definition completionPercentage (targetValue currentValue : Q) : Q :=
  if Qeq_bool targetValue 0 then 0
  else Qmin (currentValue / targetValue * 100) 100.

(** Section 4.1: the status rules, in priority order. *)
Definition status (targetValue currentValue : Q) (deadline today : Z)
    : key_result_status :=
  let p := completionPercentage targetValue currentValue in
  if Qle_bool 100 p then kr_completed
  else if Qeq_bool currentValue 0 then not_started
  else if (deadline - today <? 14) && Qltb p 50 then at_risk
  else in_progress.

(** The same rules with the second one read as [currentValue <= 0]. *)
Definition status_nonpositive (targetValue currentValue : Q)
    (deadline today : Z) : key_result_status :=
  let p := completionPercentage targetValue currentValue in
  if Qle_bool 100 p then kr_completed
  else if Qle_bool currentValue 0 then not_started
  else if (deadline - today <? 14) && Qltb p 50 then at_risk
  else in_progress.


(** Section 4.4: [shouldComplete(siblingStatuses)]. *)
Definition shouldComplete (siblingStatuses : list key_result_status) : Prop :=
  siblingStatuses <> [] /\ Forall (fun s => s = kr_completed) siblingStatuses.


End Spec.

(** ** Sequences of calls *)

Module Session.

Import Pg Run.

(** Progress recorded call after call, each on its own day; a call that
    throws leaves what it had committed. *)
Fixpoint recordProgress_all
    (calls : list (Z * KeyResultService.UpdateProgressRequest)) (db : DB)
    : DB :=
  match calls with
  | [] => db
  | (today, data) :: rest =>
      recordProgress_all rest
        (final db (KeyResultService.updateProgress data today db))
  end.

(** The store after the entries of a batch have been written one by one. *)
Fixpoint progress_written (today : Z)
    (updates : list KeyResultService.UpdateProgressRequest) (db : DB) : DB :=
  match updates with
  | [] => db
  | u :: rest =>
      progress_written today rest
        (final db
           (ProgressUpdateModel.createProgressUpdate
              (ProgressUpdateModel.mkCreateProgressUpdateData
                 (KeyResultService.keyResultId u)
                 (KeyResultService.valueRecorded u)
                 (KeyResultService.notes u)) today db))
  end.

(** The value of the last entry of a batch that addresses the Key Result
    [k]. *)
Fixpoint last_recorded (k : nat)
    (updates : list KeyResultService.UpdateProgressRequest)
    : option Num.number :=
  match updates with
  | [] => None
  | u :: rest =>
      match last_recorded k rest with
      | Some x => Some x
      | None =>
          if Nat.eqb (KeyResultService.keyResultId u) k
          then Some (KeyResultService.valueRecorded u)
          else None
      end
  end.

(** The body of a request that changes nothing but the status. *)
Definition status_only (s : string) : ObjectivesRoute.Body :=
  ObjectivesRoute.mkBody None None None None (Some s).

End Session.

(** ** The statements under verification, as the specification makes them *)

Module Claim.

Import Pg Run.

(** Cascade completeness within one transaction (section 8). *)
Definition cascade_in_one_transaction (today : Z)
    (data : KeyResultService.UpdateProgressRequest) (db : DB) : Prop :=
  forall kr,
    Read.key_result_row db (KeyResultService.keyResultId data) = Some kr ->
    let r := KeyResultService.updateProgress data today db in
    (exists kr', Read.key_result_row (final db r)
                   (KeyResultService.keyResultId data) = Some kr'
                 /\ kr_status kr' = kr_completed) ->
    Read.all_key_results_completed (final db r) (kr_objective_id kr) ->
    (forall o, Read.objective_row (final db r) (kr_objective_id kr) = Some o ->
               o_status o = completed)
    /\ all_or_nothing db r.


(** [recordProgress] fails with a ValidationError (a 400 made by
    [createError]) exactly on a value below 0 or above the target, leaves
    nothing behind when it fails, and succeeds otherwise (section 4.2). *)
Definition recordProgress_validation (today : Z)
    (data : KeyResultService.UpdateProgressRequest) (db : DB) : Prop :=
  forall kr,
    outcome (KeyResultModel.findKeyResultById
               (KeyResultService.keyResultId data) today db)
    = Returned (Some kr) ->
    let r := KeyResultService.updateProgress data today db in
    let out_of_range :=
      Num.number_ltb (KeyResultService.valueRecorded data) (Num.num 0) = true
      \/ Num.number_ltb (KeyResultModel.targetValue kr)
            (KeyResultService.valueRecorded data) = true in
    ((exists message code, outcome r = Threw (AppError message 400 code))
     <-> out_of_range)
    /\ ((exists e, outcome r = Threw e) <-> out_of_range)
    /\ (forall e, outcome r = Threw e -> final db r = db).

(** The cascade only ever takes an Objective from Active to Completed
    (section 4.4). *)
Definition cascade_only_from_active
    (calls : list (Z * KeyResultService.UpdateProgressRequest)) (db : DB)
    : Prop :=
  forall id o o',
    Read.objective_row db id = Some o ->
    Read.objective_row (Session.recordProgress_all calls db) id = Some o' ->
    o_status o' = o_status o
    \/ (o_status o = active /\ o_status o' = completed).


(** The stored status of every Key Result is the one the calculator gives
    at the moment of reading (section 8, idempotence of read). *)
Definition no_status_drift (now : Z) (db : DB) : Prop :=
  Forall (fun r => kr_status r = Read.recomputed_status now r)
    (key_results db).

End Claim.

(** ** A worked scenario: the Objective "Learn Go" of section 8 *)

Module Scenario.

Import Pg Run.
Local Open Scope string_scope.

Definition empty : DB := mkDB [] [] [] 1.

Definition learn_go : ObjectiveService.CreateObjectiveRequest :=
  ObjectiveService.mkCreateObjectiveRequest 7 "Learn Go" None skills 500
    [ObjectiveService.mkKeyResultSpec "Earn three certifications"
       (Num.num 3) "certs" 400;
     ObjectiveService.mkKeyResultSpec "Study one hundred hours"
       (Num.num 100) "hours" 450].

(** The store after the Objective (id 1) and its Key Results (ids 2 and 3)
    have been created on day 0. *)
Definition created : DB :=
  final empty (ObjectiveService.createObjectiveWithKeyResults learn_go 0 empty).

Definition record (keyResultId : nat) (value : Q)
    : KeyResultService.UpdateProgressRequest :=
  KeyResultService.mkUpdateProgressRequest keyResultId (Num.num value) None.

(** Day 10: the three certifications are recorded. *)
Definition certified : DB :=
  final created (KeyResultService.updateProgress (record 2 3) 10 created).

(** Day 5: the owner archives, or abandons, the new Objective. *)
Definition archived_by_owner : DB :=
  final created (ObjectivesRoute.put 7 1 (Session.status_only "archived") 5
      created).


(** Day 20: ten of the hundred hours are recorded. *)
Definition ten_hours : DB :=
  final created (KeyResultService.updateProgress (record 3 10) 20 created).

(** A second Key Result whose description is shorter than the ten
    characters the table asks for. *)
Definition learn_go_short : ObjectiveService.CreateObjectiveRequest :=
  ObjectiveService.mkCreateObjectiveRequest 7 "Learn Go" None skills 500
    [ObjectiveService.mkKeyResultSpec "Earn three certifications"
       (Num.num 3) "certs" 400;
     ObjectiveService.mkKeyResultSpec "100 hours" (Num.num 100) "hours" 450].

(** A third Key Result added to the Objective on day 1. *)
Definition with_third : DB :=
  final created
    (KeyResultModel.createKeyResult
       (KeyResultModel.mkCreateKeyResultData 1 "Give two conference talks"
          (Num.num 2) "talks" 480 None) 1 created).

End Scenario.

(** ** Rows before and after a statement *)

Module Step.

Import Pg.

(** A Key Result row before and after progress [v] is written for the Key
    Result [k] on day [today]. *)
Definition progress_step (today : Z) (k : nat) (v : Num.decimal_10_2)
    (r r' : key_results_row) : Prop :=
  if Nat.eqb (kr_id r) k
  then r' = update_key_result_status today (with_current_value r v)
       /\ key_results_checks r' = None
  else r' = r.

(** An Objective row before and after [UPDATE objectives SET status =
    'completed' WHERE id = id]. *)
Definition completion_step (id : nat) (o o' : objectives_row) : Prop :=
  if Nat.eqb (o_id o) id
  then o' = mk_objectives_row (o_id o) (o_user_id o) (o_title o)
              (o_description o) (o_category o) (o_target_date o) completed
  else o' = o.

(** An Objective row with another status. *)
Definition with_status (o : objectives_row) (s : objective_status)
    : objectives_row :=
  mk_objectives_row (o_id o) (o_user_id o) (o_title o) (o_description o)
    (o_category o) (o_target_date o) s.

(** An Objective row whose status is kept or set to Completed. *)
Definition kept_or_completed (o o' : objectives_row) : Prop :=
  o_id o' = o_id o
  /\ (o_status o' = o_status o \/ o_status o' = completed).

(** The SET list of an UPDATE on [key_results], with the values already of
    the column types. *)
Definition set_key_result (description : option string)
    (target_value current_value : option Num.decimal_10_2)
    (unit : option string) (deadline : option Z) (r : key_results_row)
    : key_results_row :=
  mk_key_results_row (kr_id r) (kr_objective_id r)
    (match description with Some d => d | None => kr_description r end)
    (match target_value with Some v => v | None => kr_target_value r end)
    (match current_value with Some v => v | None => kr_current_value r end)
    (match unit with Some u => u | None => kr_unit r end)
    (match deadline with Some d => d | None => kr_deadline r end)
    (kr_status r).

(** A Key Result row before and after such an UPDATE of the Key Result
    [id] on day [today]: the status is recomputed when one of target value,
    current value and deadline is set. *)
Definition update_step (today : Z) (id : nat) (description : option string)
    (target_value current_value : option Num.decimal_10_2)
    (unit : option string) (deadline : option Z) (r r' : key_results_row)
    : Prop :=
  if Nat.eqb (kr_id r) id
  then r' = (match target_value, current_value, deadline with
             | None, None, None =>
                 set_key_result description target_value current_value unit
                   deadline r
             | _, _, _ =>
                 update_key_result_status today
                   (set_key_result description target_value current_value
                      unit deadline r)
             end)
       /\ key_results_checks r' = None
  else r' = r.

(** A value given to an UPDATE, before and after its coercion to
    [DECIMAL(10,2)]. *)
Definition coerced (given : option Num.number)
    (stored : option Num.decimal_10_2) : Prop :=
  match given with
  | None => stored = None
  | Some x => exists v, Num.to_decimal_10_2 x = Some v /\ stored = Some v
  end.

(** The SET list of an UPDATE on [objectives]. *)
Definition set_objective (title description : option string)
    (category : option objective_category) (target_date : option Z)
    (status : option objective_status) (o : objectives_row) : objectives_row :=
  mk_objectives_row (o_id o) (o_user_id o)
    (match title with Some t => t | None => o_title o end)
    (match description with Some d => Some d | None => o_description o end)
    (match category with Some c => c | None => o_category o end)
    (match target_date with Some d => d | None => o_target_date o end)
    (match status with Some s => s | None => o_status o end).

(** An Objective row before and after an UPDATE of the Objective [id] on day
    [today]. *)
Definition objective_step (today : Z) (id : nat)
    (title description : option string)
    (category : option objective_category) (target_date : option Z)
    (status : option objective_status) (o o' : objectives_row) : Prop :=
  if Nat.eqb (o_id o) id
  then o' = set_objective title description category target_date status o
       /\ objectives_checks today o' = None
  else o' = o.

End Step.

(** ** Integrity of the store *)

Module Integrity.

Import Pg Run.

(** What the primary keys, the foreign keys and the date-independent CHECK
    constraints of the three tables say of a state of the store; the
    identifiers handed out so far lie below the counter. *)
Record wf (db : DB) : Prop := mk_wf {
  objectives_pkey : NoDup (map o_id (objectives db));
  key_results_pkey : NoDup (map kr_id (key_results db));
  progress_updates_pkey : NoDup (map pu_id (progress_updates db));
  objectives_issued :
    Forall (fun o => (o_id o < next_uuid db)%nat) (objectives db);
  key_results_issued :
    Forall (fun r => (kr_id r < next_uuid db)%nat) (key_results db);
  progress_updates_issued :
    Forall (fun u => (pu_id u < next_uuid db)%nat) (progress_updates db);
  objectives_title_length :
    Forall (fun o => 5 <= strlen (o_title o) <= 200) (objectives db);
  key_results_constraints :
    Forall (fun r => key_results_checks r = None) (key_results db);
  progress_updates_constraints :
    Forall (fun u => progress_updates_checks u = None) (progress_updates db);
  key_results_objective_id_fkey :
    Forall (fun r => In (kr_objective_id r) (map o_id (objectives db)))
      (key_results db);
  progress_updates_key_result_id_fkey :
    Forall (fun u => In (pu_key_result_id u) (map kr_id (key_results db)))
      (progress_updates db)
}.

(** No Key Result is due after the target date of its Objective. *)
Definition deadlines_within (db : DB) : Prop :=
  forall r o,
    In r (key_results db) -> In o (objectives db) ->
    o_id o = kr_objective_id r -> kr_deadline r <= o_target_date o.

(** A computation that commits only states with the property [I] when it
    starts from one. *)
Definition keeps (I : DB -> Prop) {A : Type} (m : M A) : Prop :=
  forall today db, I db -> Forall I (commits (m today db)).

(** The two states of a Key Result that do not depend on the date: with a
    number for target it is Completed exactly when its current value has
    reached the target, and NotStarted exactly when its current value is 0;
    with [NaN] for target it is Completed. *)
Definition status_fits (r : key_results_row) : Prop :=
  match kr_target_value r with
  | Num.dec _ =>
      (kr_status r = kr_completed <-> kr_current_value r = kr_target_value r)
      /\ (kr_status r = not_started <-> kr_current_value r = Num.dec 0)
  | Num.dec_NaN => kr_status r = kr_completed
  end.

Definition status_by_values (db : DB) : Prop :=
  Forall status_fits (key_results db).

(** The store [db'] has lost nothing of the store [db]: each table starts
    with the same primary keys in the same order, the ledger with the same
    rows, and no identifier has been taken back. *)
Definition grown_from (db db' : DB) : Prop :=
  (exists os, map o_id (objectives db') = map o_id (objectives db) ++ os)
  /\ (exists ks, map kr_id (key_results db')
                 = map kr_id (key_results db) ++ ks)
  /\ (exists us, progress_updates db' = progress_updates db ++ us)
  /\ (next_uuid db <= next_uuid db')%nat.

(** Every Objective has at least two Key Results. *)
Definition at_least_two (db : DB) : Prop :=
  Forall (fun o => (2 <= List.length (Read.key_results_of db (o_id o)))%nat)
    (objectives db).

(** A list in ascending order of [key]. *)
Fixpoint ascending {R : Type} (key : R -> Z) (rows : list R) : Prop :=
  match rows with
  | [] => True
  | x :: rest => Forall (fun y => key x <= key y) rest /\ ascending key rest
  end.

End Integrity.

(** * Properties *)

Import Pg Run Step Integrity.

(** The statements are kept folded when a run is simplified. *)

Arguments insert_objective : simpl never.
Arguments insert_key_result : simpl never.
Arguments insert_progress_update : simpl never.
Arguments delete_key_result : simpl never.
Arguments update_key_result : simpl never.
Arguments update_objective : simpl never.

Section UpdateWhere.

Context {R : Set} (p : R -> bool) (upd : R -> PgError + R).

Lemma update_where_rows rows rows' ret :
  update_where p upd rows = inr (rows', ret) ->
  Forall2 (fun r r' => if p r then upd r = inr r' else r' = r) rows rows'.
Proof.
  revert rows' ret.
  induction rows as [|r rows IH]; intros rows' ret; simpl.
  - intros [= <- <-]. constructor.
  - destruct (p r) eqn:Hp.
    + destruct (upd r) as [e|r1] eqn:Hupd; [discriminate|].
      destruct (update_where p upd rows) as [e|[rest' ret']]; [discriminate|].
      intros [= <- <-]. constructor; [rewrite Hp; assumption | eauto].
    + destruct (update_where p upd rows) as [e|[rest' ret']]; [discriminate|].
      intros [= <- <-]. constructor; [rewrite Hp; reflexivity | eauto].
Qed.

(** A statement one of whose rows is rejected fails. *)
Lemma update_where_rejects rows r e :
  find p rows = Some r -> upd r = inl e ->
  update_where p upd rows = inl e.
Proof.
  induction rows as [|a rows IH]; simpl; [discriminate|].
  destruct (p a) eqn:Hp.
  - intros [= ->] ->. reflexivity.
  - intros Hf He. rewrite (IH Hf He). reflexivity.
Qed.

(** When every row in question is let through, the statement is a map
    over the table. *)
Lemma update_where_map (f : R -> R) rows :
  (forall r, In r rows -> p r = true -> upd r = inr (f r)) ->
  update_where p upd rows
  = inr (map (fun r => if p r then f r else r) rows, map f (filter p rows)).
Proof.
  induction rows as [|a rows IH]; simpl; intros Hupd; [reflexivity|].
  rewrite IH by auto.
  destruct (p a) eqn:Hp; [|reflexivity].
  rewrite (Hupd a (or_introl eq_refl) Hp). reflexivity.
Qed.

End UpdateWhere.

Lemma updateProgress_run data today db :
  KeyResultService.updateProgress data today db =
  match Read.key_result_row db (KeyResultService.keyResultId data) with
  | None => mkRun [] (Threw (createError "Key result not found" 404
      "KEY_RESULT_NOT_FOUND"))
  | Some kr =>
      if Num.number_ltb (KeyResultService.valueRecorded data) (Num.num 0)
      then mkRun [] (Threw (createError "Progress value cannot be negative" 400
          "INVALID_PROGRESS_VALUE"))
      else
        match insert_progress_update today (KeyResultService.keyResultId data)
                (KeyResultService.valueRecorded data)
                (ObjectiveModel.or_null (KeyResultService.notes data)) db with
        | inl e => mkRun [] (Threw (DatabaseError e))
        | inr (s1, row) =>
            if ObjectiveService.allCompleted
                 (map KeyResultModel.mapRowToKeyResult
                    (Read.key_results_of s1 (kr_objective_id kr)))
            then
              match update_objective today (kr_objective_id kr) None None None
                      None (Some completed) s1 with
              | inl e => mkRun [s1] (Threw (DatabaseError e))
              | inr (s2, _) =>
                  mkRun [s1; s2]
                    (Returned (ProgressUpdateModel.mapRowToProgressUpdate row))
              end
            else
              mkRun [s1]
                (Returned (ProgressUpdateModel.mapRowToProgressUpdate row))
        end
  end.
Proof.
  unfold KeyResultService.updateProgress, Read.key_result_row,
    KeyResultModel.findKeyResultById, bind at 1, select.
  cbn [outcome commits final last app].
  destruct (find _ (key_results db)) as [kr|]; cbn; [|reflexivity].
  destruct (Num.number_ltb _ _); [reflexivity|].
  unfold ProgressUpdateModel.createProgressUpdate, bind, statement, ret. cbn.
  destruct (insert_progress_update _ _ _ _ db) as [e|[s1 row]]; cbn;
    [reflexivity|].
  unfold ObjectiveService.checkAndUpdateObjectiveCompletion, bind,
    KeyResultModel.findKeyResultsByObjectiveId, select.
  cbn. unfold Read.key_results_of.
  destruct (ObjectiveService.allCompleted _); cbn; [|reflexivity].
  unfold statement. 
  destruct (update_objective _ _ _ _ _ _ _ s1) as [e|[s2 rows]]; cbn;
    [reflexivity|].
  destruct rows; reflexivity.
Qed.

(** ** Tables related row by row *)

Section Rowwise.

Context {R : Set} (rel : R -> R -> Prop) (p : R -> bool).
Hypothesis rel_p : forall r r', rel r r' -> p r' = p r.

Lemma rowwise_find rows rows' r :
  Forall2 rel rows rows' -> find p rows = Some r ->
  exists r', find p rows' = Some r' /\ rel r r'.
Proof.
  induction 1 as [|a a' rows rows' Ha _ IH]; simpl; [discriminate|].
  rewrite (rel_p _ _ Ha). destruct (p a).
  - intros [= ->]. eauto.
  - exact IH.
Qed.

Lemma rowwise_find_none rows rows' :
  Forall2 rel rows rows' -> find p rows = None -> find p rows' = None.
Proof.
  induction 1 as [|a a' rows rows' Ha _ IH]; simpl; [reflexivity|].
  rewrite (rel_p _ _ Ha). destruct (p a); [discriminate | exact IH].
Qed.

End Rowwise.

Lemma rowwise_in {R : Set} (rel : R -> R -> Prop) rows rows' r' :
  Forall2 rel rows rows' -> In r' rows' -> exists r, In r rows /\ rel r r'.
Proof.
  induction 1 as [|a a' rows rows' Ha _ IH]; simpl; [contradiction|].
  intros [<- | Hin]; [eauto|].
  destruct (IH Hin) as (r & Hr & Hrel). eauto.
Qed.

Lemma rowwise_refl {R : Set} (rel : R -> R -> Prop) rows :
  (forall r, rel r r) -> Forall2 rel rows rows.
Proof. intros Hrefl. induction rows; constructor; auto. Qed.

Lemma rowwise_trans {R : Set} (rel : R -> R -> Prop) l1 l2 l3 :
  (forall a b c, rel a b -> rel b c -> rel a c) ->
  Forall2 rel l1 l2 -> Forall2 rel l2 l3 -> Forall2 rel l1 l3.
Proof.
  intros Htrans H12. revert l3.
  induction H12 as [|a b l1 l2 Hab _ IH]; intros l3 H23;
    inversion H23; subst; constructor; eauto.
Qed.

Lemma rowwise_impl {R : Set} (rel rel' : R -> R -> Prop) rows rows' :
  (forall r r', rel r r' -> rel' r r') ->
  Forall2 rel rows rows' -> Forall2 rel' rows rows'.
Proof. intros Himpl. induction 1; constructor; auto. Qed.

Lemma find_some_filter {A : Type} (p q : A -> bool) rows r :
  find p rows = Some r -> q r = true -> In r (filter q rows).
Proof.
  intros Hf Hq. apply filter_In. split; [|exact Hq].
  apply find_some in Hf. tauto.
Qed.

(** ** What the statements do to the tables *)

Lemma progress_step_ids today k v r r' :
  progress_step today k v r r' ->
  kr_id r' = kr_id r /\ kr_objective_id r' = kr_objective_id r.
Proof.
  unfold progress_step. destruct (Nat.eqb (kr_id r) k).
  - intros [-> _]. split; reflexivity.
  - intros ->. split; reflexivity.
Qed.

Lemma insert_progress_update_inr today k x notes db db' row :
  insert_progress_update today k x notes db = inr (db', row) ->
  exists v,
    Num.to_decimal_10_2 x = Some v
    /\ row = mk_progress_updates_row (next_uuid db) k v notes
    /\ progress_updates_checks row = None
    /\ objectives db' = objectives db
    /\ progress_updates db' = progress_updates db ++ [row]
    /\ next_uuid db' = S (next_uuid db)
    /\ Forall2 (progress_step today k v) (key_results db) (key_results db').
Proof.
  unfold insert_progress_update.
  destruct (Num.to_decimal_10_2 x) as [v|]; [|discriminate].
  destruct (progress_updates_checks _) eqn:Hchk; [discriminate|].
  destruct (existsb _ _); [|discriminate].
  destruct (update_key_result_from_progress _ _ _) as [e|[krs' ret]] eqn:Hupd;
    [discriminate|].
  intros [= <- <-]. exists v. simpl.
  repeat split; try assumption.
  apply update_where_rows in Hupd.
  eapply rowwise_impl; [|exact Hupd].
  intros r r'. unfold progress_step. simpl.
  destruct (Nat.eqb (kr_id r) k); [|auto].
  destruct (key_results_checks _) eqn:Hk; [discriminate|].
  intros [= <-]. split; [reflexivity | exact Hk].
Qed.

Lemma update_objective_completed_inr today id db db' ret :
  update_objective today id None None None None (Some completed) db
  = inr (db', ret) ->
  key_results db' = key_results db
  /\ progress_updates db' = progress_updates db
  /\ next_uuid db' = next_uuid db
  /\ Forall2 (completion_step id) (objectives db) (objectives db').
Proof.
  unfold update_objective. cbn [varchar_opt].
  destruct (update_where _ _ _) as [e|[os' ret']] eqn:Hupd; [discriminate|].
  intros [= <- <-]. simpl. repeat split.
  apply update_where_rows in Hupd.
  eapply rowwise_impl; [|exact Hupd].
  intros o o'. unfold completion_step. simpl.
  destruct (Nat.eqb (o_id o) id); [|auto].
  destruct (objectives_checks _ _); [discriminate|].
  intros [= <-]. reflexivity.
Qed.

(** ** The state calculator *)

Lemma calculate_completion_percentage_rational c t :
  calculate_completion_percentage (Num.rational c) (Num.rational t)
  = Num.rational (if Qeq_bool t 0 then 0
                  else if Qle_bool (c / t * 100) 100 then c / t * 100
                  else 100).
Proof.
  unfold calculate_completion_percentage, Num.LEAST. cbn.
  destruct (Qeq_bool t 0); [reflexivity|].
  destruct (Qle_bool _ 100); reflexivity.
Qed.

Lemma percentage_is_minimum c t :
  (if Qeq_bool t 0 then 0
   else if Qle_bool (c / t * 100) 100 then c / t * 100 else 100)
  == Spec.completionPercentage t c.
Proof.
  unfold Spec.completionPercentage.
  destruct (Qeq_bool t 0); [reflexivity|].
  destruct (Qle_bool _ 100) eqn:Hle.
  - apply Qle_bool_iff in Hle. symmetry. apply Q.min_l. exact Hle.
  - symmetry. apply Q.min_r. apply Qlt_le_weak, Qnot_le_lt.
    rewrite <- Qle_bool_iff, Hle. discriminate.
Qed.

(** On numbers the trigger gives Completed at a percentage of 100,
    NotStarted for a current value of at most 0, and then AtRisk or
    InProgress. *)
Lemma auto_status_rational today c t d :
  auto_status today (Num.rational c) (Num.rational t) d
  = Spec.status_nonpositive t c d today.
Proof.
  unfold auto_status, Spec.status_nonpositive.
  rewrite calculate_completion_percentage_rational.
  unfold Num.numeric_ltb, Num.numeric_leb, Num.Qltb.
  rewrite (percentage_is_minimum c t).
  destruct (Qle_bool 100 _); [reflexivity|].
  destruct (Qle_bool c 0); cbn [negb]; [reflexivity|].
  rewrite (percentage_is_minimum c t). reflexivity.
Qed.

(** On a value that is not negative the trigger follows the four rules of
    section 4.1 as they are written. *)
Lemma auto_status_on_nonnegative today c t d :
  (0 <= c)%Q ->
  auto_status today (Num.rational c) (Num.rational t) d
  = Spec.status t c d today.
Proof.
  intros Hc. rewrite auto_status_rational.
  unfold Spec.status_nonpositive, Spec.status.
  destruct (Qle_bool 100 (Spec.completionPercentage t c)); [reflexivity|].
  destruct (Qle_bool c 0) eqn:Hle, (Qeq_bool c 0) eqn:Heq; simpl;
    try reflexivity.
  - apply Qle_bool_iff in Hle. apply Qeq_bool_neq in Heq.
    exfalso. apply Heq. apply Qle_antisym; assumption.
  - apply Qeq_bool_iff in Heq. rewrite Heq in Hle. discriminate.
Qed.

(** With [NaN] for target the trigger gives Completed, whatever the
    current value: [LEAST(NaN, 100)] is 100. *)
Lemma auto_status_NaN_target today c d :
  auto_status today c Num.numeric_NaN d = kr_completed.
Proof. destruct c; reflexivity. Qed.




(** ** The completion rule *)

Lemma key_result_status_eqb_eq a b :
  key_result_status_eqb a b = true <-> a = b.
Proof. destruct a, b; simpl; split; congruence. Qed.

Lemma allCompleted_true krs :
  ObjectiveService.allCompleted krs = true
  <-> krs <> []
      /\ Forall (fun kr => KeyResultModel.status kr = kr_completed) krs.
Proof.
  unfold ObjectiveService.allCompleted.
  rewrite andb_true_iff, forallb_forall, Forall_forall.
  split.
  - intros [Hlen Hall]. split.
    + destruct krs; discriminate.
    + intros kr Hin. apply key_result_status_eqb_eq. auto.
  - intros [Hne Hall]. split.
    + destruct krs; [exfalso; apply Hne; reflexivity | reflexivity].
    + intros kr Hin. apply key_result_status_eqb_eq. auto.
Qed.

(** C6: the completion decision is true exactly when the list of sibling
    statuses is not empty and all of them are Completed; it is false on the
    empty list. *)
Theorem allCompleted_iff_shouldComplete :
  (forall krs : list KeyResultModel.KeyResult,
     ObjectiveService.allCompleted krs = true
     <-> Spec.shouldComplete (map KeyResultModel.status krs))
  /\ ObjectiveService.allCompleted [] = false.
Proof.
  split; [|reflexivity].
  intros krs. rewrite allCompleted_true.
  unfold Spec.shouldComplete. rewrite Forall_map.
  split; intros [Hne Hall]; (split; [|exact Hall]).
  - destruct krs; [exfalso; apply Hne; reflexivity | discriminate].
  - destruct krs; [exfalso; apply Hne; reflexivity | discriminate].
Qed.

(** An Objective without Key Results is never completed by the rule: the
    check writes nothing. *)
Lemma checkAndUpdateObjectiveCompletion_no_key_results today db id :
  Read.key_results_of db id = [] ->
  ObjectiveService.checkAndUpdateObjectiveCompletion id today db
  = mkRun [] (Returned tt).
Proof.
  intros Hnone.
  unfold ObjectiveService.checkAndUpdateObjectiveCompletion, bind,
    KeyResultModel.findKeyResultsByObjectiveId, select.
  cbn. unfold Read.key_results_of in Hnone. rewrite Hnone. reflexivity.
Qed.

(** ** Deleting a Key Result *)

Lemma find_some_count {A : Type} (p : A -> bool) rows r :
  find p rows = Some r -> (0 < List.length (filter p rows))%nat.
Proof.
  induction rows as [|a rows IH]; simpl; [discriminate|].
  destruct (p a); simpl; [lia | exact IH].
Qed.

Lemma find_filter_negb {A : Type} (p : A -> bool) rows :
  find p (filter (fun r => negb (p r)) rows) = None.
Proof.
  induction rows as [|a rows IH]; simpl; [reflexivity|].
  destruct (p a) eqn:Hp; simpl; [exact IH|].
  rewrite Hp. exact IH.
Qed.

Lemma filter_filter_negb {A : Type} (p : A -> bool) rows :
  filter p (filter (fun r => negb (p r)) rows) = [].
Proof.
  induction rows as [|a rows IH]; simpl; [reflexivity|].
  destruct (p a) eqn:Hp; simpl; [exact IH|].
  rewrite Hp. exact IH.
Qed.

(** C5: deleting an existing Key Result throws
    MINIMUM_KEY_RESULTS_REQUIRED and deletes nothing when its Objective has
    at most two Key Results (so that fewer than two would remain);
    otherwise the Key Result goes, and all its Progress Updates with it. *)
Theorem deleteKeyResult_keeps_two :
  forall (today : Z) (db : DB) (id : nat) (kr : key_results_row),
    Read.key_result_row db id = Some kr ->
    if (List.length (Read.key_results_of db (kr_objective_id kr)) <=? 2)%nat
    then
      KeyResultService.deleteKeyResult id today db
      = mkRun [] (Threw (createError
          "Cannot delete key result. Objectives must have at least 2 key results."
            400 "MINIMUM_KEY_RESULTS_REQUIRED"))
    else
      outcome (KeyResultService.deleteKeyResult id today db) = Returned true
      /\ Read.key_result_row
           (final db (KeyResultService.deleteKeyResult id today db)) id = None
      /\ Read.progress_updates_of
           (final db (KeyResultService.deleteKeyResult id today db)) id = []
      /\ final db (KeyResultService.deleteKeyResult id today db)
         = mkDB (objectives db)
             (filter (fun r => negb (Nat.eqb (kr_id r) id)) (key_results db))
             (filter (fun u => negb (Nat.eqb (pu_key_result_id u) id))
                (progress_updates db))
             (next_uuid db).
Proof.
  intros today db id kr Hrow.
  unfold Read.key_result_row in Hrow.
  unfold KeyResultService.deleteKeyResult, KeyResultModel.findKeyResultById,
    KeyResultModel.findKeyResultsByObjectiveId, bind, select.
  cbn -[Nat.leb]. rewrite Hrow. cbn -[Nat.leb]. rewrite length_map.
  fold (Read.key_results_of db (kr_objective_id kr)).
  destruct (_ <=? 2)%nat; [reflexivity|].
  unfold KeyResultModel.deleteKeyResult, bind, statement, ret, final.
  unfold delete_key_result. cbn.
  pose proof (find_some_count _ _ _ Hrow) as Hcount.
  repeat split.
  - destruct (List.length _); [lia | reflexivity].
  - unfold Read.key_result_row. cbn.
    exact (find_filter_negb (fun r => Nat.eqb (kr_id r) id) _).
  - unfold Read.progress_updates_of. cbn.
    exact (filter_filter_negb (fun u => Nat.eqb (pu_key_result_id u) id) _).
Qed.

Lemma deleteKeyResult_keeps_two_witness :
  Read.key_result_row Scenario.created 2
  = Some (mk_key_results_row 2 1 "Earn three certifications" (Num.dec 300)
      (Num.dec 0) "certs"
            400 not_started)
  /\ KeyResultService.deleteKeyResult 2 30 Scenario.created
     = mkRun [] (Threw (createError
         "Cannot delete key result. Objectives must have at least 2 key results."
           400 "MINIMUM_KEY_RESULTS_REQUIRED")).
Proof.
  split; [reflexivity|].
  exact (deleteKeyResult_keeps_two 30 Scenario.created 2 _ eq_refl).
Defined.

(** With a third Key Result the same deletion goes through. *)
Example deleteKeyResult_of_three :
  outcome (KeyResultService.deleteKeyResult 2 30 Scenario.with_third)
  = Returned true
  /\ map kr_id
       (key_results
          (final Scenario.with_third
             (KeyResultService.deleteKeyResult 2 30 Scenario.with_third)))
     = [3; 4]%nat.
Proof. vm_compute. split; reflexivity. Qed.

(** ** Recording progress *)

Lemma allCompleted_rows rows :
  ObjectiveService.allCompleted (map KeyResultModel.mapRowToKeyResult rows)
  = true
  <-> rows <> [] /\ Forall (fun r => kr_status r = kr_completed) rows.
Proof.
  rewrite allCompleted_true, Forall_map. simpl.
  split; intros [Hne Hall]; (split; [|exact Hall]).
  - destruct rows; [exfalso; apply Hne; reflexivity | discriminate].
  - destruct rows; [exfalso; apply Hne; reflexivity | discriminate].
Qed.

Lemma completion_step_id id o o' : completion_step id o o' -> o_id o' = o_id o.
Proof.
  unfold completion_step. destruct (Nat.eqb (o_id o) id); intros ->;
      reflexivity.
Qed.

Lemma progress_step_found today k v rows rows' kr :
  Forall2 (progress_step today k v) rows rows' ->
  find (fun r => Nat.eqb (kr_id r) k) rows = Some kr ->
  find (fun r => Nat.eqb (kr_id r) k) rows'
  = Some (update_key_result_status today (with_current_value kr v)).
Proof.
  intros Hrows Hfind.
  assert (Hp : forall r r', progress_step today k v r r' ->
                Nat.eqb (kr_id r') k = Nat.eqb (kr_id r) k).
  { intros r r' H. apply progress_step_ids in H. destruct H as [-> _].
    reflexivity. }
  destruct (rowwise_find _ _ Hp _ _ _ Hrows Hfind) as (r' & Hfind' & Hstep).
  rewrite Hfind'. apply find_some in Hfind. destruct Hfind as [_ Hid].
  unfold progress_step in Hstep. rewrite Hid in Hstep.
  destruct Hstep as [-> _]. reflexivity.
Qed.

Lemma completion_step_found id rows rows' o :
  Forall2 (completion_step id) rows rows' ->
  find (fun r => Nat.eqb (o_id r) id) rows = Some o ->
  exists o', find (fun r => Nat.eqb (o_id r) id) rows' = Some o'
             /\ o_status o' = completed.
Proof.
  intros Hrows Hfind.
  assert (Hp : forall r r', completion_step id r r' ->
                Nat.eqb (o_id r') id = Nat.eqb (o_id r) id).
  { intros r r' H. apply completion_step_id in H. rewrite H. reflexivity. }
  destruct (rowwise_find _ _ Hp _ _ _ Hrows Hfind) as (o' & Hfind' & Hstep).
  exists o'. split; [exact Hfind'|].
  apply find_some in Hfind. destruct Hfind as [_ Hid].
  unfold completion_step in Hstep. rewrite Hid in Hstep.
  rewrite Hstep. reflexivity.
Qed.

(** C1 (amended): when recording progress on an existing Key Result
    returns, the ledger row and the Key Result update (current value and
    recomputed status) were committed together by one statement, with the
    Objective still untouched; the Objective is updated by a separate, later
    statement; and if every Key Result of the parent Objective is then
    Completed, the parent Objective's status is Completed in the final
    state. *)
Theorem updateProgress_completes_objective :
  forall (today : Z) (data : KeyResultService.UpdateProgressRequest) (db : DB)
         (kr : key_results_row) (pu : ProgressUpdateModel.ProgressUpdate),
    Read.key_result_row db (KeyResultService.keyResultId data) = Some kr ->
    outcome (KeyResultService.updateProgress data today db) = Returned pu ->
    exists (s1 : DB) (row : progress_updates_row),
      insert_progress_update today (KeyResultService.keyResultId data)
        (KeyResultService.valueRecorded data)
        (ObjectiveModel.or_null (KeyResultService.notes data)) db
      = inr (s1, row)
      /\ pu = ProgressUpdateModel.mapRowToProgressUpdate row
      /\ progress_updates s1 = progress_updates db ++ [row]
      /\ Read.key_result_row s1 (KeyResultService.keyResultId data)
         = Some (update_key_result_status today
                   (with_current_value kr (pu_value_recorded row)))
      /\ objectives s1 = objectives db
      /\ (commits (KeyResultService.updateProgress data today db) = [s1]
          \/ exists s2 ret,
               update_objective today (kr_objective_id kr) None None None
                 None (Some completed) s1 = inr (s2, ret)
               /\ commits (KeyResultService.updateProgress data today db)
                  = [s1; s2])
      /\ (Read.all_key_results_completed
            (final db (KeyResultService.updateProgress data today db))
            (kr_objective_id kr) ->
          forall o,
            Read.objective_row db (kr_objective_id kr) = Some o ->
            exists o',
              Read.objective_row
                (final db (KeyResultService.updateProgress data today db))
                (kr_objective_id kr) = Some o'
              /\ o_status o' = completed).
Proof.
  intros today data db kr pu Hrow.
  rewrite updateProgress_run, Hrow.
  destruct (Num.number_ltb _ _); [discriminate|].
  destruct (insert_progress_update _ _ _ _ db) as [e|[s1 row]] eqn:Hins;
    [discriminate|].
  destruct (insert_progress_update_inr _ _ _ _ _ _ _ Hins)
    as (v & Hv & Hrow_eq & Hchk & Hobj & Hpu & Hnext & Hkrs).
  assert (Hv' : pu_value_recorded row = v) by (rewrite Hrow_eq; reflexivity).
  assert (Hkr1 : Read.key_result_row s1 (KeyResultService.keyResultId data)
                 = Some (update_key_result_status today
                           (with_current_value kr (pu_value_recorded row)))).
  { rewrite Hv'. exact (progress_step_found _ _ _ _ _ _ Hkrs Hrow). }
  assert (Hin1 : In (update_key_result_status today
                       (with_current_value kr (pu_value_recorded row)))
                   (Read.key_results_of s1 (kr_objective_id kr))).
  { eapply find_some_filter; [exact Hkr1|]. simpl. apply Nat.eqb_refl. }
  destruct (ObjectiveService.allCompleted _) eqn:Hall.
  - destruct (update_objective _ _ _ _ _ _ _ s1) as [e|[s2 ret]] eqn:Hupd;
      [discriminate|].
    intros [= <-]. exists s1, row.
    repeat (split; [first [reflexivity | assumption]|]).
    split; [right; exists s2, ret; split; [exact Hupd | reflexivity]|].
    intros _ o Ho. cbn.
    destruct (update_objective_completed_inr _ _ _ _ _ Hupd)
      as (_ & _ & _ & Hos).
    unfold Read.objective_row in *. rewrite <- Hobj in Ho.
    exact (completion_step_found _ _ _ _ Hos Ho).
  - intros [= <-]. exists s1, row.
    repeat (split; [first [reflexivity | assumption]|]).
    split; [left; reflexivity|].
    cbn. intros Hcompleted. exfalso.
    assert (Htrue : ObjectiveService.allCompleted
                      (map KeyResultModel.mapRowToKeyResult
                         (Read.key_results_of s1 (kr_objective_id kr)))
                    = true).
    { apply allCompleted_rows. split; [|exact Hcompleted].
      intros Hnil. rewrite Hnil in Hin1. contradiction. }
    congruence.
Qed.

Lemma updateProgress_completes_objective_witness :
  Read.key_result_row Scenario.certified 3
  = Some (mk_key_results_row 3 1 "Study one hundred hours" (Num.dec 10000)
      (Num.dec 0) "hours"
            450 not_started)
  /\ outcome (KeyResultService.updateProgress (Scenario.record 3 100) 20
                Scenario.certified)
     = Returned (ProgressUpdateModel.mapRowToProgressUpdate
                   (mk_progress_updates_row 5 3 (Num.dec 10000) None))
  /\ exists o',
       Read.objective_row
         (final Scenario.certified
            (KeyResultService.updateProgress (Scenario.record 3 100) 20
               Scenario.certified)) 1 = Some o'
       /\ o_status o' = completed.
Proof.
  assert (Hrow : Read.key_result_row Scenario.certified 3
                 = Some (mk_key_results_row 3 1 "Study one hundred hours"
                           (Num.dec 10000) (Num.dec 0) "hours" 450 not_started))
    by reflexivity.
  assert (Hret : outcome (KeyResultService.updateProgress
                            (Scenario.record 3 100) 20 Scenario.certified)
                 = Returned (ProgressUpdateModel.mapRowToProgressUpdate
                               (mk_progress_updates_row 5 3 (Num.dec 10000)
                                   None)))
    by reflexivity.
  split; [exact Hrow|]. split; [exact Hret|].
  destruct (updateProgress_completes_objective 20 (Scenario.record 3 100)
              Scenario.certified
              (mk_key_results_row 3 1 "Study one hundred hours" (Num.dec 10000)
                  (Num.dec 0)
                 "hours" 450 not_started)
              (ProgressUpdateModel.mapRowToProgressUpdate
                 (mk_progress_updates_row 5 3 (Num.dec 10000) None))
              Hrow Hret)
    as (s1 & row & _ & _ & _ & _ & _ & _ & Hcascade).
  apply (Hcascade ltac:(vm_compute; repeat constructor)
           (mk_objectives_row 1 7 "Learn Go" None skills 500 active)).
  reflexivity.
Defined.

(** C1, as stated, fails: on day 20 the hundred hours complete the last Key
    Result; the ledger row and the Key Result are committed first, with the
    Objective still Active, and the Objective follows in a second commit. *)
Lemma cascade_in_one_transaction_counterexample :
  ~ Claim.cascade_in_one_transaction 20 (Scenario.record 3 100)
      Scenario.certified.
Proof.
  intros H.
  destruct (H (mk_key_results_row 3 1 "Study one hundred hours" (Num.dec 10000)
      (Num.dec 0)
                 "hours" 450 not_started) eq_refl)
    as [_ [Hcommits _]].
  - eexists. split; reflexivity.
  - vm_compute. repeat constructor.
  - vm_compute in Hcommits.
    inversion Hcommits as [|s0 l0 _ Hrest].
    inversion Hrest as [|s1 l1 [Hs | Hs] _].
    + discriminate Hs.
    + discriminate Hs.
Qed.

(** The first commit of that call, as another session sees it. *)
Example cascade_intermediate_state :
  exists s1 s2,
    commits (KeyResultService.updateProgress (Scenario.record 3 100) 20
               Scenario.certified) = [s1; s2]
    /\ map kr_status (key_results s1) = [kr_completed; kr_completed]
    /\ map pu_value_recorded (progress_updates s1)
       = [Num.dec 300; Num.dec 10000]
    /\ map o_status (objectives s1) = [active]
    /\ map o_status (objectives s2) = [completed].
Proof. vm_compute. do 2 eexists. repeat split. Qed.

(** After the target date of the Objective the second statement is refused
    by the constraint [objectives_target_date_future]: the call throws, and
    the ledger row and the completed Key Result stay committed. *)
Example updateProgress_after_target_date :
  exists s1,
    KeyResultService.updateProgress (Scenario.record 3 100) 501
      Scenario.certified
    = mkRun [s1]
        (Threw (DatabaseError (check_violation
            "objectives_target_date_future")))
    /\ map kr_status (key_results s1) = [kr_completed; kr_completed]
    /\ map pu_value_recorded (progress_updates s1)
       = [Num.dec 300; Num.dec 10000]
    /\ map o_status (objectives s1) = [active].
Proof. vm_compute. eexists. repeat split. Qed.

(** *** Which values are written *)

Lemma Qltb_false_num x : Num.Qltb x 0 = false -> 0 <= Qnum x.
Proof.
  unfold Num.Qltb, Qle_bool. simpl.
  rewrite negb_false_iff, Z.leb_le. lia.
Qed.

Lemma round_half_away_nonneg x : 0 <= Qnum x -> 0 <= Num.round_half_away x.
Proof.
  intros Hx. unfold Num.round_half_away.
  apply Z.mul_nonneg_nonneg.
  - apply Z.sgn_nonneg. exact Hx.
  - apply Z.div_pos; lia.
Qed.

(** A number that is not negative is stored as a value that is not below
    0 for the store: a number of hundredths from 0 on, or [NaN]. *)
Lemma to_decimal_10_2_nonneg x v :
  Num.number_ltb x (Num.num 0) = false -> Num.to_decimal_10_2 x = Some v ->
  Num.dec_ltb v (Num.dec 0) = false.
Proof.
  destruct x as [q| | |]; cbn [Num.number_ltb Num.to_decimal_10_2].
  - intros Hx. destruct (_ <? _); [|discriminate]. intros [= <-].
    unfold Num.dec_ltb, Num.dec_leb.
    apply negb_false_iff, Z.leb_le.
    apply round_half_away_nonneg. apply Qltb_false_num in Hx.
    simpl. lia.
  - intros _ [= <-]. reflexivity.
  - discriminate.
  - discriminate.
Qed.

Lemma primary_key {R : Set} (key : R -> nat) rows a b :
  NoDup (map key rows) -> In a rows -> In b rows -> key a = key b -> a = b.
Proof.
  induction rows as [|r rows IH]; simpl; [contradiction|].
  intros Hnd. inversion Hnd as [|k ks Hnotin Hnd']; subst.
  intros [-> | Ha] [-> | Hb] Hkey.
  - reflexivity.
  - exfalso. apply Hnotin. rewrite Hkey. apply in_map. exact Hb.
  - exfalso. apply Hnotin. rewrite <- Hkey. apply in_map. exact Ha.
  - auto.
Qed.

Lemma find_some_existsb {A : Type} (p : A -> bool) rows r :
  find p rows = Some r -> existsb p rows = true.
Proof.
  intros H. apply find_some in H. apply existsb_exists. exists r. exact H.
Qed.

(** The checks of a Key Result row whose current value is replaced by [v]
    and whose status is recomputed: only the range of [v] is in question. *)
Lemma key_results_checks_progress today kr v :
  key_results_checks kr = None ->
  key_results_checks (update_key_result_status today (with_current_value kr v))
  = if Num.dec_leb (Num.dec 0) v && Num.dec_leb v (kr_target_value kr)
    then None
    else Some (check_violation "key_results_current_value_valid").
Proof.
  unfold key_results_checks.
  cbn [update_key_result_status with_current_value kr_current_value
       kr_target_value kr_description].
  destruct (Num.dec_leb (Num.dec 0) (kr_current_value kr)
            && Num.dec_leb (kr_current_value kr) (kr_target_value kr));
    cbn [negb]; [|discriminate].
  destruct ((10 <=? strlen (kr_description kr))
            && (strlen (kr_description kr) <=? 300)); cbn [negb];
    [|discriminate].
  destruct (Num.dec_ltb (Num.dec 0) (kr_target_value kr)); cbn [negb];
    [|discriminate].
  intros _.
  destruct (Num.dec_leb (Num.dec 0) v && Num.dec_leb v (kr_target_value kr));
    reflexivity.
Qed.

(** The INSERT on [progress_updates], decided case by case, for a Key Result
    that exists, satisfies its constraints and is the only one of its id. *)
Lemma insert_progress_update_cases today k x notes db kr :
  Read.key_result_row db k = Some kr ->
  key_results_checks kr = None ->
  NoDup (map kr_id (key_results db)) ->
  insert_progress_update today k x notes db =
  match Num.to_decimal_10_2 x with
  | None => inl numeric_value_out_of_range
  | Some v =>
      if match notes with Some n => 1000 <? strlen n | None => false end
      then inl (check_violation "progress_updates_notes_length")
      else if Num.dec_ltb v (Num.dec 0)
      then inl (check_violation "progress_updates_value_positive")
      else if Num.dec_ltb (kr_target_value kr) v
      then inl (check_violation "key_results_current_value_valid")
      else
        inr (mkDB (objectives db)
               (map (fun r =>
                       if Nat.eqb (kr_id r) k
                       then update_key_result_status today
                              (with_current_value r v)
                       else r) (key_results db))
               (progress_updates db
                ++ [mk_progress_updates_row (next_uuid db) k v notes])
               (S (next_uuid db)),
             mk_progress_updates_row (next_uuid db) k v notes)
  end.
Proof.
  intros Hrow Hvalid Hkey. unfold Read.key_result_row in Hrow.
  unfold insert_progress_update.
  destruct (Num.to_decimal_10_2 x) as [v|]; [|reflexivity].
  unfold progress_updates_checks. cbn [pu_notes pu_value_recorded].
  assert (Hnotes : (match notes with
                    | Some n => strlen n <=? 1000
                    | None => true
                    end)
                   = negb (match notes with
                           | Some n => 1000 <? strlen n
                           | None => false
                           end)).
  { destruct notes as [n|]; [|reflexivity].
    rewrite Z.ltb_antisym, negb_involutive. reflexivity. }
  rewrite Hnotes, negb_involutive.
  destruct (match notes with Some n => 1000 <? strlen n | None => false end);
    [reflexivity|].
  fold (Num.dec_ltb v (Num.dec 0)).
  destruct (Num.dec_ltb v (Num.dec 0)) eqn:Hv0; [reflexivity|].
  rewrite (find_some_existsb _ _ _ Hrow).
  unfold update_key_result_from_progress. cbn [pu_key_result_id
      pu_value_recorded].
  unfold Num.dec_ltb in Hv0. apply negb_false_iff in Hv0.
  destruct (Num.dec_ltb (kr_target_value kr) v) eqn:Hv1;
    unfold Num.dec_ltb in Hv1.
  - apply negb_true_iff in Hv1.
    erewrite update_where_rejects; [reflexivity | exact Hrow |].
    cbv beta zeta. rewrite (key_results_checks_progress _ _ _ Hvalid).
    rewrite Hv1, andb_false_r. reflexivity.
  - apply negb_false_iff in Hv1.
    rewrite (update_where_map _ _
               (fun r => update_key_result_status today (with_current_value r
                   v))).
    + reflexivity.
    + intros r Hin Hid. cbv beta zeta.
      assert (r = kr) as ->.
      { apply find_some in Hrow. destruct Hrow as [Hin' Hid'].
        apply (primary_key kr_id (key_results db)); try assumption.
        apply Nat.eqb_eq in Hid, Hid'. congruence. }
      rewrite (key_results_checks_progress _ _ _ Hvalid).
      rewrite Hv0, Hv1. reflexivity.
Qed.

(** C3 (amended): on an existing Key Result, recording a negative value
    throws the 400 error INVALID_PROGRESS_VALUE; a value that does not fit
    the column, notes longer than 1000 characters, and a value that, rounded
    to two decimals, exceeds the target are refused by the store with a
    database error; in all these cases nothing is persisted.  Any other
    value is written: the ledger row and the Key Result update are committed
    and stay, and the call returns the Progress Update unless the later
    update of the Objective is refused by the store. *)
Theorem updateProgress_refusals :
  forall (today : Z) (data : KeyResultService.UpdateProgressRequest) (db : DB)
         (kr : key_results_row),
    Read.key_result_row db (KeyResultService.keyResultId data) = Some kr ->
    key_results_checks kr = None ->
    NoDup (map kr_id (key_results db)) ->
    if Num.number_ltb (KeyResultService.valueRecorded data) (Num.num 0)
    then KeyResultService.updateProgress data today db
         = mkRun [] (Threw (createError "Progress value cannot be negative" 400
             "INVALID_PROGRESS_VALUE"))
    else
      match Num.to_decimal_10_2 (KeyResultService.valueRecorded data) with
      | None =>
          KeyResultService.updateProgress data today db
          = mkRun [] (Threw (DatabaseError numeric_value_out_of_range))
      | Some v =>
          if match ObjectiveModel.or_null (KeyResultService.notes data) with
             | Some n => 1000 <? strlen n
             | None => false
             end
          then KeyResultService.updateProgress data today db
               = mkRun []
                   (Threw (DatabaseError
                             (check_violation "progress_updates_notes_length")))
          else if Num.dec_ltb (kr_target_value kr) v
          then KeyResultService.updateProgress data today db
               = mkRun []
                   (Threw (DatabaseError
                             (check_violation
                                 "key_results_current_value_valid")))
          else
            exists (s1 : DB) (row : progress_updates_row),
              insert_progress_update today (KeyResultService.keyResultId data)
                (KeyResultService.valueRecorded data)
                (ObjectiveModel.or_null (KeyResultService.notes data)) db
              = inr (s1, row)
              /\ pu_value_recorded row = v
              /\ hd_error (commits (KeyResultService.updateProgress data today
                  db))
                 = Some s1
              /\ In row
                   (progress_updates
                      (final db (KeyResultService.updateProgress data today
                          db)))
              /\ Read.key_result_row
                   (final db (KeyResultService.updateProgress data today db))
                   (KeyResultService.keyResultId data)
                 = Some (update_key_result_status today
                           (with_current_value kr v))
              /\ (outcome (KeyResultService.updateProgress data today db)
                  = Returned (ProgressUpdateModel.mapRowToProgressUpdate row)
                  \/ exists e,
                       update_objective today (kr_objective_id kr) None None
                         None None (Some completed) s1 = inl e
                       /\ outcome (KeyResultService.updateProgress data today
                           db)
                          = Threw (DatabaseError e))
      end.
Proof.
  intros today data db kr Hrow Hvalid Hkey.
  rewrite updateProgress_run, Hrow.
  destruct (Num.number_ltb _ _) eqn:Hneg; [reflexivity|].
  rewrite (insert_progress_update_cases _ _ _ _ _ _ Hrow Hvalid Hkey).
  destruct (Num.to_decimal_10_2 _) as [v|] eqn:Hv; [|reflexivity].
  rewrite (to_decimal_10_2_nonneg _ _ Hneg Hv).
  destruct (match ObjectiveModel.or_null _ with
            | Some n => 1000 <? strlen n
            | None => false
            end); [reflexivity|].
  destruct (Num.dec_ltb (kr_target_value kr) v); [reflexivity|].
  match goal with
  | |- context [inr (?s, ?r)] => set (s1 := s); set (row := r)
  end.
  exists s1, row.
  split; [reflexivity|]. split; [reflexivity|].
  assert (Hkr1 : Read.key_result_row s1 (KeyResultService.keyResultId data)
                 = Some (update_key_result_status today
                           (with_current_value kr v))).
  { unfold Read.key_result_row, s1. cbn [key_results].
    unfold Read.key_result_row in Hrow. clear -Hrow.
    induction (key_results db) as [|a rows IH]; [discriminate|].
    simpl in *. destruct (Nat.eqb (kr_id a) _) eqn:Ha.
    - injection Hrow as ->. simpl. rewrite Ha. reflexivity.
    - rewrite Ha. auto. }
  assert (Hin1 : In row (progress_updates s1)).
  { unfold s1. cbn [progress_updates]. apply in_or_app. right. left.
    reflexivity. }
  destruct (ObjectiveService.allCompleted _).
  - destruct (update_objective _ _ _ _ _ _ _ s1) as [e|[s2 ret]] eqn:Hupd.
    + cbn. repeat split; try assumption. right. exists e. split; reflexivity.
    + destruct (update_objective_completed_inr _ _ _ _ _ Hupd)
        as (Hkrs & Hpus & _ & _).
      cbn. unfold Read.key_result_row in *. rewrite Hkrs, Hpus.
      repeat split; try assumption. left. reflexivity.
  - cbn. repeat split; try assumption. left. reflexivity.
Qed.

Lemma updateProgress_refusals_witness :
  Read.key_result_row Scenario.created 2
  = Some (mk_key_results_row 2 1 "Earn three certifications" (Num.dec 300)
      (Num.dec 0) "certs"
            400 not_started)
  /\ key_results_checks
       (mk_key_results_row 2 1 "Earn three certifications" (Num.dec 300)
           (Num.dec 0) "certs" 400
          not_started) = None
  /\ NoDup (map kr_id (key_results Scenario.created))
  /\ KeyResultService.updateProgress (Scenario.record 2 (-1)) 10
       Scenario.created
     = mkRun [] (Threw (createError "Progress value cannot be negative" 400
         "INVALID_PROGRESS_VALUE"))
  /\ KeyResultService.updateProgress (Scenario.record 2 5) 10 Scenario.created
     = mkRun []
         (Threw (DatabaseError
                   (check_violation "key_results_current_value_valid"))).
Proof.
  assert (Hkey : NoDup (map kr_id (key_results Scenario.created))).
  { vm_compute. constructor; [|constructor; [|constructor]].
    - intros [H | []]. discriminate H.
    - intros []. }
  assert (Hrow : Read.key_result_row Scenario.created 2
                 = Some (mk_key_results_row 2 1 "Earn three certifications"
                           (Num.dec 300) (Num.dec 0) "certs" 400 not_started))
    by reflexivity.
  assert (Hvalid : key_results_checks
                     (mk_key_results_row 2 1 "Earn three certifications"
                         (Num.dec 300)
                        (Num.dec 0) "certs" 400 not_started) = None)
    by reflexivity.
  split; [exact Hrow|]. split; [exact Hvalid|]. split; [exact Hkey|]. split.
  - exact (updateProgress_refusals 10 (Scenario.record 2 (-1)) Scenario.created
             (mk_key_results_row 2 1 "Earn three certifications" (Num.dec 300)
                 (Num.dec 0)
                "certs" 400 not_started) Hrow Hvalid Hkey).
  - exact (updateProgress_refusals 10 (Scenario.record 2 5) Scenario.created
             (mk_key_results_row 2 1 "Earn three certifications" (Num.dec 300)
                 (Num.dec 0)
                "certs" 400 not_started) Hrow Hvalid Hkey).
Defined.

(** C3, as stated, fails: five certifications against a target of three are
    refused by the constraint [key_results_current_value_valid] of the
    store, which is no ValidationError. *)
Lemma recordProgress_validation_counterexample :
  ~ Claim.recordProgress_validation 10 (Scenario.record 2 5) Scenario.created.
Proof.
  intros H.
  destruct (H _ eq_refl) as [[_ Hthrown] _].
  destruct Hthrown as (message & code & Hcode).
  - right. reflexivity.
  - vm_compute in Hcode. discriminate Hcode.
Qed.

(** A value that rounds to the target is written although it exceeds it. *)
Example updateProgress_rounds_to_target :
  outcome (KeyResultService.updateProgress (Scenario.record 2 (3004 # 1000)) 10
             Scenario.created)
  = Returned (ProgressUpdateModel.mapRowToProgressUpdate
                (mk_progress_updates_row 4 2 (Num.dec 300) None)).
Proof. reflexivity. Qed.

(** ** The cascade over a session *)

Lemma kept_or_completed_refl o : kept_or_completed o o.
Proof. split; [reflexivity | left; reflexivity]. Qed.

Lemma kept_or_completed_trans a b c :
  kept_or_completed a b -> kept_or_completed b c -> kept_or_completed a c.
Proof.
  intros [Hid1 H1] [Hid2 H2]. split; [congruence|].
  destruct H2 as [H2 | H2]; [|right; exact H2].
  destruct H1 as [H1 | H1]; [left | right]; congruence.
Qed.

Lemma completion_step_kept_or_completed id o o' :
  completion_step id o o' -> kept_or_completed o o'.
Proof.
  unfold completion_step. destruct (Nat.eqb (o_id o) id); intros ->.
  - split; [reflexivity | right; reflexivity].
  - apply kept_or_completed_refl.
Qed.

Lemma updateProgress_objectives data today db :
  Forall2 kept_or_completed (objectives db)
    (objectives (final db (KeyResultService.updateProgress data today db))).
Proof.
  rewrite updateProgress_run.
  destruct (Read.key_result_row _ _) as [kr|];
    [|apply rowwise_refl, kept_or_completed_refl].
  destruct (Num.number_ltb _ _); [apply rowwise_refl, kept_or_completed_refl|].
  destruct (insert_progress_update _ _ _ _ db) as [e|[s1 row]] eqn:Hins;
    [apply rowwise_refl, kept_or_completed_refl|].
  destruct (insert_progress_update_inr _ _ _ _ _ _ _ Hins)
    as (_ & _ & _ & _ & Hobj & _).
  destruct (ObjectiveService.allCompleted _).
  - destruct (update_objective _ _ _ _ _ _ _ s1) as [e|[s2 ret]] eqn:Hupd;
      cbn.
    + rewrite Hobj. apply rowwise_refl, kept_or_completed_refl.
    + destruct (update_objective_completed_inr _ _ _ _ _ Hupd)
        as (_ & _ & _ & Hos).
      rewrite <- Hobj.
      eapply rowwise_impl; [|exact Hos].
      apply completion_step_kept_or_completed.
  - cbn. rewrite Hobj. apply rowwise_refl, kept_or_completed_refl.
Qed.

Lemma recordProgress_all_objectives calls db :
  Forall2 kept_or_completed (objectives db)
    (objectives (Session.recordProgress_all calls db)).
Proof.
  revert db. induction calls as [|[today data] calls IH]; intros db; simpl.
  - apply rowwise_refl, kept_or_completed_refl.
  - eapply rowwise_trans; [exact kept_or_completed_trans | | apply IH].
    apply updateProgress_objectives.
Qed.

(** C7 (amended): after any sequence of recordProgress calls every
    Objective is still there with the status it had or with Completed; in
    particular a Completed Objective stays Completed whatever its Key
    Results become.  (Any status, Archived and Abandoned included, can be
    replaced by Completed.) *)
Theorem cascade_keeps_or_completes :
  forall (calls : list (Z * KeyResultService.UpdateProgressRequest))
         (db : DB) (id : nat) (o : objectives_row),
    Read.objective_row db id = Some o ->
    exists o',
      Read.objective_row (Session.recordProgress_all calls db) id = Some o'
      /\ (o_status o' = o_status o \/ o_status o' = completed)
      /\ (o_status o = completed -> o_status o' = completed).
Proof.
  intros calls db id o Hrow.
  assert (Hp : forall r r', kept_or_completed r r' ->
                 Nat.eqb (o_id r') id = Nat.eqb (o_id r) id).
  { intros r r' [-> _]. reflexivity. }
  destruct (rowwise_find _ _ Hp _ _ _ (recordProgress_all_objectives calls db)
              Hrow) as (o' & Hrow' & _ & Hstatus).
  exists o'. split; [exact Hrow'|]. split; [exact Hstatus|].
  intros Hc. destruct Hstatus; congruence.
Qed.

Lemma cascade_keeps_or_completes_witness :
  Read.objective_row Scenario.certified 1
  = Some (mk_objectives_row 1 7 "Learn Go" None skills 500 active)
  /\ exists o',
       Read.objective_row
         (Session.recordProgress_all
            [(20, Scenario.record 3 100); (30, Scenario.record 3 40)]
            Scenario.certified) 1 = Some o'
       /\ (o_status o' = active \/ o_status o' = completed)
       /\ (active = completed -> o_status o' = completed).
Proof.
  split; [reflexivity|].
  exact (cascade_keeps_or_completes
           [(20, Scenario.record 3 100); (30, Scenario.record 3 40)]
           Scenario.certified 1 _ eq_refl).
Defined.

(** C7, as stated, fails: the Objective archived by its owner on day 5 is
    Completed once progress brings both Key Results to their targets. *)
Lemma cascade_only_from_active_counterexample :
  ~ Claim.cascade_only_from_active
      [(10, Scenario.record 2 3); (20, Scenario.record 3 100)]
      Scenario.archived_by_owner.
Proof.
  intros H.
  assert (Hbefore : Read.objective_row Scenario.archived_by_owner 1
                    = Some (mk_objectives_row 1 7 "Learn Go" None skills 500
                              archived))
    by reflexivity.
  assert (Hafter : Read.objective_row
                     (Session.recordProgress_all
                        [(10, Scenario.record 2 3); (20, Scenario.record 3 100)]
                        Scenario.archived_by_owner) 1
                   = Some (mk_objectives_row 1 7 "Learn Go" None skills 500
                             completed))
    by reflexivity.
  destruct (H 1%nat _ _ Hbefore Hafter) as [Hs | [Hs _]]; discriminate Hs.
Qed.

(** The Objective completed on day 20 stays Completed when the hours fall
    back to 40 on day 30. *)
Example completed_objective_not_demoted :
  map o_status
    (objectives
       (Session.recordProgress_all
          [(20, Scenario.record 3 100); (30, Scenario.record 3 40)]
          Scenario.certified)) = [completed]
  /\ map kr_status
       (key_results
          (Session.recordProgress_all
             [(20, Scenario.record 3 100); (30, Scenario.record 3 40)]
             Scenario.certified)) = [kr_completed; in_progress].
Proof. vm_compute. split; reflexivity. Qed.

(** ** Status updates by the owner *)


Lemma find_filter_hd {A : Type} (p : A -> bool) rows r :
  find p rows = Some r -> exists rest, filter p rows = r :: rest.
Proof.
  induction rows as [|a rows IH]; simpl; [discriminate|].
  destruct (p a).
  - intros [= ->]. eauto.
  - exact IH.
Qed.

(** [UPDATE objectives SET status = s WHERE id = id], for an Objective that
    exists, satisfies its constraints on that day and is the only one of
    its id. *)
Lemma update_objective_status today id s db o :
  Read.objective_row db id = Some o ->
  objectives_checks today o = None ->
  NoDup (map o_id (objectives db)) ->
  exists rest,
    update_objective today id None None None None (Some s) db
    = inr (mkDB (map (fun r => if Nat.eqb (o_id r) id
                               then with_status r s else r) (objectives db))
             (key_results db) (progress_updates db) (next_uuid db),
           with_status o s :: rest).
Proof.
  intros Hrow Hvalid Hkey. unfold Read.objective_row in Hrow.
  unfold update_objective. cbn [varchar_opt].
  rewrite (update_where_map _ _ (fun r => with_status r s)).
  - destruct (find_filter_hd _ _ _ Hrow) as [rest ->]. simpl. eauto.
  - intros r Hin Hid. cbv beta.
    assert (r = o) as ->.
    { apply find_some in Hrow. destruct Hrow as [Hin' Hid'].
      apply (primary_key o_id (objectives db)); try assumption.
      apply Nat.eqb_eq in Hid, Hid'. congruence. }
    unfold objectives_checks in *. simpl. rewrite Hvalid. reflexivity.
Qed.



(** Completed back to Active, and Archived to Completed, go through as
    well. *)
Example status_update_other_transitions :
  map o_status
    (objectives
       (final Scenario.archived_by_owner
          (ObjectivesRoute.put 7 1 (Session.status_only "completed") 6
             Scenario.archived_by_owner))) = [completed]
  /\ map o_status
       (objectives
          (final Scenario.archived_by_owner
             (ObjectivesRoute.put 7 1 (Session.status_only "abandoned") 6
                Scenario.archived_by_owner))) = [abandoned].
Proof. vm_compute. split; reflexivity. Qed.

(** ** Stored status and recomputed status *)

Lemma update_key_result_status_fresh today r :
  kr_status (update_key_result_status today r)
  = Read.recomputed_status today (update_key_result_status today r).
Proof. reflexivity. Qed.

(** C9 (amended): right after a write of current_value, target_value or
    deadline (recording progress, updating one of these fields, creating
    the Key Result) the stored status of the written Key Result equals the
    status recomputed from its stored values with today taken as the day of
    that write; a stored Completed or NotStarted agrees with the
    recomputation on every later day as well, since these two do not depend
    on the date.  (InProgress and AtRisk are not refreshed as days pass.) *)
Theorem status_matches_recomputation_on_write_day :
  (forall today k x notes db db' row r,
      insert_progress_update today k x notes db = inr (db', row) ->
      In r (key_results db') -> kr_id r = k ->
      kr_status r = Read.recomputed_status today r)
  /\ (forall today id d tv cv u dl db db' ret r,
        update_key_result today id d tv cv u dl db = inr (db', ret) ->
        tv <> None \/ cv <> None \/ dl <> None ->
        In r (key_results db') -> kr_id r = id ->
        kr_status r = Read.recomputed_status today r)
  /\ (forall today oid d tv cv u dl db db' row,
        insert_key_result today oid d tv cv u dl db = inr (db', row) ->
        In row (key_results db')
        /\ kr_status row = Read.recomputed_status today row)
  /\ (forall day later r,
        Read.recomputed_status day r = kr_completed
        \/ Read.recomputed_status day r = not_started ->
        Read.recomputed_status later r = Read.recomputed_status day r).
Proof.
  split; [|split; [|split]].
  - intros today k x notes db db' row r Hins Hin Hid.
    destruct (insert_progress_update_inr _ _ _ _ _ _ _ Hins)
      as (v & _ & _ & _ & _ & _ & _ & Hkrs).
    destruct (rowwise_in _ _ _ _ Hkrs Hin) as (r0 & _ & Hstep).
    pose proof (progress_step_ids _ _ _ _ _ Hstep) as [Hid0 _].
    unfold progress_step in Hstep.
    rewrite <- Hid0, Hid, Nat.eqb_refl in Hstep.
    destruct Hstep as [-> _]. reflexivity.
  - intros today id d tv cv u dl db db' ret r Hupd Hcols Hin Hid.
    unfold update_key_result in Hupd.
    destruct (varchar_opt 300 d) as [e|d']; [discriminate|].
    destruct tv as [tv|]; [destruct (Num.to_decimal_10_2 tv) as [tv'|];
                           [|discriminate]|];
      (destruct cv as [cv|]; [destruct (Num.to_decimal_10_2 cv) as [cv'|];
                              [|discriminate]|]);
      (destruct (varchar_opt 50 u) as [e|u']; [discriminate|]);
      destruct dl as [dl|];
      try (exfalso; destruct Hcols as [H | [H | H]]; apply H; reflexivity);
      (destruct (update_where _ _ _) as [e|[krs' ret']] eqn:Hw;
         [discriminate|]);
      injection Hupd as <- <-; simpl in Hin;
      apply update_where_rows in Hw;
      destruct (rowwise_in _ _ _ _ Hw Hin) as (r0 & _ & Hstep);
      cbv beta in Hstep;
      (destruct (Nat.eqb (kr_id r0) id) eqn:Hid0;
         [destruct (key_results_checks _); [discriminate|];
          injection Hstep as <-; reflexivity
         |subst r; rewrite Hid, Nat.eqb_refl in Hid0; discriminate]).
  - intros today oid d tv cv u dl db db' row Hins.
    unfold insert_key_result in Hins.
    destruct (varchar 300 d) as [e|d']; [discriminate|].
    destruct (Num.to_decimal_10_2 tv); [|discriminate].
    destruct (Num.to_decimal_10_2 cv); [|discriminate].
    destruct (varchar 50 u) as [e|u']; [discriminate|].
    destruct (key_results_checks _); [discriminate|].
    destruct (existsb _ _); [|discriminate].
    injection Hins as <- <-. split; [|reflexivity].
    simpl. apply in_or_app. right. left. reflexivity.
  - intros day later r Hday.
    unfold Read.recomputed_status, auto_status in *.
    destruct (Num.numeric_leb (Num.rational 100) _); [reflexivity|].
    destruct (Num.numeric_ltb (Num.rational 0) _); [|reflexivity].
    destruct Hday as [H | H];
      destruct ((kr_deadline r - day <? 14) && _); discriminate H.
Qed.

Lemma status_matches_recomputation_on_write_day_witness :
  insert_progress_update 20 3 (Num.num 10) None Scenario.created
  = inr (Scenario.ten_hours, mk_progress_updates_row 4 3 (Num.dec 1000) None)
  /\ In (mk_key_results_row 3 1 "Study one hundred hours" (Num.dec 10000)
      (Num.dec 1000) "hours"
           450 in_progress) (key_results Scenario.ten_hours)
  /\ kr_status
       (mk_key_results_row 3 1 "Study one hundred hours" (Num.dec 10000)
           (Num.dec 1000) "hours"
          450 in_progress)
     = Read.recomputed_status 20
         (mk_key_results_row 3 1 "Study one hundred hours" (Num.dec 10000)
             (Num.dec 1000) "hours"
            450 in_progress).
Proof.
  assert (Hins : insert_progress_update 20 3 (Num.num 10) None Scenario.created
                 = inr (Scenario.ten_hours,
                        mk_progress_updates_row 4 3 (Num.dec 1000) None))
    by reflexivity.
  assert (Hin : In (mk_key_results_row 3 1 "Study one hundred hours" (Num.dec
      10000)
                      (Num.dec 1000) "hours" 450 in_progress)
                  (key_results Scenario.ten_hours)).
  { right. left. reflexivity. }
  split; [exact Hins|]. split; [exact Hin|].
  exact (proj1 status_matches_recomputation_on_write_day 20 3%nat (Num.num 10)
           None
           Scenario.created Scenario.ten_hours
           (mk_progress_updates_row 4 3 (Num.dec 1000) None)
           (mk_key_results_row 3 1 "Study one hundred hours" (Num.dec 10000)
               (Num.dec 1000)
              "hours" 450 in_progress) Hins Hin eq_refl).
Defined.

(** C9, as stated, fails: ten hours out of a hundred recorded on day 20 are
    stored as InProgress; on day 440, ten days before the deadline, the
    calculator says AtRisk, and the stored status is still InProgress. *)
Lemma no_status_drift_counterexample :
  ~ Claim.no_status_drift 440 Scenario.ten_hours.
Proof.
  unfold Claim.no_status_drift. rewrite Forall_forall. intros H.
  specialize (H (mk_key_results_row 3 1 "Study one hundred hours" (Num.dec
      10000) (Num.dec 1000)
                   "hours" 450 in_progress)).
  assert (Hstored : kr_status
                      (mk_key_results_row 3 1 "Study one hundred hours" (Num.dec
                          10000)
                         (Num.dec 1000) "hours" 450 in_progress)
                    = Read.recomputed_status 440
                        (mk_key_results_row 3 1 "Study one hundred hours"
                           (Num.dec 10000) (Num.dec 1000) "hours" 450
                               in_progress)).
  { apply H. right. left. reflexivity. }
  vm_compute in Hstored. discriminate Hstored.
Qed.

(** On the day of the write there is no drift. *)
Example no_status_drift_on_write_day :
  Claim.no_status_drift 20 Scenario.ten_hours.
Proof. vm_compute. repeat constructor. Qed.

(** ** Batches *)

Lemma createProgressUpdate_run k x notes today db :
  ProgressUpdateModel.createProgressUpdate
    (ProgressUpdateModel.mkCreateProgressUpdateData k x notes) today db
  = match insert_progress_update today k x (ObjectiveModel.or_null notes) db
      with
    | inl e => mkRun [] (Threw (DatabaseError e))
    | inr (s1, row) =>
        mkRun [s1] (Returned (ProgressUpdateModel.mapRowToProgressUpdate row))
    end.
Proof.
  unfold ProgressUpdateModel.createProgressUpdate, bind, statement, ret. cbn.
  destruct (insert_progress_update _ _ _ _ db) as [e|[s1 row]]; reflexivity.
Qed.

Lemma batchUpdateProgress_loop_cons u rest results ids today db :
  KeyResultService.batchUpdateProgress_loop (u :: rest) results ids today db
  = match Read.key_result_row db (KeyResultService.keyResultId u) with
    | None => mkRun [] (Threw (AppError (text_id "Key result not found: "
        (KeyResultService.keyResultId u)) 404 "KEY_RESULT_NOT_FOUND"))
    | Some kr =>
        match insert_progress_update today (KeyResultService.keyResultId u)
                (KeyResultService.valueRecorded u)
                (ObjectiveModel.or_null (KeyResultService.notes u)) db with
        | inl e => mkRun [] (Threw (DatabaseError e))
        | inr (s1, row) =>
            mkRun
              (s1 :: commits
                       (KeyResultService.batchUpdateProgress_loop rest
                          (results
                           ++ [ProgressUpdateModel.mapRowToProgressUpdate row])
                          (KeyResultService.Set_add (kr_objective_id kr) ids)
                          today s1))
              (outcome
                 (KeyResultService.batchUpdateProgress_loop rest
                    (results
                     ++ [ProgressUpdateModel.mapRowToProgressUpdate row])
                    (KeyResultService.Set_add (kr_objective_id kr) ids)
                    today s1))
        end
    end.
Proof.
  cbn [KeyResultService.batchUpdateProgress_loop].
  unfold bind at 1, KeyResultModel.findKeyResultById, select,
    Read.key_result_row.
  cbn [outcome commits final last app].
  destruct (find _ (key_results db)) as [kr|]; cbn; [|reflexivity].
  unfold bind. rewrite createProgressUpdate_run.
  destruct (insert_progress_update _ _ _ _ db) as [e|[s1 row]]; reflexivity.
Qed.

Lemma checkAndUpdateObjectiveCompletion_run id today db :
  ObjectiveService.checkAndUpdateObjectiveCompletion id today db
  = if ObjectiveService.allCompleted
         (map KeyResultModel.mapRowToKeyResult (Read.key_results_of db id))
    then
      match update_objective today id None None None None (Some completed)
              db with
      | inl e => mkRun [] (Threw (DatabaseError e))
      | inr (s2, _) => mkRun [s2] (Returned tt)
      end
    else mkRun [] (Returned tt).
Proof.
  unfold ObjectiveService.checkAndUpdateObjectiveCompletion, bind,
    KeyResultModel.findKeyResultsByObjectiveId, select, Read.key_results_of.
  cbn. destruct (ObjectiveService.allCompleted _); [|reflexivity].
  unfold ObjectiveModel.updateObjective, bind, statement, ret. cbn.
  destruct (update_objective _ _ _ _ _ _ _ db) as [e|[s2 rows]];
    [reflexivity|].
  destruct rows; reflexivity.
Qed.

(** The first loop of a batch only throws what the store throws, or
    KEY_RESULT_NOT_FOUND. *)
Lemma batchUpdateProgress_loop_throws updates results ids today db e :
  outcome (KeyResultService.batchUpdateProgress_loop updates results ids
             today db) = Threw e ->
  (exists id, e = AppError (text_id "Key result not found: " id) 404
      "KEY_RESULT_NOT_FOUND") \/ exists pe, e = DatabaseError pe.
Proof.
  revert results ids db.
  induction updates as [|u rest IH]; intros results ids db.
  - discriminate.
  - rewrite batchUpdateProgress_loop_cons.
    destruct (Read.key_result_row _ _) as [kr|].
    + destruct (insert_progress_update _ _ _ _ db) as [pe|[s1 row]].
      * intros [= <-]. right. eauto.
      * cbn. apply IH.
    + intros [= <-]. left. eexists. reflexivity.
Qed.

Lemma for_of_checks_throw ids today db e :
  outcome (for_of ids ObjectiveService.checkAndUpdateObjectiveCompletion
             today db) = Threw e ->
  exists pe, e = DatabaseError pe.
Proof.
  revert db. induction ids as [|id ids IH]; intros db.
  - discriminate.
  - cbn [for_of]. unfold bind at 1.
    rewrite checkAndUpdateObjectiveCompletion_run.
    destruct (ObjectiveService.allCompleted _).
    + destruct (update_objective _ _ _ _ _ _ _ db) as [pe|[s2 rows]]; cbn.
      * intros [= <-]. eauto.
      * apply IH.
    + cbn. apply IH.
Qed.

(** A batch never throws the INVALID_PROGRESS_VALUE of the single call. *)
Lemma batchUpdateProgress_throws updates today db e :
  outcome (KeyResultService.batchUpdateProgress updates today db) = Threw e ->
  (exists id, e = AppError (text_id "Key result not found: " id) 404
      "KEY_RESULT_NOT_FOUND") \/ exists pe, e = DatabaseError pe.
Proof.
  unfold KeyResultService.batchUpdateProgress. unfold bind at 1.
  destruct (outcome (KeyResultService.batchUpdateProgress_loop _ _ _ _ _))
    as [[results ids]|e'] eqn:Hloop.
  - cbn [outcome]. unfold bind at 1.
    destruct (outcome (for_of _ _ _ _)) as [[]|e''] eqn:Hfor; cbn.
    + discriminate.
    + intros [= <-]. right. exact (for_of_checks_throw _ _ _ _ Hfor).
  - cbn. intros [= <-].
    exact (batchUpdateProgress_loop_throws _ _ _ _ _ _ Hloop).
Qed.

Lemma progress_step_not_found today k v rows rows' id :
  Forall2 (progress_step today k v) rows rows' ->
  find (fun r => Nat.eqb (kr_id r) id) rows = None ->
  find (fun r => Nat.eqb (kr_id r) id) rows' = None.
Proof.
  apply rowwise_find_none.
  intros r r' H. apply progress_step_ids in H. destruct H as [-> _].
  reflexivity.
Qed.

Lemma last_cons {A : Type} (a : A) l d : last (a :: l) d = last l a.
Proof.
  revert a d. induction l as [|b l IH]; intros a d; [reflexivity|].
  change (last (a :: b :: l) d) with (last (b :: l) d).
  rewrite (IH b d), (IH b a). reflexivity.
Qed.

(** What the first loop has done when it gets through its entries. *)
Lemma batchUpdateProgress_loop_returns updates :
  forall results ids today db results' ids',
    outcome (KeyResultService.batchUpdateProgress_loop updates results ids
               today db) = Returned (results', ids') ->
    final db (KeyResultService.batchUpdateProgress_loop updates results ids
                today db)
    = Session.progress_written today updates db
    /\ objectives (Session.progress_written today updates db) = objectives db
    /\ exists rows,
         results' = results ++ map ProgressUpdateModel.mapRowToProgressUpdate
             rows
         /\ progress_updates (Session.progress_written today updates db)
            = progress_updates db ++ rows
         /\ map pu_key_result_id rows
            = map KeyResultService.keyResultId updates.
Proof.
  induction updates as [|u rest IH]; intros results ids today db results' ids'.
  - cbn. intros [= <- <-]. split; [reflexivity|]. split; [reflexivity|].
    exists []. cbn. rewrite !app_nil_r. repeat split.
  - rewrite batchUpdateProgress_loop_cons.
    cbn [Session.progress_written]. rewrite createProgressUpdate_run.
    destruct (Read.key_result_row _ _) as [kr|]; [|discriminate].
    destruct (insert_progress_update _ _ _ _ db) as [pe|[s1 row]] eqn:Hins;
      [discriminate|].
    cbn [outcome]. intros Hret.
    destruct (IH _ _ _ _ _ _ Hret) as (Hfinal & Hobj & rows & Hres & Hpus &
        Hids).
    destruct (insert_progress_update_inr _ _ _ _ _ _ _ Hins)
      as (v & _ & Hrow & _ & Hobj1 & Hpus1 & _).
    change (final db (mkRun [s1]
                        (Returned
                           (ProgressUpdateModel.mapRowToProgressUpdate row))))
      with s1.
    unfold final in *. cbn [commits] in *.
    split.
    + rewrite last_cons. exact Hfinal.
    + split; [congruence|].
      exists (row :: rows). cbn [map].
      rewrite Hres, Hpus, Hpus1, <- !app_assoc. cbn.
      repeat split. rewrite Hids, Hrow. reflexivity.
Qed.

Lemma batchUpdateProgress_loop_stops pre :
  forall bad post results ids today db results' ids',
    outcome (KeyResultService.batchUpdateProgress_loop pre results ids today
               db) = Returned (results', ids') ->
    Read.key_result_row db (KeyResultService.keyResultId bad) = None ->
    KeyResultService.batchUpdateProgress_loop (pre ++ bad :: post) results ids
      today db
    = mkRun
        (commits (KeyResultService.batchUpdateProgress_loop pre results ids
                    today db))
        (Threw (AppError (text_id "Key result not found: "
            (KeyResultService.keyResultId bad)) 404 "KEY_RESULT_NOT_FOUND")).
Proof.
  induction pre as [|u rest IH];
    intros bad post results ids today db results' ids' Hret Hbad.
  - cbn [app]. rewrite batchUpdateProgress_loop_cons, Hbad. reflexivity.
  - cbn [app].
    rewrite (batchUpdateProgress_loop_cons u (rest ++ bad :: post)),
      (batchUpdateProgress_loop_cons u rest).
    rewrite (batchUpdateProgress_loop_cons u rest) in Hret.
    destruct (Read.key_result_row db (KeyResultService.keyResultId u))
      as [kr|]; [|discriminate].
    destruct (insert_progress_update _ _ _ _ db) as [pe|[s1 row]] eqn:Hins;
      [discriminate|].
    cbn [outcome commits] in *.
    destruct (insert_progress_update_inr _ _ _ _ _ _ _ Hins)
      as (v & _ & _ & _ & _ & _ & _ & Hkrs).
    rewrite (IH bad post _ _ today s1 _ _ Hret).
    + reflexivity.
    + exact (progress_step_not_found _ _ _ _ _ _ Hkrs Hbad).
Qed.

Lemma progress_step_other today k v rows rows' id kr :
  Forall2 (progress_step today k v) rows rows' ->
  find (fun r => Nat.eqb (kr_id r) id) rows = Some kr ->
  Nat.eqb k id = false ->
  find (fun r => Nat.eqb (kr_id r) id) rows' = Some kr.
Proof.
  intros Hrows Hfind Hother.
  assert (Hp : forall r r', progress_step today k v r r' ->
                Nat.eqb (kr_id r') id = Nat.eqb (kr_id r) id).
  { intros r r' H. apply progress_step_ids in H. destruct H as [-> _].
    reflexivity. }
  destruct (rowwise_find _ _ Hp _ _ _ Hrows Hfind) as (r' & Hfind' & Hstep).
  rewrite Hfind'. apply find_some in Hfind. destruct Hfind as [_ Hid].
  apply Nat.eqb_eq in Hid.
  unfold progress_step in Hstep. rewrite Hid, Nat.eqb_sym, Hother in Hstep.
  rewrite Hstep. reflexivity.
Qed.

(** The row of a Key Result once the first loop has got through its
    entries: untouched when no entry addresses it, and otherwise with the
    value of the last such entry, as the column stores it, and the status
    of that day. *)
Lemma progress_written_row updates :
  forall today db results ids results' ids' k kr,
    outcome (KeyResultService.batchUpdateProgress_loop updates results ids
               today db) = Returned (results', ids') ->
    Read.key_result_row db k = Some kr ->
    exists kr',
      Read.key_result_row (Session.progress_written today updates db) k
      = Some kr'
      /\ match Session.last_recorded k updates with
         | None => kr' = kr
         | Some x =>
             exists v,
               Num.to_decimal_10_2 x = Some v
               /\ kr' = update_key_result_status today
                          (with_current_value kr v)
         end.
Proof.
  induction updates as [|u rest IH];
    intros today db results ids results' ids' k kr Hret Hrow.
  - exists kr. split; [exact Hrow | reflexivity].
  - rewrite batchUpdateProgress_loop_cons in Hret.
    cbn [Session.progress_written Session.last_recorded].
    rewrite createProgressUpdate_run.
    destruct (Read.key_result_row db (KeyResultService.keyResultId u))
      as [kru|]; [|discriminate].
    destruct (insert_progress_update _ _ _ _ db) as [pe|[s1 row]] eqn:Hins;
      [discriminate|].
    cbn [outcome] in Hret.
    change (final db (mkRun [s1]
                        (Returned
                           (ProgressUpdateModel.mapRowToProgressUpdate row))))
      with s1.
    destruct (insert_progress_update_inr _ _ _ _ _ _ _ Hins)
      as (v & Hv & _ & _ & _ & _ & _ & Hkrs).
    unfold Read.key_result_row in *.
    destruct (Nat.eqb (KeyResultService.keyResultId u) k) eqn:Hk.
    + apply Nat.eqb_eq in Hk. subst k.
      pose proof (progress_step_found _ _ _ _ _ _ Hkrs Hrow) as Hrow1.
      destruct (IH _ _ _ _ _ _ _ _ Hret Hrow1) as (kr' & Hfinal & Hlast).
      exists kr'. split; [exact Hfinal|].
      destruct (Session.last_recorded _ rest) as [x|].
      * destruct Hlast as (v' & Hv' & ->). exists v'. split; [exact Hv'|].
        reflexivity.
      * exists v. split; [exact Hv | exact Hlast].
    + pose proof (progress_step_other _ _ _ _ _ _ _ Hkrs Hrow Hk) as Hrow1.
      destruct (IH _ _ _ _ _ _ _ _ Hret Hrow1) as (kr' & Hfinal & Hlast).
      exists kr'. split; [exact Hfinal|].
      destruct (Session.last_recorded _ rest) as [x|]; exact Hlast.
Qed.

(** C10: when the entries before a missing Key Result have been written,
    the batch throws KEY_RESULT_NOT_FOUND and ends in the store those
    writes have left: their Progress Updates are persisted and no Objective
    is touched; every Key Result that one of them addresses has the value of
    the last such entry as its current value, as the column stores it, and
    the status computed from it on that day, with target, deadline and the
    other columns as before, and every other Key Result is as before; and
    no batch, on any input, throws the INVALID_PROGRESS_VALUE that the
    single call throws on a negative value. *)
Theorem batchUpdateProgress_keeps_earlier_entries :
  forall (today : Z) (db : DB)
         (pre : list KeyResultService.UpdateProgressRequest)
         (bad : KeyResultService.UpdateProgressRequest)
         (post : list KeyResultService.UpdateProgressRequest)
         (results : list ProgressUpdateModel.ProgressUpdate)
         (ids : list nat),
    outcome (KeyResultService.batchUpdateProgress_loop pre [] [] today db)
    = Returned (results, ids) ->
    Read.key_result_row db (KeyResultService.keyResultId bad) = None ->
    outcome (KeyResultService.batchUpdateProgress (pre ++ bad :: post) today db)
    = Threw (AppError
               (text_id "Key result not found: "
                  (KeyResultService.keyResultId bad))
               404 "KEY_RESULT_NOT_FOUND")
    /\ final db
         (KeyResultService.batchUpdateProgress (pre ++ bad :: post) today db)
       = Session.progress_written today pre db
    /\ objectives (Session.progress_written today pre db) = objectives db
    /\ (exists rows,
          results = map ProgressUpdateModel.mapRowToProgressUpdate rows
          /\ progress_updates (Session.progress_written today pre db)
             = progress_updates db ++ rows
          /\ map pu_key_result_id rows
             = map KeyResultService.keyResultId pre)
    /\ (forall (k : nat) (kr : key_results_row),
          Read.key_result_row db k = Some kr ->
          exists kr',
            Read.key_result_row
              (final db
                 (KeyResultService.batchUpdateProgress (pre ++ bad :: post)
                    today db)) k = Some kr'
            /\ match Session.last_recorded k pre with
               | None => kr' = kr
               | Some x =>
                   Num.to_decimal_10_2 x = Some (kr_current_value kr')
                   /\ kr_status kr'
                      = auto_status today (Num.value (kr_current_value kr'))
                          (Num.value (kr_target_value kr)) (kr_deadline kr)
                   /\ kr_id kr' = k
                   /\ kr_objective_id kr' = kr_objective_id kr
                   /\ kr_description kr' = kr_description kr
                   /\ kr_target_value kr' = kr_target_value kr
                   /\ kr_unit kr' = kr_unit kr
                   /\ kr_deadline kr' = kr_deadline kr
               end)
    /\ (forall updates today' db' message,
          outcome (KeyResultService.batchUpdateProgress updates today' db')
          <> Threw (AppError message 400 "INVALID_PROGRESS_VALUE")).
Proof.
  intros today db pre bad post results ids Hret Hbad.
  destruct (batchUpdateProgress_loop_returns _ _ _ _ _ _ _ Hret)
    as (Hfinal & Hobj & rows & Hres & Hpus & Hids).
  unfold KeyResultService.batchUpdateProgress at 1 2 3. unfold bind at 1 3 5.
  rewrite (batchUpdateProgress_loop_stops pre bad post _ _ _ _ _ _ Hret Hbad).
  cbn [outcome commits].
  split; [reflexivity|]. split; [exact Hfinal|]. split; [exact Hobj|].
  split; [|split].
  - exists rows. repeat split; assumption || exact Hres.
  - intros k kr Hrow.
    destruct (progress_written_row _ _ _ _ _ _ _ _ _ Hret Hrow)
      as (kr' & Hrow' & Hlast).
    exists kr'. split; [rewrite <- Hrow'; f_equal; exact Hfinal|].
    destruct (Session.last_recorded k pre) as [x|]; [|exact Hlast].
    destruct Hlast as (v & Hv & ->).
    cbn [update_key_result_status with_current_value kr_current_value
         kr_status kr_id kr_objective_id kr_description kr_target_value
         kr_unit kr_deadline].
    repeat split; try assumption.
    apply find_some in Hrow. apply Nat.eqb_eq. exact (proj2 Hrow).
  - intros updates today' db' message Hthrown.
    destruct (batchUpdateProgress_throws _ _ _ _ Hthrown)
      as [[id H] | [pe H]]; discriminate H.
Qed.

Lemma batchUpdateProgress_keeps_earlier_entries_witness :
  outcome (KeyResultService.batchUpdateProgress_loop [Scenario.record 2 3] []
             [] 10 Scenario.created)
  = Returned ([ProgressUpdateModel.mapRowToProgressUpdate
                 (mk_progress_updates_row 4 2 (Num.dec 300) None)], [1%nat])
  /\ Read.key_result_row Scenario.created 99 = None
  /\ outcome (KeyResultService.batchUpdateProgress
                ([Scenario.record 2 3]
                 ++ Scenario.record 99 1 :: [Scenario.record 3 100])
                10 Scenario.created)
     = Threw (AppError (text_id "Key result not found: " 99) 404
         "KEY_RESULT_NOT_FOUND")
  /\ final Scenario.created
       (KeyResultService.batchUpdateProgress
          ([Scenario.record 2 3]
           ++ Scenario.record 99 1 :: [Scenario.record 3 100])
          10 Scenario.created)
     = Session.progress_written 10 [Scenario.record 2 3] Scenario.created.
Proof.
  assert (Hret : outcome (KeyResultService.batchUpdateProgress_loop
                            [Scenario.record 2 3] [] [] 10 Scenario.created)
                 = Returned ([ProgressUpdateModel.mapRowToProgressUpdate
                                (mk_progress_updates_row 4 2 (Num.dec 300)
                                    None)],
                             [1%nat]))
    by reflexivity.
  assert (Hbad : Read.key_result_row Scenario.created 99 = None)
    by reflexivity.
  split; [exact Hret|]. split; [exact Hbad|].
  destruct (batchUpdateProgress_keeps_earlier_entries 10 Scenario.created
              [Scenario.record 2 3] (Scenario.record 99 1)
              [Scenario.record 3 100] _ _ Hret Hbad)
    as (Hthrown & Hfinal & _).
  split; [exact Hthrown | exact Hfinal].
Defined.

(** The batch of the witness: the certifications are recorded and stay, the
    hours after the missing entry are never reached. *)
Example batchUpdateProgress_partial :
  map kr_current_value
    (key_results
       (final Scenario.created
          (KeyResultService.batchUpdateProgress
             [Scenario.record 2 3; Scenario.record 99 1; Scenario.record 3 100]
             10 Scenario.created))) = [Num.dec 300; Num.dec 0]
  /\ map pu_value_recorded
       (progress_updates
          (final Scenario.created
             (KeyResultService.batchUpdateProgress
                [Scenario.record 2 3; Scenario.record 99 1;
                 Scenario.record 3 100]
                10 Scenario.created))) = [Num.dec 300].
Proof. vm_compute. split; reflexivity. Qed.

(** A negative value: 400 from the single call, a constraint of the store
    from the batch. *)
Example negative_value_single_and_batch :
  outcome (KeyResultService.updateProgress (Scenario.record 3 (-1)) 10
             Scenario.created)
  = Threw (createError "Progress value cannot be negative" 400
      "INVALID_PROGRESS_VALUE")
  /\ outcome (KeyResultService.batchUpdateProgress [Scenario.record 3 (-1)] 10
                Scenario.created)
     = Threw (DatabaseError (check_violation
         "progress_updates_value_positive")).
Proof. vm_compute. split; reflexivity. Qed.

(** ** Creating an Objective with its Key Results *)

(** The two validations of the service come before any statement. *)
Lemma createObjectiveWithKeyResults_validation data today db :
  (List.length (ObjectiveService.r_keyResults data) < 2)%nat
  \/ (5 < List.length (ObjectiveService.r_keyResults data))%nat
  \/ (exists kr, In kr (ObjectiveService.r_keyResults data)
                 /\ ObjectiveService.r_targetDate data
                    < ObjectiveService.k_deadline kr) ->
  commits (ObjectiveService.createObjectiveWithKeyResults data today db) = []
  /\ exists message code,
       outcome (ObjectiveService.createObjectiveWithKeyResults data today db)
       = Threw (AppError message 400 code).
Proof.
  intros Hbad. unfold ObjectiveService.createObjectiveWithKeyResults.
  destruct ((_ <? 2)%nat || (5 <? _)%nat) eqn:Hcount.
  - split; [reflexivity | do 2 eexists; reflexivity].
  - destruct (0 <? List.length (filter _ _))%nat eqn:Hdl.
    + split; [reflexivity | do 2 eexists; reflexivity].
    + exfalso. apply orb_false_iff in Hcount. destruct Hcount as [H2 H5].
      apply Nat.ltb_ge in H2, H5, Hdl.
      destruct Hbad as [H | [H | (kr & Hin & Hlate)]]; [lia | lia |].
      assert (Hin' : In kr (filter
                              (fun kr => ObjectiveService.r_targetDate data
                                         <? ObjectiveService.k_deadline kr)
                              (ObjectiveService.r_keyResults data))).
      { apply filter_In. split; [exact Hin|]. apply Z.ltb_lt. exact Hlate. }
      destruct (filter _ _); [contradiction | simpl in Hdl; lia].
Qed.

(** C4 (the code at the failing input): the second Key Result of the
    request has a description of nine characters; the Objective and the
    first Key Result are committed, the second INSERT is refused, the call
    throws, and the Objective is left with a single Key Result. *)
Theorem createObjectiveWithKeyResults_partial :
  outcome (ObjectiveService.createObjectiveWithKeyResults
             Scenario.learn_go_short 0 Scenario.empty)
  = Threw (DatabaseError (check_violation "key_results_description_length"))
  /\ map o_id
       (objectives
          (final Scenario.empty
             (ObjectiveService.createObjectiveWithKeyResults
                Scenario.learn_go_short 0 Scenario.empty))) = [1%nat]
  /\ map kr_id
       (Read.key_results_of
          (final Scenario.empty
             (ObjectiveService.createObjectiveWithKeyResults
                Scenario.learn_go_short 0 Scenario.empty)) 1) = [2%nat]
  /\ ~ all_or_nothing Scenario.empty
         (ObjectiveService.createObjectiveWithKeyResults
            Scenario.learn_go_short 0 Scenario.empty).
Proof.
  split; [reflexivity|]. split; [reflexivity|]. split; [reflexivity|].
  intros [_ Hrollback].
  specialize (Hrollback _ eq_refl).
  vm_compute in Hrollback. discriminate Hrollback.
Qed.

(** * Further properties *)

(** ** Invariants through the monad *)

Section Keeps.

Context (I : DB -> Prop).

Lemma final_keeps {A : Type} (db : DB) (r : Run A) :
  I db -> Forall I (commits r) -> I (final db r).
Proof.
  unfold final. destruct r as [cs out]. cbn. revert db.
  induction cs as [|c cs IH]; intros db Hdb Hcs; [exact Hdb|].
  inversion Hcs; subst. rewrite last_cons. auto.
Qed.

Lemma keeps_ret {A : Type} (a : A) : keeps I (ret a).
Proof. intros today db _. constructor. Qed.

Lemma keeps_throw {A : Type} (e : Error) : keeps I (@throw A e).
Proof. intros today db _. constructor. Qed.

Lemma keeps_select {A : Type} (q : DB -> A) : keeps I (select q).
Proof. intros today db _. constructor. Qed.

Lemma keeps_statement {A : Type} (st : Z -> DB -> PgError + (DB * A)) :
  (forall today db db' a, st today db = inr (db', a) -> I db -> I db') ->
  keeps I (statement st).
Proof.
  intros Hst today db Hdb. unfold statement.
  destruct (st today db) as [e|[db' a]] eqn:Hrun; cbn; [constructor|].
  constructor; [eauto | constructor].
Qed.

Lemma keeps_bind {A B : Type} (m : M A) (k : A -> M B) :
  keeps I m -> (forall a, keeps I (k a)) -> keeps I (bind m k).
Proof.
  intros Hm Hk today db Hdb. unfold bind.
  specialize (Hm today db Hdb).
  destruct (outcome (m today db)) as [a|e]; cbn; [|exact Hm].
  apply Forall_app. split; [exact Hm|].
  apply Hk. apply final_keeps; assumption.
Qed.

Lemma keeps_Promise_all {A : Type} (ms : list (M A)) :
  Forall (keeps I) ms -> keeps I (Promise_all ms).
Proof.
  induction 1 as [|m ms Hm _ IH]; intros today db Hdb; cbn; [constructor|].
  apply Forall_app. split; [exact (Hm today db Hdb)|].
  apply IH. apply final_keeps; [exact Hdb | exact (Hm today db Hdb)].
Qed.

Lemma keeps_for_of {A : Type} (xs : list A) (body : A -> M unit) :
  (forall x, keeps I (body x)) -> keeps I (for_of xs body).
Proof.
  intros Hbody. induction xs as [|x xs IH]; cbn.
  - apply keeps_ret.
  - apply keeps_bind; [apply Hbody | intros _; exact IH].
Qed.

End Keeps.

(** ** Tables after a statement *)

Lemma rowwise_map {R : Set} {K : Type} (rel : R -> R -> Prop) (key : R -> K)
    rows rows' :
  (forall r r', rel r r' -> key r' = key r) ->
  Forall2 rel rows rows' -> map key rows' = map key rows.
Proof.
  intros Hkey. induction 1 as [|a a' rows rows' Ha _ IH]; cbn;
    [reflexivity|].
  rewrite (Hkey _ _ Ha), IH. reflexivity.
Qed.

Lemma rowwise_Forall {R : Set} (rel : R -> R -> Prop) (P Q : R -> Prop)
    rows rows' :
  (forall r r', rel r r' -> P r -> Q r') ->
  Forall2 rel rows rows' -> Forall P rows -> Forall Q rows'.
Proof.
  intros HP. induction 1 as [|a a' rows rows' Ha _ IH]; intros Hall;
    [constructor|].
  inversion Hall; subst. constructor; eauto.
Qed.

Lemma Forall_filter_keep {A : Type} (P : A -> Prop) (f : A -> bool) rows :
  Forall P rows -> Forall P (filter f rows).
Proof.
  rewrite !Forall_forall. intros H x Hin. apply filter_In in Hin.
  apply H. tauto.
Qed.

Lemma NoDup_map_filter {A B : Type} (key : A -> B) (f : A -> bool) rows :
  NoDup (map key rows) -> NoDup (map key (filter f rows)).
Proof.
  induction rows as [|a rows IH]; cbn; [auto|].
  intros Hnd. inversion Hnd as [|k ks Hnotin Hnd']; subst.
  destruct (f a); cbn; [|auto].
  constructor; [|auto].
  intros Hin. apply Hnotin. apply in_map_iff in Hin.
  destruct Hin as (x & Hx & Hin). apply filter_In in Hin.
  rewrite <- Hx. apply in_map. tauto.
Qed.

Lemma NoDup_map_snoc {A : Type} (key : A -> nat) rows x n :
  NoDup (map key rows) -> Forall (fun r => (key r < n)%nat) rows ->
  key x = n -> NoDup (map key (rows ++ [x])).
Proof.
  intros Hnd Hlt Hx. rewrite map_app. cbn.
  induction rows as [|a rows IH]; cbn.
  - constructor; [intros [] | constructor].
  - inversion Hnd as [|k ks Hnotin Hnd']; subst.
    inversion Hlt as [|b bs Hb Hlt']; subst.
    constructor; [|auto].
    intros Hin. apply in_app_or in Hin. destruct Hin as [Hin | [Hin | []]].
    + contradiction.
    + lia.
Qed.

Lemma Forall_issued_snoc {A : Type} (key : A -> nat) rows x n :
  Forall (fun r => (key r < n)%nat) rows -> key x = n ->
  Forall (fun r => (key r < S n)%nat) (rows ++ [x]).
Proof.
  intros Hlt Hx. apply Forall_app. split.
  - eapply Forall_impl; [|exact Hlt]. cbn. intros. lia.
  - constructor; [lia | constructor].
Qed.

Lemma Forall_issued_next {A : Type} (key : A -> nat) rows n :
  Forall (fun r => (key r < n)%nat) rows ->
  Forall (fun r => (key r < S n)%nat) rows.
Proof. apply Forall_impl. intros. lia. Qed.

Lemma existsb_key {A : Type} (key : A -> nat) rows x :
  existsb (fun r => Nat.eqb (key r) x) rows = true <-> In x (map key rows).
Proof.
  rewrite existsb_exists, in_map_iff.
  split; intros (r & H1 & H2); exists r.
  - apply Nat.eqb_eq in H2. tauto.
  - split; [tauto|]. apply Nat.eqb_eq. tauto.
Qed.

Lemma in_map_filter_other {A : Type} (key : A -> nat) (f : A -> bool) rows x :
  In x (map key rows) ->
  (forall r, In r rows -> key r = x -> f r = true) ->
  In x (map key (filter f rows)).
Proof.
  intros Hin Hf. apply in_map_iff in Hin. destruct Hin as (r & Hr & Hin).
  apply in_map_iff. exists r. split; [exact Hr|].
  apply filter_In. split; [exact Hin | auto].
Qed.

(** ** Texts in the columns *)

Lemma truncate_short n s : (String.length s <= n)%nat -> truncate n s = s.
Proof.
  unfold truncate. revert n. induction s as [|c s IH]; intros [|n] Hlen;
    cbn in *; try reflexivity; try lia.
  rewrite IH by lia. reflexivity.
Qed.

Lemma truncate_length n s : (String.length (truncate n s) <= n)%nat.
Proof.
  unfold truncate. revert n. induction s as [|c s IH]; intros [|n]; cbn;
    try lia.
  specialize (IH n). lia.
Qed.

(** A text that the column takes is stored cut to the length of the
    column. *)
Lemma varchar_inr n s s' : varchar n s = inr s' -> s' = truncate n s.
Proof.
  unfold varchar. destruct (String.length s <=? n)%nat eqn:Hlen.
  - intros [= <-]. symmetry. apply truncate_short. apply Nat.leb_le. exact Hlen.
  - destruct (forallb _ _); [|discriminate]. intros [= <-]. reflexivity.
Qed.

Lemma varchar_opt_inr n o o' :
  varchar_opt n o = inr o' -> o' = option_map (truncate n) o.
Proof.
  destruct o as [s|]; cbn; [|intros [= <-]; reflexivity].
  destruct (varchar n s) as [e|s'] eqn:Hs; [discriminate|].
  intros [= <-]. rewrite (varchar_inr _ _ _ Hs). reflexivity.
Qed.

(** A text that fits is stored as it is. *)
Lemma varchar_short n s : (String.length s <= n)%nat -> varchar n s = inr s.
Proof.
  intros Hlen. unfold varchar.
  destruct (String.length s <=? n)%nat eqn:H; [reflexivity|].
  apply Nat.leb_gt in H. lia.
Qed.

(** ** The statements keep the integrity of the store *)

Lemma wf_insert_objective today user title0 d c target db db' row :
  insert_objective today user title0 d c target db = inr (db', row) ->
  wf db -> wf db'.
Proof.
  unfold insert_objective.
  destruct (varchar 200 title0) as [e|title]; [discriminate|].
  destruct (objectives_checks _ _) eqn:Hchk; [discriminate|].
  intros [= <- <-] [H1 H2 H3 H4 H5 H6 H7 H8 H9 H10 H11].
  constructor; cbn.
  - eapply NoDup_map_snoc; [exact H1 | exact H4 | reflexivity].
  - exact H2.
  - exact H3.
  - apply Forall_issued_snoc; [exact H4 | reflexivity].
  - apply Forall_issued_next. exact H5.
  - apply Forall_issued_next. exact H6.
  - apply Forall_app. split; [exact H7|]. constructor; [|constructor].
    unfold objectives_checks in Hchk. cbn in *.
    destruct (today <=? target); cbn in Hchk; [|discriminate].
    destruct ((5 <=? strlen title) && (strlen title <=? 200)) eqn:Hlen;
      [|discriminate].
    apply andb_true_iff in Hlen. destruct Hlen as [Ha Hb].
    apply Z.leb_le in Ha, Hb. lia.
  - exact H8.
  - exact H9.
  - eapply Forall_impl; [|exact H10]. cbn. intros r Hr.
    rewrite map_app. apply in_or_app. left. exact Hr.
  - exact H11.
Qed.

Lemma wf_insert_key_result today oid d tv cv u dl db db' row :
  insert_key_result today oid d tv cv u dl db = inr (db', row) ->
  wf db -> wf db'.
Proof.
  unfold insert_key_result.
  destruct (varchar 300 d) as [e|d']; [discriminate|].
  destruct (Num.to_decimal_10_2 tv) as [tv'|]; [|discriminate].
  destruct (Num.to_decimal_10_2 cv) as [cv'|]; [|discriminate].
  destruct (varchar 50 u) as [e|u']; [discriminate|].
  destruct (key_results_checks _) eqn:Hchk; [discriminate|].
  destruct (existsb _ _) eqn:Hfk; [|discriminate].
  intros [= <- <-] [H1 H2 H3 H4 H5 H6 H7 H8 H9 H10 H11].
  constructor; cbn.
  - exact H1.
  - eapply NoDup_map_snoc; [exact H2 | exact H5 | reflexivity].
  - exact H3.
  - apply Forall_issued_next. exact H4.
  - apply Forall_issued_snoc; [exact H5 | reflexivity].
  - apply Forall_issued_next. exact H6.
  - exact H7.
  - apply Forall_app. split; [exact H8|]. constructor; [exact Hchk|constructor].
  - exact H9.
  - apply Forall_app. split; [exact H10|]. constructor; [|constructor].
    cbn. apply (existsb_key o_id). exact Hfk.
  - eapply Forall_impl; [|exact H11]. cbn. intros r Hr.
    rewrite map_app. apply in_or_app. left. exact Hr.
Qed.

Lemma progress_step_checks today k v r r' :
  progress_step today k v r r' ->
  key_results_checks r = None -> key_results_checks r' = None.
Proof.
  unfold progress_step. destruct (Nat.eqb (kr_id r) k).
  - intros [_ H] _. exact H.
  - intros -> H. exact H.
Qed.

Lemma wf_insert_progress_update today k x notes db db' row :
  insert_progress_update today k x notes db = inr (db', row) ->
  wf db -> wf db'.
Proof.
  intros Hins [H1 H2 H3 H4 H5 H6 H7 H8 H9 H10 H11].
  assert (Hfk : In k (map kr_id (key_results db))).
  { unfold insert_progress_update in Hins.
    destruct (Num.to_decimal_10_2 x); [|discriminate].
    destruct (progress_updates_checks _); [discriminate|].
    destruct (existsb _ _) eqn:Hfk; [|discriminate].
    apply (existsb_key kr_id). exact Hfk. }
  destruct (insert_progress_update_inr _ _ _ _ _ _ _ Hins)
    as (v & _ & Hrow & Hchk & Hobj & Hpus & Hnext & Hkrs).
  assert (Hids : map kr_id (key_results db') = map kr_id (key_results db)).
  { eapply rowwise_map; [|exact Hkrs].
    intros r r' H. apply (progress_step_ids _ _ _ _ _ H). }
  assert (Hoids : map kr_objective_id (key_results db')
                  = map kr_objective_id (key_results db)).
  { eapply rowwise_map; [|exact Hkrs].
    intros r r' H. apply (progress_step_ids _ _ _ _ _ H). }
  constructor; rewrite ?Hobj, ?Hpus, ?Hnext, ?Hids.
  - exact H1.
  - exact H2.
  - eapply NoDup_map_snoc; [exact H3 | exact H6 | rewrite Hrow; reflexivity].
  - apply Forall_issued_next. exact H4.
  - eapply rowwise_Forall; [|exact Hkrs | exact H5].
    intros r r' H Hr. cbn in *.
    destruct (progress_step_ids _ _ _ _ _ H) as [-> _]. lia.
  - apply Forall_issued_snoc; [exact H6 | rewrite Hrow; reflexivity].
  - exact H7.
  - eapply rowwise_Forall; [|exact Hkrs | exact H8].
    intros r r'. apply progress_step_checks.
  - apply Forall_app. split; [exact H9|]. constructor; [exact Hchk|constructor].
  - eapply rowwise_Forall; [|exact Hkrs | exact H10].
    intros r r' H Hr. cbn in *.
    destruct (progress_step_ids _ _ _ _ _ H) as [_ ->]. exact Hr.
  - apply Forall_app. split; [exact H11|]. constructor; [|constructor].
    rewrite Hrow. exact Hfk.
Qed.

Lemma wf_delete_key_result id db db' n :
  delete_key_result id db = inr (db', n) -> wf db -> wf db'.
Proof.
  unfold delete_key_result.
  intros [= <- <-] [H1 H2 H3 H4 H5 H6 H7 H8 H9 H10 H11].
  constructor; cbn.
  - exact H1.
  - apply NoDup_map_filter. exact H2.
  - apply NoDup_map_filter. exact H3.
  - exact H4.
  - apply Forall_filter_keep. exact H5.
  - apply Forall_filter_keep. exact H6.
  - exact H7.
  - apply Forall_filter_keep. exact H8.
  - apply Forall_filter_keep. exact H9.
  - apply Forall_filter_keep. exact H10.
  - rewrite Forall_forall in *. intros u Hu. apply filter_In in Hu.
    destruct Hu as [Hu Hother].
    apply in_map_filter_other; [apply H11; exact Hu|].
    intros r _ Hr. rewrite Hr. exact Hother.
Qed.

Lemma wf_delete_progress_update id db db' n :
  delete_progress_update id db = inr (db', n) -> wf db -> wf db'.
Proof.
  unfold delete_progress_update.
  intros [= <- <-] [H1 H2 H3 H4 H5 H6 H7 H8 H9 H10 H11].
  constructor; cbn; try assumption.
  - apply NoDup_map_filter. exact H3.
  - apply Forall_filter_keep. exact H6.
  - apply Forall_filter_keep. exact H9.
  - apply Forall_filter_keep. exact H11.
Qed.

Lemma wf_delete_objective id db db' n :
  delete_objective id db = inr (db', n) -> wf db -> wf db'.
Proof.
  unfold delete_objective.
  destruct (filter _ (objectives db)) as [|o os] eqn:Hdel.
  - intros [= <- <-] H. exact H.
  - intros [= <- <-] [H1 H2 H3 H4 H5 H6 H7 H8 H9 H10 H11].
    constructor; cbn.
    + apply NoDup_map_filter. exact H1.
    + apply NoDup_map_filter. exact H2.
    + apply NoDup_map_filter. exact H3.
    + apply Forall_filter_keep. exact H4.
    + apply Forall_filter_keep. exact H5.
    + apply Forall_filter_keep. exact H6.
    + apply Forall_filter_keep. exact H7.
    + apply Forall_filter_keep. exact H8.
    + apply Forall_filter_keep. exact H9.
    + rewrite Forall_forall in *. intros r Hr. apply filter_In in Hr.
      destruct Hr as [Hr Hother].
      apply in_map_filter_other; [apply H10; exact Hr|].
      intros o' _ Ho'. rewrite Ho'. exact Hother.
    + rewrite Forall_forall in *. intros u Hu. apply filter_In in Hu.
      destruct Hu as [Hu Hother].
      apply in_map_filter_other; [apply H11; exact Hu|].
      intros r Hr Hid.
      destruct (Nat.eqb (kr_objective_id r) id) eqn:Hoid; [|reflexivity].
      exfalso. apply negb_true_iff in Hother.
      assert (Htrue : existsb
                        (fun r0 => Nat.eqb (kr_id r0) (pu_key_result_id u))
                        (filter (fun r0 => Nat.eqb (kr_objective_id r0) id)
                           (key_results db)) = true).
      { apply existsb_exists. exists r. split.
        - apply filter_In. split; assumption.
        - apply Nat.eqb_eq. exact Hid. }
      congruence.
Qed.

Lemma update_key_result_inr today id d tvq cvq u dl db db' ret :
  update_key_result today id d tvq cvq u dl db = inr (db', ret) ->
  exists tv cv,
    coerced tvq tv /\ coerced cvq cv
    /\ objectives db' = objectives db
    /\ progress_updates db' = progress_updates db
    /\ next_uuid db' = next_uuid db
    /\ Forall2
         (update_step today id (option_map (truncate 300) d) tv cv
            (option_map (truncate 50) u) dl)
         (key_results db) (key_results db')
    /\ Forall (fun r => In r (key_results db')) ret.
Proof.
  unfold update_key_result.
  destruct (varchar_opt 300 d) as [e|d'] eqn:Hd; [discriminate|].
  apply varchar_opt_inr in Hd. subst d'.
  assert (Hco : forall q,
             match (match q with
                    | Some x =>
                        match Num.to_decimal_10_2 x with
                        | Some v => Some (Some v)
                        | None => None
                        end
                    | None => Some None
                    end) with
             | Some z => coerced q z
             | None => True
             end).
  { intros [x|]; cbn; [|reflexivity].
    destruct (Num.to_decimal_10_2 x) as [v|] eqn:Hx; cbn; [|trivial].
    unfold coerced. rewrite ?Hx. eauto. }
  pose proof (Hco tvq) as Htv. pose proof (Hco cvq) as Hcv. clear Hco.
  destruct (match tvq with Some _ => _ | None => _ end) as [tv|];
    [|discriminate].
  destruct (match cvq with Some _ => _ | None => _ end) as [cv|];
    [|discriminate].
  destruct (varchar_opt 50 u) as [e|u'] eqn:Hu; [discriminate|].
  apply varchar_opt_inr in Hu. subst u'.
  destruct (update_where _ _ _) as [e|[krs' ret']] eqn:Hw; [discriminate|].
  intros [= <- <-]. exists tv, cv. cbn.
  repeat (split; [first [assumption | reflexivity]|]).
  split.
  - apply update_where_rows in Hw.
    eapply rowwise_impl; [|exact Hw].
    intros r r'. unfold update_step. cbv beta.
    destruct (Nat.eqb (kr_id r) id); [|auto].
    destruct tv, cv, dl;
      (destruct (key_results_checks _) eqn:Hk; [discriminate|]);
      intros [= <-]; (split; [reflexivity | exact Hk]).
  - clear -Hw. revert krs' ret' Hw.
    induction (key_results db) as [|a rows IH]; cbn; intros krs' ret' Hw.
    + injection Hw as <- <-. constructor.
    + destruct (Nat.eqb (kr_id a) id).
      * destruct (match key_results_checks _ with Some _ => _ | None => _ end)
          as [e|a']; [discriminate|].
        destruct (update_where _ _ rows) as [e|[rest' r0]]; [discriminate|].
        injection Hw as <- <-.
        constructor; [left; reflexivity|].
        eapply Forall_impl; [|exact (IH _ _ eq_refl)].
        intros x Hx. right. exact Hx.
      * destruct (update_where _ _ rows) as [e|[rest' r0]]; [discriminate|].
        injection Hw as <- <-.
        eapply Forall_impl; [|exact (IH _ _ eq_refl)].
        intros x Hx. right. exact Hx.
Qed.

Lemma update_objective_inr today id t d c td st db db' ret :
  update_objective today id t d c td st db = inr (db', ret) ->
  key_results db' = key_results db
  /\ progress_updates db' = progress_updates db
  /\ next_uuid db' = next_uuid db
  /\ Forall2 (objective_step today id (option_map (truncate 200) t) d c td st)
       (objectives db) (objectives db').
Proof.
  unfold update_objective.
  destruct (varchar_opt 200 t) as [e|t'] eqn:Ht; [discriminate|].
  apply varchar_opt_inr in Ht. subst t'.
  destruct (update_where _ _ _) as [e|[os' ret']] eqn:Hw; [discriminate|].
  intros [= <- <-]. cbn. repeat split.
  apply update_where_rows in Hw.
  eapply rowwise_impl; [|exact Hw].
  intros o o'. unfold objective_step. cbv beta.
  destruct (Nat.eqb (o_id o) id); [|auto].
  fold (set_objective (option_map (truncate 200) t) d c td st o).
  destruct (objectives_checks _ _) eqn:Hk; [discriminate|].
  intros [= <-]. split; [reflexivity | exact Hk].
Qed.

Lemma update_step_ids today id d tv cv u dl r r' :
  update_step today id d tv cv u dl r r' ->
  kr_id r' = kr_id r /\ kr_objective_id r' = kr_objective_id r.
Proof.
  unfold update_step. destruct (Nat.eqb (kr_id r) id).
  - intros [-> _]. destruct tv, cv, dl; split; reflexivity.
  - intros ->. split; reflexivity.
Qed.

Lemma update_step_checks today id d tv cv u dl r r' :
  update_step today id d tv cv u dl r r' ->
  key_results_checks r = None -> key_results_checks r' = None.
Proof.
  unfold update_step. destruct (Nat.eqb (kr_id r) id).
  - intros [_ H] _. exact H.
  - intros -> H. exact H.
Qed.

Lemma objective_step_id today id t d c td st o o' :
  objective_step today id t d c td st o o' -> o_id o' = o_id o.
Proof.
  unfold objective_step. destruct (Nat.eqb (o_id o) id).
  - intros [-> _]. reflexivity.
  - intros ->. reflexivity.
Qed.

Lemma objectives_checks_title today o :
  objectives_checks today o = None -> 5 <= strlen (o_title o) <= 200.
Proof.
  unfold objectives_checks.
  destruct (today <=? o_target_date o); cbn; [|discriminate].
  destruct ((5 <=? strlen (o_title o)) && (strlen (o_title o) <=? 200))
    eqn:Hlen; cbn; [|discriminate].
  intros _. apply andb_true_iff in Hlen. destruct Hlen as [Ha Hb].
  apply Z.leb_le in Ha, Hb. lia.
Qed.

Lemma wf_update_key_result today id d tvq cvq u dl db db' ret :
  update_key_result today id d tvq cvq u dl db = inr (db', ret) ->
  wf db -> wf db'.
Proof.
  intros Hupd [H1 H2 H3 H4 H5 H6 H7 H8 H9 H10 H11].
  destruct (update_key_result_inr _ _ _ _ _ _ _ _ _ _ Hupd)
    as (tv & cv & _ & _ & Hobj & Hpus & Hnext & Hkrs & _).
  assert (Hids : map kr_id (key_results db') = map kr_id (key_results db)).
  { eapply rowwise_map; [|exact Hkrs].
    intros r r' H. apply (update_step_ids _ _ _ _ _ _ _ _ _ H). }
  constructor; rewrite ?Hobj, ?Hpus, ?Hnext, ?Hids; try assumption.
  - eapply rowwise_Forall; [|exact Hkrs | exact H5].
    intros r r' H Hr. cbn in *.
    destruct (update_step_ids _ _ _ _ _ _ _ _ _ H) as [-> _]. exact Hr.
  - eapply rowwise_Forall; [|exact Hkrs | exact H8].
    intros r r'. apply update_step_checks.
  - eapply rowwise_Forall; [|exact Hkrs | exact H10].
    intros r r' H Hr. cbn in *.
    destruct (update_step_ids _ _ _ _ _ _ _ _ _ H) as [_ ->]. exact Hr.
Qed.

Lemma wf_update_objective today id t d c td st db db' ret :
  update_objective today id t d c td st db = inr (db', ret) ->
  wf db -> wf db'.
Proof.
  intros Hupd [H1 H2 H3 H4 H5 H6 H7 H8 H9 H10 H11].
  destruct (update_objective_inr _ _ _ _ _ _ _ _ _ _ Hupd)
    as (Hkrs & Hpus & Hnext & Hos).
  assert (Hids : map o_id (objectives db') = map o_id (objectives db)).
  { eapply rowwise_map; [|exact Hos].
    intros o o'. apply objective_step_id. }
  constructor; rewrite ?Hkrs, ?Hpus, ?Hnext, ?Hids; try assumption.
  - eapply rowwise_Forall; [|exact Hos | exact H4].
    intros o o' H Ho. cbn in *.
    rewrite (objective_step_id _ _ _ _ _ _ _ _ _ H). exact Ho.
  - eapply rowwise_Forall; [|exact Hos | exact H7].
    intros o o' H Ho. cbn in *. unfold objective_step in H.
    destruct (Nat.eqb (o_id o) id).
    + destruct H as [_ H]. exact (objectives_checks_title _ _ H).
    + subst o'. exact Ho.
Qed.

(** ** The models, services and routes keep the integrity of the store *)

Ltac keeps_wf :=
  repeat first
    [ apply keeps_ret | apply keeps_throw | apply keeps_select
    | apply keeps_bind; [|intros ?]
    | apply keeps_for_of; intros ?
    | apply keeps_Promise_all; apply Forall_map, Forall_forall; intros ? _
    | apply keeps_statement; intros ? ? ? ? ? ?;
      first [ eapply wf_insert_objective; eassumption
            | eapply wf_insert_key_result; eassumption
            | eapply wf_insert_progress_update; eassumption
            | eapply wf_update_key_result; eassumption
            | eapply wf_update_objective; eassumption
            | eapply wf_delete_key_result; eassumption
            | eapply wf_delete_objective; eassumption
            | eapply wf_delete_progress_update; eassumption ]
    | match goal with
      | |- keeps _ (match ?x with _ => _ end) => destruct x
      end ].

Lemma keeps_wf_updateObjective id data :
  keeps wf (ObjectiveModel.updateObjective id data).
Proof. unfold ObjectiveModel.updateObjective. keeps_wf. Qed.

Lemma keeps_wf_createProgressUpdate data :
  keeps wf (ProgressUpdateModel.createProgressUpdate data).
Proof. keeps_wf. Qed.

Lemma keeps_wf_deleteProgressUpdate id :
  keeps wf (ProgressUpdateModel.deleteProgressUpdate id).
Proof. keeps_wf. Qed.

Lemma keeps_wf_checkAndUpdateObjectiveCompletion id :
  keeps wf (ObjectiveService.checkAndUpdateObjectiveCompletion id).
Proof.
  unfold ObjectiveService.checkAndUpdateObjectiveCompletion.
  keeps_wf. all: try apply keeps_wf_updateObjective.
Qed.

Lemma keeps_wf_createObjectiveWithKeyResults data :
  keeps wf (ObjectiveService.createObjectiveWithKeyResults data).
Proof. unfold ObjectiveService.createObjectiveWithKeyResults. keeps_wf. Qed.

Lemma keeps_wf_updateProgress data :
  keeps wf (KeyResultService.updateProgress data).
Proof.
  unfold KeyResultService.updateProgress. keeps_wf.
  all: try apply keeps_wf_checkAndUpdateObjectiveCompletion.
Qed.

Lemma keeps_wf_updateKeyResult id data :
  keeps wf (KeyResultService.updateKeyResult id data).
Proof.
  unfold KeyResultService.updateKeyResult, KeyResultModel.updateKeyResult,
    ObjectiveService.getObjectiveWithKeyResults.
  keeps_wf.
Qed.

Lemma keeps_wf_deleteKeyResult id :
  keeps wf (KeyResultService.deleteKeyResult id).
Proof. unfold KeyResultService.deleteKeyResult. keeps_wf. Qed.

Lemma keeps_wf_deleteObjective id :
  keeps wf (ObjectiveService.deleteObjective id).
Proof. keeps_wf. Qed.

Lemma keeps_wf_batchUpdateProgress_loop updates :
  forall results ids,
    keeps wf (KeyResultService.batchUpdateProgress_loop updates results ids).
Proof.
  induction updates as [|u rest IH]; intros results ids; cbn.
  - apply keeps_ret.
  - keeps_wf. all: try apply IH.
Qed.

Lemma keeps_wf_batchUpdateProgress updates :
  keeps wf (KeyResultService.batchUpdateProgress updates).
Proof.
  unfold KeyResultService.batchUpdateProgress. keeps_wf.
  all: first [ apply keeps_wf_batchUpdateProgress_loop
             | apply keeps_wf_checkAndUpdateObjectiveCompletion ].
Qed.

Lemma wf_empty : wf Scenario.empty.
Proof. constructor; cbn; constructor. Qed.

Lemma wf_created : wf Scenario.created.
Proof.
  unfold Scenario.created. apply final_keeps; [exact wf_empty|].
  apply keeps_wf_createObjectiveWithKeyResults. exact wf_empty.
Qed.

Lemma wf_certified : wf Scenario.certified.
Proof.
  unfold Scenario.certified. apply final_keeps; [exact wf_created|].
  apply keeps_wf_updateProgress. exact wf_created.
Qed.

(** ** Deadlines and target dates *)

Lemma deadlines_within_rowwise
    (relK : key_results_row -> key_results_row -> Prop)
    (relO : objectives_row -> objectives_row -> Prop) db db' :
  (forall r r', relK r r' ->
                kr_objective_id r' = kr_objective_id r
                /\ kr_deadline r' = kr_deadline r) ->
  (forall o o', relO o o' ->
                o_id o' = o_id o /\ o_target_date o' = o_target_date o) ->
  Forall2 relK (key_results db) (key_results db') ->
  Forall2 relO (objectives db) (objectives db') ->
  deadlines_within db -> deadlines_within db'.
Proof.
  intros HK HO Hkrs Hos Hin r' o' Hr' Ho' Hid.
  destruct (rowwise_in _ _ _ _ Hkrs Hr') as (r & Hr & Hrel).
  destruct (rowwise_in _ _ _ _ Hos Ho') as (o & Ho & Hrel').
  destruct (HK _ _ Hrel) as [E1 E2]. destruct (HO _ _ Hrel') as [E3 E4].
  rewrite E2, E4. apply (Hin r o Hr Ho). congruence.
Qed.

Lemma rowwise_eq {R : Set} (rows : list R) : Forall2 eq rows rows.
Proof. apply rowwise_refl. reflexivity. Qed.

Lemma deadlines_within_insert_progress_update today k x notes db db' row :
  insert_progress_update today k x notes db = inr (db', row) ->
  deadlines_within db -> deadlines_within db'.
Proof.
  intros Hins.
  destruct (insert_progress_update_inr _ _ _ _ _ _ _ Hins)
    as (v & _ & _ & _ & Hobj & _ & _ & Hkrs).
  apply (deadlines_within_rowwise (progress_step today k v) eq).
  - intros r r'. unfold progress_step.
    destruct (Nat.eqb (kr_id r) k).
    + intros [-> _]. split; reflexivity.
    + intros ->. split; reflexivity.
  - intros o o' ->. split; reflexivity.
  - exact Hkrs.
  - rewrite Hobj. apply rowwise_eq.
Qed.

Lemma deadlines_within_completion today id db db' ret :
  update_objective today id None None None None (Some completed) db
  = inr (db', ret) ->
  deadlines_within db -> deadlines_within db'.
Proof.
  intros Hupd.
  destruct (update_objective_completed_inr _ _ _ _ _ Hupd)
    as (Hkrs & _ & _ & Hos).
  apply (deadlines_within_rowwise eq (completion_step id)).
  - intros r r' ->. split; reflexivity.
  - intros o o'. unfold completion_step.
    destruct (Nat.eqb (o_id o) id); intros ->; split; reflexivity.
  - rewrite Hkrs. apply rowwise_eq.
  - exact Hos.
Qed.

Lemma keeps_deadlines_checkAndUpdateObjectiveCompletion id :
  keeps deadlines_within
    (ObjectiveService.checkAndUpdateObjectiveCompletion id).
Proof.
  intros today db Hdb. rewrite checkAndUpdateObjectiveCompletion_run.
  destruct (ObjectiveService.allCompleted _); [|constructor].
  destruct (update_objective _ _ _ _ _ _ _ db) as [e|[s2 rows]] eqn:Hupd;
    cbn; [constructor|].
  constructor; [|constructor].
  exact (deadlines_within_completion _ _ _ _ _ Hupd Hdb).
Qed.

Lemma keeps_deadlines_createProgressUpdate data :
  keeps deadlines_within (ProgressUpdateModel.createProgressUpdate data).
Proof.
  intros today db Hdb. destruct data as [k x notes].
  rewrite createProgressUpdate_run.
  destruct (insert_progress_update _ _ _ _ db) as [e|[s1 row]] eqn:Hins;
    cbn; [constructor|].
  constructor; [|constructor].
  exact (deadlines_within_insert_progress_update _ _ _ _ _ _ _ Hins Hdb).
Qed.

Lemma keeps_deadlines_updateProgress data :
  keeps deadlines_within (KeyResultService.updateProgress data).
Proof.
  unfold KeyResultService.updateProgress.
  apply keeps_bind; [apply keeps_select|]. intros [kr|]; [|apply keeps_throw].
  destruct (Num.number_ltb _ _); [apply keeps_throw|].
  apply keeps_bind; [apply keeps_deadlines_createProgressUpdate|]. intros pu.
  apply keeps_bind;
    [apply keeps_deadlines_checkAndUpdateObjectiveCompletion|].
  intros _. apply keeps_ret.
Qed.

Lemma keeps_deadlines_batchUpdateProgress updates :
  keeps deadlines_within (KeyResultService.batchUpdateProgress updates).
Proof.
  assert (Hloop : forall results ids,
             keeps deadlines_within
               (KeyResultService.batchUpdateProgress_loop updates results ids)).
  { induction updates as [|u rest IH]; intros results ids; cbn.
    - apply keeps_ret.
    - apply keeps_bind; [apply keeps_select|].
      intros [kr|]; [|apply keeps_throw].
      apply keeps_bind; [apply keeps_deadlines_createProgressUpdate|].
      intros pu. apply IH. }
  unfold KeyResultService.batchUpdateProgress.
  apply keeps_bind; [apply Hloop|]. intros acc.
  apply keeps_bind; [|intros _; apply keeps_ret].
  apply keeps_for_of. intros id.
  apply keeps_deadlines_checkAndUpdateObjectiveCompletion.
Qed.

Lemma deadlines_within_delete_key_result id db db' n :
  delete_key_result id db = inr (db', n) ->
  deadlines_within db -> deadlines_within db'.
Proof.
  unfold delete_key_result. intros [= <- <-] Hdb r o Hr Ho. cbn in *.
  apply filter_In in Hr. apply Hdb; tauto.
Qed.

Lemma keeps_deadlines_deleteKeyResult id :
  keeps deadlines_within (KeyResultService.deleteKeyResult id).
Proof.
  unfold KeyResultService.deleteKeyResult.
  apply keeps_bind; [apply keeps_select|]. intros [kr|]; [|apply keeps_ret].
  apply keeps_bind; [apply keeps_select|]. intros krs.
  destruct (_ <=? 2)%nat; [apply keeps_throw|].
  unfold KeyResultModel.deleteKeyResult.
  apply keeps_bind; [|intros n; apply keeps_ret].
  apply keeps_statement. intros today db db' n.
  apply deadlines_within_delete_key_result.
Qed.

Lemma insert_objective_inr today user title d c target db db' row :
  insert_objective today user title d c target db = inr (db', row) ->
  row = mk_objectives_row (next_uuid db) user (truncate 200 title) d c target
          active
  /\ objectives_checks today row = None
  /\ objectives db' = objectives db ++ [row]
  /\ key_results db' = key_results db
  /\ progress_updates db' = progress_updates db
  /\ next_uuid db' = S (next_uuid db).
Proof.
  unfold insert_objective.
  destruct (varchar 200 title) as [e|title'] eqn:Ht; [discriminate|].
  apply varchar_inr in Ht. subst title'.
  destruct (objectives_checks _ _) eqn:Hchk; [discriminate|].
  intros [= <- <-]. cbn. repeat split. exact Hchk.
Qed.

Lemma insert_key_result_inr today oid d tv cv u dl db db' row :
  insert_key_result today oid d tv cv u dl db = inr (db', row) ->
  exists tv' cv',
    Num.to_decimal_10_2 tv = Some tv' /\ Num.to_decimal_10_2 cv = Some cv'
    /\ row = update_key_result_status today
               (mk_key_results_row (next_uuid db) oid (truncate 300 d) tv'
                  cv' (truncate 50 u) dl not_started)
    /\ key_results_checks row = None
    /\ In oid (map o_id (objectives db))
    /\ objectives db' = objectives db
    /\ key_results db' = key_results db ++ [row]
    /\ progress_updates db' = progress_updates db
    /\ next_uuid db' = S (next_uuid db).
Proof.
  unfold insert_key_result.
  destruct (varchar 300 d) as [e|d'] eqn:Hd; [discriminate|].
  apply varchar_inr in Hd. subst d'.
  destruct (Num.to_decimal_10_2 tv) as [tv'|]; [|discriminate].
  destruct (Num.to_decimal_10_2 cv) as [cv'|]; [|discriminate].
  destruct (varchar 50 u) as [e|u'] eqn:Hu; [discriminate|].
  apply varchar_inr in Hu. subst u'.
  destruct (key_results_checks _) eqn:Hchk; [discriminate|].
  destruct (existsb _ _) eqn:Hfk; [|discriminate].
  intros [= <- <-]. exists tv', cv'. cbn.
  repeat split; try assumption.
  apply (existsb_key o_id). exact Hfk.
Qed.

Lemma createObjective_run data today db :
  ObjectiveModel.createObjective data today db
  = match insert_objective today (ObjectiveModel.c_userId data)
            (ObjectiveModel.c_title data)
            (ObjectiveModel.or_null (ObjectiveModel.c_description data))
            (ObjectiveModel.c_category data) (ObjectiveModel.c_targetDate data)
            db with
    | inl e => mkRun [] (Threw (DatabaseError e))
    | inr (s1, row) =>
        mkRun [s1] (Returned (ObjectiveModel.mapRowToObjective row))
    end.
Proof.
  unfold ObjectiveModel.createObjective, bind, statement, ret. cbn.
  destruct (insert_objective _ _ _ _ _ _ db) as [e|[s1 row]]; reflexivity.
Qed.

Lemma createKeyResult_run data today db :
  KeyResultModel.createKeyResult data today db
  = match insert_key_result today (KeyResultModel.c_objectiveId data)
            (KeyResultModel.c_description data)
            (KeyResultModel.c_targetValue data)
            (KeyResultModel.or_zero (KeyResultModel.c_currentValue data))
            (KeyResultModel.c_unit data) (KeyResultModel.c_deadline data)
            db with
    | inl e => mkRun [] (Threw (DatabaseError e))
    | inr (s1, row) =>
        mkRun [s1] (Returned (KeyResultModel.mapRowToKeyResult row))
    end.
Proof.
  unfold KeyResultModel.createKeyResult, bind, statement, ret. cbn.
  destruct (insert_key_result _ _ _ _ _ _ _ db) as [e|[s1 row]]; reflexivity.
Qed.

(** While the Key Results of a new Objective are inserted: the deadlines
    are within the target dates, and the Objective [oid] has the target date
    [target]. *)
Lemma keeps_deadlines_createKeyResult oid target data :
  KeyResultModel.c_objectiveId data = oid ->
  KeyResultModel.c_deadline data <= target ->
  keeps (fun db =>
           deadlines_within db
           /\ forall o, In o (objectives db) -> o_id o = oid ->
                        o_target_date o = target)
    (KeyResultModel.createKeyResult data).
Proof.
  intros Hoid Hdl today db [Hdb Ho]. rewrite createKeyResult_run.
  destruct (insert_key_result _ _ _ _ _ _ _ db) as [e|[s1 row]] eqn:Hins;
    cbn; [constructor|].
  constructor; [|constructor].
  destruct (insert_key_result_inr _ _ _ _ _ _ _ _ _ _ Hins)
    as (tv' & cv' & _ & _ & Hrow & _ & _ & Hobj & Hkrs & _).
  split.
  - intros r o Hr Hin Hid. rewrite Hobj in Hin. rewrite Hkrs in Hr.
    apply in_app_or in Hr. destruct Hr as [Hr | [<- | []]].
    + exact (Hdb r o Hr Hin Hid).
    + rewrite Hrow in *. cbn in *. rewrite (Ho o Hin); [lia | congruence].
  - rewrite Hobj. exact Ho.
Qed.

Lemma keeps_deadlines_createObjectiveWithKeyResults data today db :
  wf db -> deadlines_within db ->
  Forall deadlines_within
    (commits (ObjectiveService.createObjectiveWithKeyResults data today db)).
Proof.
  intros Hwf Hdb. unfold ObjectiveService.createObjectiveWithKeyResults.
  destruct ((_ <? 2)%nat || (5 <? _)%nat); [constructor|].
  destruct (0 <? List.length (filter _ _))%nat eqn:Hlate; [constructor|].
  assert (Hdl : Forall (fun kr => ObjectiveService.k_deadline kr
                                  <= ObjectiveService.r_targetDate data)
                  (ObjectiveService.r_keyResults data)).
  { apply Forall_forall. intros kr Hin.
    destruct (ObjectiveService.r_targetDate data
              <? ObjectiveService.k_deadline kr) eqn:Hcmp;
      [|apply Z.ltb_ge in Hcmp; exact Hcmp].
    exfalso.
    assert (Hin' : In kr (filter
                            (fun kr => ObjectiveService.r_targetDate data
                                       <? ObjectiveService.k_deadline kr)
                            (ObjectiveService.r_keyResults data))).
    { apply filter_In. split; assumption. }
    destruct (filter _ _); [contradiction | discriminate]. }
  unfold bind at 1. rewrite createObjective_run. cbn [ObjectiveModel.c_userId
    ObjectiveModel.c_title ObjectiveModel.c_description
    ObjectiveModel.c_category ObjectiveModel.c_targetDate].
  destruct (insert_objective _ _ _ _ _ _ db) as [e|[s1 row]] eqn:Hins;
    cbn [outcome commits]; [constructor|].
  destruct (insert_objective_inr _ _ _ _ _ _ _ _ _ Hins)
    as (Hrow & _ & Hobj & Hkrs & _ & _).
  assert (Hs1 : deadlines_within s1
                /\ forall o, In o (objectives s1) ->
                             o_id o = next_uuid db ->
                             o_target_date o
                             = ObjectiveService.r_targetDate data).
  { split.
    - intros r o Hr Ho Hid. rewrite Hkrs in Hr. rewrite Hobj in Ho.
      apply in_app_or in Ho. destruct Ho as [Ho | [<- | []]].
      + exact (Hdb r o Hr Ho Hid).
      + exfalso. rewrite Hrow in Hid. cbn in Hid.
        pose proof (key_results_objective_id_fkey _ Hwf) as Hfk.
        pose proof (objectives_issued _ Hwf) as Hlt.
        rewrite Forall_forall in Hfk, Hlt.
        specialize (Hfk r Hr). apply in_map_iff in Hfk.
        destruct Hfk as (o' & Ho' & Hin'). specialize (Hlt o' Hin'). lia.
    - intros o Ho Hid. rewrite Hobj in Ho.
      apply in_app_or in Ho. destruct Ho as [Ho | [<- | []]].
      + exfalso. pose proof (objectives_issued _ Hwf) as Hlt.
        rewrite Forall_forall in Hlt. specialize (Hlt o Ho). lia.
      + rewrite Hrow. reflexivity. }
  constructor; [exact (proj1 Hs1)|].
  change (final db (mkRun [s1]
                      (Returned (ObjectiveModel.mapRowToObjective row))))
    with s1.
  unfold bind.
  match goal with
  | |- Forall _ (commits (match outcome ?r with _ => _ end)) =>
      assert (Hall : Forall
                       (fun db0 =>
                          deadlines_within db0
                          /\ forall o, In o (objectives db0) ->
                                       o_id o = next_uuid db ->
                                       o_target_date o
                                       = ObjectiveService.r_targetDate data)
                       (commits r));
      [|destruct (outcome r); cbn; rewrite ?app_nil_r;
        (eapply Forall_impl; [|exact Hall]); cbn; tauto]
  end.
  apply keeps_Promise_all; [|exact Hs1].
  apply Forall_map. eapply Forall_impl; [|exact Hdl].
  intros kr Hkr. apply keeps_deadlines_createKeyResult.
  - cbn. rewrite Hrow. reflexivity.
  - exact Hkr.
Qed.

Lemma updateKeyResult_model_run id data today db :
  KeyResultModel.updateKeyResult id data today db
  = match KeyResultModel.u_description data, KeyResultModel.u_targetValue data,
          KeyResultModel.u_currentValue data, KeyResultModel.u_unit data,
          KeyResultModel.u_deadline data with
    | None, None, None, None, None =>
        mkRun []
          (Returned (option_map KeyResultModel.mapRowToKeyResult
                       (Read.key_result_row db id)))
    | _, _, _, _, _ =>
        match update_key_result today id (KeyResultModel.u_description data)
                (KeyResultModel.u_targetValue data)
                (KeyResultModel.u_currentValue data)
                (KeyResultModel.u_unit data) (KeyResultModel.u_deadline data)
                db with
        | inl e => mkRun [] (Threw (DatabaseError e))
        | inr (db', rows) =>
            mkRun [db']
              (Returned (match rows with
                         | [] => None
                         | row :: _ =>
                             Some (KeyResultModel.mapRowToKeyResult row)
                         end))
        end
    end.
Proof.
  unfold KeyResultModel.updateKeyResult.
  destruct data as [d tv cv u dl]. cbn.
  destruct d, tv, cv, u, dl; try reflexivity;
    unfold bind, statement, ret; cbn;
    (destruct (update_key_result _ _ _ _ _ _ _ db) as [e|[db' rows]];
       [reflexivity | destruct rows; reflexivity]).
Qed.

Lemma updateKeyResult_run id data today db :
  KeyResultService.updateKeyResult id data today db
  = match KeyResultModel.u_deadline data with
    | Some deadline =>
        match Read.key_result_row db id with
        | None => mkRun [] (Threw (createError "Key result not found" 404
            "KEY_RESULT_NOT_FOUND"))
        | Some kr =>
            match Read.objective_row db (kr_objective_id kr) with
            | Some o =>
                if o_target_date o <? deadline
                then mkRun [] (Threw (createError
                    "Key result deadline must be on or before the objective target date"
                      400 "INVALID_DEADLINE"))
                else KeyResultModel.updateKeyResult id data today db
            | None => KeyResultModel.updateKeyResult id data today db
            end
        end
    | None => KeyResultModel.updateKeyResult id data today db
    end.
Proof.
  unfold KeyResultService.updateKeyResult,
    ObjectiveService.getObjectiveWithKeyResults,
    KeyResultModel.findKeyResultById, ObjectiveModel.findObjectiveById,
    KeyResultModel.findKeyResultsByObjectiveId, Read.key_result_row,
    Read.objective_row.
  assert (Heta : forall r : Run (option KeyResultModel.KeyResult),
             mkRun (commits r) (outcome r) = r) by (intros []; reflexivity).
  destruct (KeyResultModel.u_deadline data) as [dl|].
  - unfold bind, select, ret, throw. cbn.
    destruct (find _ (key_results db)) as [kr|]; cbn; [|reflexivity].
    destruct (find _ (objectives db)) as [o|]; cbn.
    + destruct (o_target_date o <? dl); cbn; [reflexivity|]. apply Heta.
    + apply Heta.
  - unfold bind, ret. cbn. apply Heta.
Qed.

Lemma update_step_deadline today id d tv cv u dl r r' :
  update_step today id d tv cv u dl r r' ->
  kr_deadline r'
  = match dl with
    | Some x => if Nat.eqb (kr_id r) id then x else kr_deadline r
    | None => kr_deadline r
    end.
Proof.
  unfold update_step. destruct (Nat.eqb (kr_id r) id).
  - intros [-> _]. destruct tv, cv, dl; reflexivity.
  - intros ->. destruct dl; reflexivity.
Qed.

Lemma keeps_deadlines_updateKeyResult id data today db :
  wf db -> deadlines_within db ->
  Forall deadlines_within
    (commits (KeyResultService.updateKeyResult id data today db)).
Proof.
  intros Hwf Hdb.
  assert (Hmodel :
            (forall kr o dl,
                KeyResultModel.u_deadline data = Some dl ->
                Read.key_result_row db id = Some kr ->
                In o (objectives db) -> o_id o = kr_objective_id kr ->
                dl <= o_target_date o) ->
            Forall deadlines_within
              (commits (KeyResultModel.updateKeyResult id data today db))).
  { intros Hcheck. rewrite updateKeyResult_model_run.
    assert (Hupd : forall db' rows,
               update_key_result today id (KeyResultModel.u_description data)
                 (KeyResultModel.u_targetValue data)
                 (KeyResultModel.u_currentValue data)
                 (KeyResultModel.u_unit data) (KeyResultModel.u_deadline data)
                 db = inr (db', rows) ->
               deadlines_within db').
    { intros db' rows Hrun.
      destruct (update_key_result_inr _ _ _ _ _ _ _ _ _ _ Hrun)
        as (tv & cv & _ & _ & Hobj & _ & _ & Hkrs & _).
      intros r' o Hr' Ho Hid. rewrite Hobj in Ho.
      destruct (rowwise_in _ _ _ _ Hkrs Hr') as (r & Hr & Hstep).
      destruct (update_step_ids _ _ _ _ _ _ _ _ _ Hstep) as [_ Hoid].
      rewrite (update_step_deadline _ _ _ _ _ _ _ _ _ Hstep).
      rewrite Hoid in Hid.
      destruct (KeyResultModel.u_deadline data) as [dl|] eqn:Hdl;
        [|exact (Hdb r o Hr Ho Hid)].
      destruct (Nat.eqb (kr_id r) id) eqn:Hrid; [|exact (Hdb r o Hr Ho Hid)].
      apply (Hcheck r o dl eq_refl); [|exact Ho | exact Hid].
      unfold Read.key_result_row.
      destruct (find (fun r0 => Nat.eqb (kr_id r0) id) (key_results db))
        as [kr|] eqn:Hfind.
      - f_equal. apply find_some in Hfind. destruct Hfind as [Hin Hkid].
        apply (primary_key kr_id (key_results db));
          [exact (key_results_pkey _ Hwf) | exact Hin | exact Hr |].
        apply Nat.eqb_eq in Hrid, Hkid. congruence.
      - exfalso. apply (find_none _ _ Hfind) in Hr. congruence. }
    destruct (KeyResultModel.u_description data),
      (KeyResultModel.u_targetValue data),
      (KeyResultModel.u_currentValue data), (KeyResultModel.u_unit data),
      (KeyResultModel.u_deadline data);
      try solve [cbn; constructor].
    all: destruct (update_key_result today id _ _ _ _ _ db)
           as [e|[db' rows]] eqn:Hrun; cbn; [constructor|].
    all: constructor; [exact (Hupd _ _ eq_refl) | constructor]. }
  rewrite updateKeyResult_run.
  destruct (KeyResultModel.u_deadline data) as [dl|] eqn:Hdl.
  - destruct (Read.key_result_row db id) as [kr|] eqn:Hkr; [|constructor].
    destruct (Read.objective_row db (kr_objective_id kr)) as [o|] eqn:Ho.
    + destruct (o_target_date o <? dl) eqn:Hcmp; [constructor|].
      apply Hmodel. intros kr0 o0 dl0 [= <-] [= <-] Hin Hid.
      apply Z.ltb_ge in Hcmp.
      assert (o0 = o) as ->; [|exact Hcmp].
      unfold Read.objective_row in Ho. apply find_some in Ho.
      destruct Ho as [Hin' Hid']. apply Nat.eqb_eq in Hid'.
      apply (primary_key o_id (objectives db));
        [exact (objectives_pkey _ Hwf) | exact Hin | exact Hin' | congruence].
    + apply Hmodel. intros kr0 o0 dl0 _ [= <-] Hin Hid. exfalso.
      unfold Read.objective_row in Ho.
      apply (find_none _ _ Ho) in Hin. apply Nat.eqb_neq in Hin. congruence.
  - apply Hmodel. intros kr o dl [=].
Qed.

Arguments ObjectiveModel.updateObjective : simpl never.
Arguments KeyResultService.updateKeyResult : simpl never.
Arguments KeyResultService.updateProgress : simpl never.
Arguments KeyResultService.deleteKeyResult : simpl never.
Arguments ObjectiveModel.deleteObjective : simpl never.

Lemma Run_eta {A : Type} (r : Run A) : mkRun (commits r) (outcome r) = r.
Proof. destruct r. reflexivity. Qed.

(** A PUT on an Objective is refused before any statement, or it is the
    update of the model with data that passed the validations, for the
    owner. *)
Lemma put_run userId id body today db :
  (exists e, ObjectivesRoute.put userId id body today db = mkRun [] (Threw e))
  \/ exists o data,
       Read.objective_row db id = Some o
       /\ o_user_id o = userId
       /\ ObjectivesRoute.put userId id body today db
          = ObjectiveModel.updateObjective id data today db
       /\ ObjectiveModel.u_targetDate data = ObjectivesRoute.targetDate body
       /\ (forall target,
             ObjectivesRoute.targetDate body = Some target ->
             Forall (fun r => kr_deadline r <= target)
               (Read.key_results_of db id)).
Proof.
  unfold ObjectivesRoute.put, ObjectiveService.getObjectiveWithKeyResults,
    ObjectiveModel.findObjectiveById,
    KeyResultModel.findKeyResultsByObjectiveId,
    ObjectiveService.updateObjective, Read.objective_row.
  unfold bind, select, ret, throw. cbn.
  destruct (find _ (objectives db)) as [o|] eqn:Ho; cbn; [|left; eauto].
  destruct (Nat.eqb (o_user_id o) userId) eqn:Howner; cbn; [|left; eauto].
  destruct (ObjectivesRoute.title body) as [t|]; cbn.
  1: destruct ((strlen t <? 5) || (200 <? strlen t)); cbn; [left; eauto|].
  all: destruct (ObjectivesRoute.category body) as [c|]; cbn.
  all: try (destruct (ObjectivesRoute.includes ObjectivesRoute.validCategories
                        c) as [c'|]; cbn; [|left; eauto]).
  all: destruct (ObjectivesRoute.targetDate body) as [target|] eqn:Htarget;
    cbn.
  all: try (destruct (existsb _ _) eqn:Hlate; cbn; [left; eauto|]).
  all: destruct (ObjectivesRoute.status body) as [s|]; cbn.
  all: try (destruct (ObjectivesRoute.includes ObjectivesRoute.validStatuses s)
              as [s'|]; cbn; [|left; eauto]).
  all: right; exists o; eexists; rewrite Run_eta;
    (split; [reflexivity|]);
    (split; [apply Nat.eqb_eq; exact Howner|]);
    (split; [reflexivity|]); (split; [reflexivity|]);
    intros target' Heq; inversion Heq; subst target'.
  all: apply Forall_forall; intros r Hr;
    destruct (target <? kr_deadline r) eqn:Hcmp;
    [|apply Z.ltb_ge in Hcmp; exact Hcmp];
    exfalso;
    assert (Htrue : existsb
                      (fun kr => target <? KeyResultModel.deadline kr)
                      (map KeyResultModel.mapRowToKeyResult
                         (filter
                            (fun r0 => Nat.eqb (kr_objective_id r0) id)
                            (key_results db))) = true)
      by (apply existsb_exists; exists (KeyResultModel.mapRowToKeyResult r);
          split; [apply in_map; exact Hr | exact Hcmp]);
    congruence.
Qed.

Lemma updateObjective_model_run id data today db :
  ObjectiveModel.updateObjective id data today db
  = match ObjectiveModel.u_title data, ObjectiveModel.u_description data,
          ObjectiveModel.u_category data, ObjectiveModel.u_targetDate data,
          ObjectiveModel.u_status data with
    | None, None, None, None, None =>
        mkRun []
          (Returned (option_map ObjectiveModel.mapRowToObjective
                       (Read.objective_row db id)))
    | _, _, _, _, _ =>
        match update_objective today id (ObjectiveModel.u_title data)
                (ObjectiveModel.u_description data)
                (ObjectiveModel.u_category data)
                (ObjectiveModel.u_targetDate data)
                (ObjectiveModel.u_status data) db with
        | inl e => mkRun [] (Threw (DatabaseError e))
        | inr (db', rows) =>
            mkRun [db']
              (Returned (match rows with
                         | [] => None
                         | row :: _ =>
                             Some (ObjectiveModel.mapRowToObjective row)
                         end))
        end
    end.
Proof.
  unfold ObjectiveModel.updateObjective.
  destruct data as [t d c td st]. cbn.
  destruct t, d, c, td, st; try reflexivity;
    unfold bind, statement, ret; cbn;
    (destruct (update_objective _ _ _ _ _ _ _ db) as [e|[db' rows]];
       [reflexivity | destruct rows; reflexivity]).
Qed.

Lemma objective_step_target_date today id t d c td st o o' :
  objective_step today id t d c td st o o' ->
  o_target_date o'
  = match td with
    | Some x => if Nat.eqb (o_id o) id then x else o_target_date o
    | None => o_target_date o
    end.
Proof.
  unfold objective_step. destruct (Nat.eqb (o_id o) id).
  - intros [-> _]. destruct td; reflexivity.
  - intros ->. destruct td; reflexivity.
Qed.

Lemma keeps_deadlines_put userId id body today db :
  deadlines_within db ->
  Forall deadlines_within
    (commits (ObjectivesRoute.put userId id body today db)).
Proof.
  intros Hdb.
  destruct (put_run userId id body today db)
    as [[e ->] | (o & data & _ & _ & -> & Htd & Hlate)]; [constructor|].
  rewrite updateObjective_model_run.
  assert (Hupd : forall db' rows,
             update_objective today id (ObjectiveModel.u_title data)
               (ObjectiveModel.u_description data)
               (ObjectiveModel.u_category data)
               (ObjectiveModel.u_targetDate data)
               (ObjectiveModel.u_status data) db = inr (db', rows) ->
             deadlines_within db').
  { intros db' rows Hrun.
    destruct (update_objective_inr _ _ _ _ _ _ _ _ _ _ Hrun)
      as (Hkrs & _ & _ & Hos).
    intros r o' Hr Ho' Hid. rewrite Hkrs in Hr.
    destruct (rowwise_in _ _ _ _ Hos Ho') as (o0 & Ho0 & Hstep).
    rewrite (objective_step_target_date _ _ _ _ _ _ _ _ _ Hstep).
    rewrite (objective_step_id _ _ _ _ _ _ _ _ _ Hstep) in Hid.
    rewrite Htd.
    destruct (ObjectivesRoute.targetDate body) as [target|];
      [|exact (Hdb r o0 Hr Ho0 Hid)].
    destruct (Nat.eqb (o_id o0) id) eqn:Hoid; [|exact (Hdb r o0 Hr Ho0 Hid)].
    specialize (Hlate target eq_refl). rewrite Forall_forall in Hlate.
    apply Hlate. apply filter_In. split; [exact Hr|].
    apply Nat.eqb_eq in Hoid. apply Nat.eqb_eq. congruence. }
  destruct (ObjectiveModel.u_title data), (ObjectiveModel.u_description data),
    (ObjectiveModel.u_category data), (ObjectiveModel.u_targetDate data),
    (ObjectiveModel.u_status data);
    try solve [cbn; constructor].
  all: destruct (update_objective today id _ _ _ _ _ db)
         as [e|[db' rows]] eqn:Hrun; cbn; [constructor|].
  all: constructor; [exact (Hupd _ _ eq_refl) | constructor].
Qed.

Lemma keeps_wf_put userId id body : keeps wf (ObjectivesRoute.put userId id
    body).
Proof.
  intros today db Hdb.
  destruct (put_run userId id body today db)
    as [[e ->] | (o & data & _ & _ & -> & _)]; [constructor|].
  apply keeps_wf_updateObjective. exact Hdb.
Qed.

(** X1: from a store that satisfies its primary keys, foreign keys and
    CHECK constraints (so that every Key Result has a positive target and a
    current value between 0 and the target), every state committed by
    creating an Objective with its Key Results, recording progress (single
    or batch), updating or deleting a Key Result, completing, updating or
    deleting an Objective satisfies them again, whether the call returns or
    throws. *)
Theorem services_keep_integrity :
  forall (today : Z) (db : DB),
    wf db ->
    (forall data,
        Forall wf
          (commits (ObjectiveService.createObjectiveWithKeyResults data today
                      db)))
    /\ (forall data,
          Forall wf (commits (KeyResultService.updateProgress data today db)))
    /\ (forall updates,
          Forall wf
            (commits (KeyResultService.batchUpdateProgress updates today db)))
    /\ (forall id data,
          Forall wf
            (commits (KeyResultService.updateKeyResult id data today db)))
    /\ (forall id,
          Forall wf (commits (KeyResultService.deleteKeyResult id today db)))
    /\ (forall id,
          Forall wf
            (commits (ObjectiveService.checkAndUpdateObjectiveCompletion id
                        today db)))
    /\ (forall userId id body,
          Forall wf (commits (ObjectivesRoute.put userId id body today db)))
    /\ (forall id,
          Forall wf (commits (ObjectiveService.deleteObjective id today db)))
    /\ (forall id,
          Forall wf
            (commits (ProgressUpdateModel.deleteProgressUpdate id today db))).
Proof.
  intros today db Hdb. repeat split; intros.
  - apply keeps_wf_createObjectiveWithKeyResults. exact Hdb.
  - apply keeps_wf_updateProgress. exact Hdb.
  - apply keeps_wf_batchUpdateProgress. exact Hdb.
  - apply keeps_wf_updateKeyResult. exact Hdb.
  - apply keeps_wf_deleteKeyResult. exact Hdb.
  - apply keeps_wf_checkAndUpdateObjectiveCompletion. exact Hdb.
  - apply keeps_wf_put. exact Hdb.
  - apply keeps_wf_deleteObjective. exact Hdb.
  - apply keeps_wf_deleteProgressUpdate. exact Hdb.
Qed.

Lemma services_keep_integrity_witness :
  wf Scenario.created
  /\ Forall wf
       (commits (KeyResultService.updateProgress (Scenario.record 3 100) 20
                   Scenario.created))
  /\ Forall wf
       (commits (KeyResultService.deleteKeyResult 2 20 Scenario.created)).
Proof.
  split; [exact wf_created|].
  destruct (services_keep_integrity 20 Scenario.created wf_created)
    as (_ & Hprogress & _ & _ & Hdelete & _).
  split; [apply Hprogress | apply Hdelete].
Defined.

(** X2: no Key Result is ever due after the target date of its Objective:
    from a store with integrity in which this holds, it holds in every state
    committed by creating an Objective with its Key Results, recording
    progress (single or batch), updating a Key Result through the service,
    deleting a Key Result, and updating an Objective through its route. *)
Theorem deadlines_stay_within_target_dates :
  forall (today : Z) (db : DB),
    wf db -> deadlines_within db ->
    (forall data,
        Forall deadlines_within
          (commits (ObjectiveService.createObjectiveWithKeyResults data today
                      db)))
    /\ (forall data,
          Forall deadlines_within
            (commits (KeyResultService.updateProgress data today db)))
    /\ (forall updates,
          Forall deadlines_within
            (commits (KeyResultService.batchUpdateProgress updates today db)))
    /\ (forall id data,
          Forall deadlines_within
            (commits (KeyResultService.updateKeyResult id data today db)))
    /\ (forall id,
          Forall deadlines_within
            (commits (KeyResultService.deleteKeyResult id today db)))
    /\ (forall userId id body,
          Forall deadlines_within
            (commits (ObjectivesRoute.put userId id body today db))).
Proof.
  intros today db Hwf Hdb. repeat split; intros.
  - apply keeps_deadlines_createObjectiveWithKeyResults; assumption.
  - apply keeps_deadlines_updateProgress. exact Hdb.
  - apply keeps_deadlines_batchUpdateProgress. exact Hdb.
  - apply keeps_deadlines_updateKeyResult; assumption.
  - apply keeps_deadlines_deleteKeyResult. exact Hdb.
  - apply keeps_deadlines_put. exact Hdb.
Qed.

Lemma deadlines_within_empty : deadlines_within Scenario.empty.
Proof. intros r o []. Qed.

Lemma deadlines_stay_within_target_dates_witness :
  wf Scenario.empty /\ deadlines_within Scenario.empty
  /\ deadlines_within Scenario.created.
Proof.
  split; [exact wf_empty|]. split; [exact deadlines_within_empty|].
  destruct (deadlines_stay_within_target_dates 0 Scenario.empty wf_empty
              deadlines_within_empty) as (Hcreate & _).
  unfold Scenario.created.
  apply final_keeps; [exact deadlines_within_empty | apply Hcreate].
Defined.

(** ** The trigger on stored values *)

Lemma inject_Z_pos t : 0 < t -> (0 < inject_Z t)%Q.
Proof. intros H. change 0%Q with (inject_Z 0). rewrite <- Zlt_Qlt. exact H. Qed.

Lemma pct_ge c t x :
  0 < t ->
  Qle_bool x (Num.hundredths_Q c / Num.hundredths_Q t * 100)
  = Qle_bool (x * inject_Z t) (inject_Z (100 * c)).
Proof.
  intros Ht.
  pose proof (inject_Z_pos t Ht) as HT.
  assert (Heq : (Num.hundredths_Q c / Num.hundredths_Q t * 100
                 == inject_Z (100 * c) / inject_Z t)%Q).
  { unfold Num.hundredths_Q. rewrite inject_Z_mult. field. lra. }
  apply eq_true_iff_eq. rewrite !Qle_bool_iff. rewrite Heq.
  split; intros H.
  - apply (Qmult_le_r _ _ (inject_Z t)) in H; [|exact HT].
    unfold Qdiv in H.
    rewrite <- Qmult_assoc, (Qmult_comm (/ _)), Qmult_inv_r, Qmult_1_r in H
      by lra.
    exact H.
  - apply Qle_shift_div_l; assumption.
Qed.

Lemma Qle_bool_Z a b : Qle_bool (inject_Z a) (inject_Z b) = (a <=? b).
Proof.
  apply eq_true_iff_eq. rewrite Qle_bool_iff, Z.leb_le, <- Zle_Qle. tauto.
Qed.

(** The trigger on two numbers of hundredths, the target above 0, in
    integer arithmetic. *)
Lemma auto_status_decimal today c t d :
  0 < t ->
  auto_status today (Num.value (Num.dec c)) (Num.value (Num.dec t)) d
  = if t <=? c then kr_completed
    else if 0 <? c then
      if (d - today <? 14) && (2 * c <? t) then at_risk else in_progress
    else not_started.
Proof.
  intros Ht. pose proof (inject_Z_pos t Ht) as HT.
  cbn [Num.value]. rewrite auto_status_rational.
  unfold Spec.status_nonpositive, Spec.completionPercentage, Num.Qltb.
  assert (Hnz : Qeq_bool (Num.hundredths_Q t) 0 = false).
  { apply not_true_iff_false. rewrite Qeq_bool_iff.
    unfold Num.hundredths_Q. intros H.
    assert (inject_Z t == 0)%Q
      by (rewrite <- (Qmult_1_r (inject_Z t));
          setoid_replace 1%Q with (/100 * 100)%Q by reflexivity;
          rewrite Qmult_assoc; unfold Qdiv in H; rewrite H; reflexivity).
    lra. }
  rewrite Hnz.
  set (p := (Num.hundredths_Q c / Num.hundredths_Q t * 100)%Q).
  assert (H100 : Qle_bool 100 (Qmin p 100) = (t <=? c)).
  { transitivity (Qle_bool 100 p).
    - apply eq_true_iff_eq. rewrite !Qle_bool_iff. split; intros H.
      + eapply Qle_trans; [exact H | apply Q.le_min_l].
      + apply Q.min_glb; [exact H | apply Qle_refl].
    - unfold p. rewrite pct_ge by exact Ht.
      change 100%Q with (inject_Z 100). rewrite <- inject_Z_mult, Qle_bool_Z.
      apply eq_true_iff_eq. rewrite !Z.leb_le. lia. }
  rewrite H100. destruct (t <=? c) eqn:Htc; [reflexivity|].
  assert (H0 : Qle_bool (Num.hundredths_Q c) 0 = (c <=? 0)).
  { apply eq_true_iff_eq. rewrite Qle_bool_iff, Z.leb_le.
    unfold Num.hundredths_Q.
    rewrite (Zle_Qle c 0). change (inject_Z 0) with 0%Q. split; intros H.
    - assert (inject_Z c == inject_Z c / 100 * 100)%Q by field. lra.
    - unfold Qdiv. change (/100)%Q with (1#100)%Q. lra. }
  rewrite H0.
  assert (H50 : Qle_bool 50 (Qmin p 100) = (t <=? 2 * c)).
  { transitivity (Qle_bool 50 p).
    - apply eq_true_iff_eq. rewrite !Qle_bool_iff. split; intros H.
      + eapply Qle_trans; [exact H | apply Q.le_min_l].
      + apply Q.min_glb; [exact H | discriminate].
    - unfold p. rewrite pct_ge by exact Ht.
      change 50%Q with (inject_Z 50). rewrite <- inject_Z_mult, Qle_bool_Z.
      apply eq_true_iff_eq. rewrite !Z.leb_le. lia. }
  rewrite H50, !Z.ltb_antisym.
  destruct (c <=? 0); reflexivity.
Qed.

(** ** Completed and NotStarted follow the values *)

Ltac keeps_by stmt :=
  repeat first
    [ apply keeps_ret | apply keeps_throw | apply keeps_select
    | apply keeps_bind; [|intros ?]
    | apply keeps_for_of; intros ?
    | apply keeps_Promise_all; apply Forall_map, Forall_forall; intros ? _
    | apply keeps_statement; intros ? ? ? ? ? ?; stmt
    | match goal with
      | |- keeps _ (match ?x with _ => _ end) => destruct x
      end ].

(** What the constraints say of the values of a row: a target that is a
    number is above 0 and the current value is a number from 0 to the
    target; beside a target that is [NaN] the current value is a number
    from 0 on, or [NaN]. *)
Lemma key_results_checks_values r :
  key_results_checks r = None ->
  match kr_target_value r, kr_current_value r with
  | Num.dec t, Num.dec c => 0 <= c <= t /\ 0 < t
  | Num.dec _, Num.dec_NaN => False
  | Num.dec_NaN, Num.dec c => 0 <= c
  | Num.dec_NaN, Num.dec_NaN => True
  end.
Proof.
  unfold key_results_checks.
  destruct (Num.dec_leb (Num.dec 0) (kr_current_value r)
            && Num.dec_leb (kr_current_value r) (kr_target_value r)) eqn:Hcur;
    [|discriminate].
  destruct ((10 <=? _) && _); [|discriminate].
  destruct (Num.dec_ltb (Num.dec 0) (kr_target_value r)) eqn:Htv;
    [|discriminate].
  intros _. apply andb_true_iff in Hcur. destruct Hcur as [H0 H1].
  unfold Num.dec_ltb in Htv. apply negb_true_iff in Htv.
  destruct (kr_target_value r) as [t|], (kr_current_value r) as [c|];
    cbn in *; try discriminate; try exact I.
  - apply Z.leb_le in H0, H1. apply Z.leb_gt in Htv. lia.
  - apply Z.leb_le in H0. exact H0.
Qed.

Lemma key_results_checks_numbers r t :
  key_results_checks r = None -> kr_target_value r = Num.dec t ->
  exists c, kr_current_value r = Num.dec c /\ 0 <= c <= t /\ 0 < t.
Proof.
  intros Hchk Ht. apply key_results_checks_values in Hchk.
  rewrite Ht in Hchk. destruct (kr_current_value r) as [c|]; [|contradiction].
  exists c. tauto.
Qed.

Lemma triggered_status_fits today r :
  key_results_checks (update_key_result_status today r) = None ->
  status_fits (update_key_result_status today r).
Proof.
  intros Hchk. unfold status_fits.
  cbn [update_key_result_status kr_target_value kr_current_value kr_status].
  destruct (kr_target_value r) as [t|] eqn:Ht.
  - destruct (key_results_checks_numbers _ t Hchk Ht)
      as (c & Hc & [H0 H1] & Hpos).
    cbn [update_key_result_status kr_current_value] in Hc. rewrite Hc.
    rewrite auto_status_decimal by exact Hpos.
    destruct (t <=? c) eqn:Hfull.
    + apply Z.leb_le in Hfull.
      assert (c = t) as -> by lia.
      split; split; intros H; try discriminate H; try reflexivity.
      injection H as H. lia.
    + apply Z.leb_gt in Hfull.
      destruct (0 <? c) eqn:Hpos'.
      * apply Z.ltb_lt in Hpos'.
        destruct ((kr_deadline r - today <? 14) && _);
          (split; split; intros H; try discriminate H;
           injection H as H; lia).
      * apply Z.ltb_ge in Hpos'. assert (c = 0) as -> by lia.
        split; split; intros H; try discriminate H; try reflexivity.
        injection H as H. lia.
  - apply auto_status_NaN_target.
Qed.

Lemma status_by_values_insert_key_result today oid d tv cv u dl db db' row :
  insert_key_result today oid d tv cv u dl db = inr (db', row) ->
  status_by_values db -> status_by_values db'.
Proof.
  intros Hins Hdb.
  destruct (insert_key_result_inr _ _ _ _ _ _ _ _ _ _ Hins)
    as (tv' & cv' & _ & _ & Hrow & Hchk & _ & _ & Hkrs & _).
  unfold status_by_values. rewrite Hkrs. apply Forall_app. split; [exact Hdb|].
  constructor; [|constructor]. rewrite Hrow in *.
  apply triggered_status_fits. exact Hchk.
Qed.

Lemma status_by_values_insert_progress_update today k x notes db db' row :
  insert_progress_update today k x notes db = inr (db', row) ->
  status_by_values db -> status_by_values db'.
Proof.
  intros Hins Hdb.
  destruct (insert_progress_update_inr _ _ _ _ _ _ _ Hins)
    as (v & _ & _ & _ & _ & _ & _ & Hkrs).
  unfold status_by_values.
  eapply rowwise_Forall; [|exact Hkrs|exact Hdb].
  intros r r'. unfold progress_step.
  destruct (Nat.eqb (kr_id r) k).
  - intros [-> Hchk] _. apply triggered_status_fits. exact Hchk.
  - intros -> H. exact H.
Qed.

Lemma status_by_values_update_key_result today id d tv cv u dl db db' ret :
  update_key_result today id d tv cv u dl db = inr (db', ret) ->
  status_by_values db -> status_by_values db'.
Proof.
  intros Hupd Hdb.
  destruct (update_key_result_inr _ _ _ _ _ _ _ _ _ _ Hupd)
    as (tv' & cv' & _ & _ & _ & _ & _ & Hkrs & _).
  unfold status_by_values.
  eapply rowwise_Forall; [|exact Hkrs|exact Hdb].
  intros r r'. unfold update_step.
  destruct (Nat.eqb (kr_id r) id); [|intros -> H; exact H].
  destruct tv', cv', dl; intros [-> Hchk] Hr;
    try (apply triggered_status_fits; exact Hchk).
  exact Hr.
Qed.

Lemma status_by_values_tables db db' :
  (exists f, key_results db' = filter f (key_results db)) ->
  status_by_values db -> status_by_values db'.
Proof.
  intros [f Hkrs] Hdb. unfold status_by_values. rewrite Hkrs.
  apply Forall_filter_keep. exact Hdb.
Qed.

Lemma filter_all {A : Type} (l : list A) : l = filter (fun _ => true) l.
Proof. induction l; cbn; congruence. Qed.

Ltac status_by_values_statement :=
  first
    [ eapply status_by_values_insert_key_result; eassumption
    | eapply status_by_values_insert_progress_update; eassumption
    | eapply status_by_values_update_key_result; eassumption
    | eapply status_by_values_tables; [|eassumption];
      match goal with
      | H : insert_objective _ _ _ _ _ _ _ = inr _ |- _ =>
          apply insert_objective_inr in H;
          destruct H as (_ & _ & _ & -> & _); eexists; apply filter_all
      | H : update_objective _ _ _ _ _ _ _ _ = inr _ |- _ =>
          apply update_objective_inr in H;
          destruct H as (-> & _); eexists; apply filter_all
      | H : delete_key_result _ _ = inr _ |- _ =>
          injection H as <- _; eexists; reflexivity
      | H : delete_progress_update _ _ = inr _ |- _ =>
          injection H as <- _; eexists; apply filter_all
      | H : delete_objective _ _ = inr _ |- _ =>
          unfold delete_objective in H;
          destruct (filter _ (objectives _)); injection H as <- _;
          eexists; [apply filter_all | reflexivity]
      end ].

Lemma keeps_status_updateObjective id data :
  keeps status_by_values (ObjectiveModel.updateObjective id data).
Proof.
  unfold ObjectiveModel.updateObjective.
  keeps_by status_by_values_statement.
Qed.

Lemma keeps_status_checkAndUpdateObjectiveCompletion id :
  keeps status_by_values (ObjectiveService.checkAndUpdateObjectiveCompletion
      id).
Proof.
  unfold ObjectiveService.checkAndUpdateObjectiveCompletion.
  keeps_by status_by_values_statement.
  all: try apply keeps_status_updateObjective.
Qed.

Lemma keeps_status_createObjectiveWithKeyResults data :
  keeps status_by_values (ObjectiveService.createObjectiveWithKeyResults data).
Proof.
  unfold ObjectiveService.createObjectiveWithKeyResults.
  keeps_by status_by_values_statement.
Qed.

Lemma keeps_status_updateProgress data :
  keeps status_by_values (KeyResultService.updateProgress data).
Proof.
  unfold KeyResultService.updateProgress.
  keeps_by status_by_values_statement.
  all: try apply keeps_status_checkAndUpdateObjectiveCompletion.
Qed.

Lemma keeps_status_updateKeyResult id data :
  keeps status_by_values (KeyResultService.updateKeyResult id data).
Proof.
  unfold KeyResultService.updateKeyResult, KeyResultModel.updateKeyResult,
    ObjectiveService.getObjectiveWithKeyResults.
  keeps_by status_by_values_statement.
Qed.

Lemma keeps_status_deleteKeyResult id :
  keeps status_by_values (KeyResultService.deleteKeyResult id).
Proof.
  unfold KeyResultService.deleteKeyResult, KeyResultModel.deleteKeyResult.
  keeps_by status_by_values_statement.
Qed.

Lemma keeps_status_deleteObjective id :
  keeps status_by_values (ObjectiveService.deleteObjective id).
Proof.
  unfold ObjectiveService.deleteObjective, ObjectiveModel.deleteObjective.
  keeps_by status_by_values_statement.
Qed.

Lemma keeps_status_deleteProgressUpdate id :
  keeps status_by_values (ProgressUpdateModel.deleteProgressUpdate id).
Proof.
  unfold ProgressUpdateModel.deleteProgressUpdate.
  keeps_by status_by_values_statement.
Qed.

Lemma keeps_status_batchUpdateProgress_loop updates :
  forall results ids,
    keeps status_by_values
      (KeyResultService.batchUpdateProgress_loop updates results ids).
Proof.
  induction updates as [|u rest IH]; intros results ids; cbn.
  - apply keeps_ret.
  - keeps_by status_by_values_statement. all: try apply IH.
Qed.

Lemma keeps_status_batchUpdateProgress updates :
  keeps status_by_values (KeyResultService.batchUpdateProgress updates).
Proof.
  unfold KeyResultService.batchUpdateProgress.
  keeps_by status_by_values_statement.
  all: first [ apply keeps_status_batchUpdateProgress_loop
             | apply keeps_status_checkAndUpdateObjectiveCompletion ].
Qed.

Lemma keeps_status_put userId id body :
  keeps status_by_values (ObjectivesRoute.put userId id body).
Proof.
  intros today db Hdb.
  destruct (put_run userId id body today db)
    as [[e ->] | (o & data & _ & _ & -> & _)]; [constructor|].
  apply keeps_status_updateObjective. exact Hdb.
Qed.

Lemma status_by_values_empty : status_by_values Scenario.empty.
Proof. constructor. Qed.

(** X3: a Key Result whose target is a number is Completed exactly when its
    current value equals its target value, and NotStarted exactly when its
    current value is 0; a Key Result whose target is NaN is Completed.  From
    a store in which this holds of every Key Result, it holds of every Key
    Result in every state committed by creating an Objective with its Key
    Results, recording progress (single or batch), updating or deleting a
    Key Result, completing, updating or deleting an Objective and deleting
    a Progress Update, whatever the dates. *)
Theorem completed_and_not_started_follow_values :
  forall (today : Z) (db : DB),
    status_by_values db ->
    (forall data,
        Forall status_by_values
          (commits (ObjectiveService.createObjectiveWithKeyResults data today
                      db)))
    /\ (forall data,
          Forall status_by_values
            (commits (KeyResultService.updateProgress data today db)))
    /\ (forall updates,
          Forall status_by_values
            (commits (KeyResultService.batchUpdateProgress updates today db)))
    /\ (forall id data,
          Forall status_by_values
            (commits (KeyResultService.updateKeyResult id data today db)))
    /\ (forall id,
          Forall status_by_values
            (commits (KeyResultService.deleteKeyResult id today db)))
    /\ (forall id,
          Forall status_by_values
            (commits (ObjectiveService.checkAndUpdateObjectiveCompletion id
                        today db)))
    /\ (forall userId id body,
          Forall status_by_values
            (commits (ObjectivesRoute.put userId id body today db)))
    /\ (forall id,
          Forall status_by_values
            (commits (ObjectiveService.deleteObjective id today db)))
    /\ (forall id,
          Forall status_by_values
            (commits (ProgressUpdateModel.deleteProgressUpdate id today db))).
Proof.
  intros today db Hdb. repeat split; intros.
  - apply keeps_status_createObjectiveWithKeyResults. exact Hdb.
  - apply keeps_status_updateProgress. exact Hdb.
  - apply keeps_status_batchUpdateProgress. exact Hdb.
  - apply keeps_status_updateKeyResult. exact Hdb.
  - apply keeps_status_deleteKeyResult. exact Hdb.
  - apply keeps_status_checkAndUpdateObjectiveCompletion. exact Hdb.
  - apply keeps_status_put. exact Hdb.
  - apply keeps_status_deleteObjective. exact Hdb.
  - apply keeps_status_deleteProgressUpdate. exact Hdb.
Qed.

Lemma completed_and_not_started_follow_values_witness :
  status_by_values Scenario.empty /\ status_by_values Scenario.created.
Proof.
  split; [exact status_by_values_empty|].
  destruct (completed_and_not_started_follow_values 0 Scenario.empty
              status_by_values_empty) as (Hcreate & _).
  unfold Scenario.created.
  apply final_keeps; [exact status_by_values_empty | apply Hcreate].
Defined.

(** ** Updating a Key Result *)

Lemma update_where_none {R : Set} (p : R -> bool) (upd : R -> PgError + R)
    rows :
  find p rows = None -> update_where p upd rows = inr (rows, []).
Proof.
  induction rows as [|a rows IH]; cbn; [reflexivity|].
  destruct (p a); [discriminate|]. intros H. rewrite (IH H). reflexivity.
Qed.

(** The service writes with at most one statement, the UPDATE of the
    model. *)
Lemma updateKeyResult_commits id data today db :
  commits (KeyResultService.updateKeyResult id data today db) = []
  \/ exists s rows,
       update_key_result today id (KeyResultModel.u_description data)
         (KeyResultModel.u_targetValue data)
         (KeyResultModel.u_currentValue data) (KeyResultModel.u_unit data)
         (KeyResultModel.u_deadline data) db = inr (s, rows)
       /\ commits (KeyResultService.updateKeyResult id data today db) = [s].
Proof.
  assert (Hmodel :
            commits (KeyResultModel.updateKeyResult id data today db) = []
            \/ exists s rows,
                 update_key_result today id (KeyResultModel.u_description data)
                   (KeyResultModel.u_targetValue data)
                   (KeyResultModel.u_currentValue data)
                   (KeyResultModel.u_unit data)
                   (KeyResultModel.u_deadline data) db = inr (s, rows)
                 /\ commits (KeyResultModel.updateKeyResult id data today db)
                    = [s]).
  { rewrite updateKeyResult_model_run.
    destruct (update_key_result today id _ _ _ _ _ db) as [e|[s rows]] eqn:Hupd.
    - left. destruct (KeyResultModel.u_description data),
        (KeyResultModel.u_targetValue data),
        (KeyResultModel.u_currentValue data), (KeyResultModel.u_unit data),
        (KeyResultModel.u_deadline data); reflexivity.
    - destruct (KeyResultModel.u_description data),
        (KeyResultModel.u_targetValue data),
        (KeyResultModel.u_currentValue data), (KeyResultModel.u_unit data),
        (KeyResultModel.u_deadline data);
        first [ left; reflexivity
              | right; exists s, rows; split; reflexivity ]. }
  rewrite updateKeyResult_run.
  destruct (KeyResultModel.u_deadline data) as [dl|]; [|exact Hmodel].
  destruct (Read.key_result_row db id) as [kr|]; [|left; reflexivity].
  destruct (Read.objective_row db (kr_objective_id kr)) as [o|];
    [|exact Hmodel].
  destruct (o_target_date o <? dl); [left; reflexivity | exact Hmodel].
Qed.

Lemma update_key_result_missing today id d tv cv u dl db db' ret :
  Read.key_result_row db id = None ->
  update_key_result today id d tv cv u dl db = inr (db', ret) ->
  db' = db /\ ret = [].
Proof.
  unfold update_key_result, Read.key_result_row. intros Hnone.
  destruct (varchar_opt 300 d) as [e|d']; [discriminate|].
  destruct (match tv with Some _ => _ | None => _ end); [|discriminate].
  destruct (match cv with Some _ => _ | None => _ end); [|discriminate].
  destruct (varchar_opt 50 u) as [e|u']; [discriminate|].
  rewrite (update_where_none _ _ _ Hnone).
  intros [= <- <-]. destruct db; split; reflexivity.
Qed.

(** X4: updating a Key Result through the service writes with at most one
    statement and touches nothing but the Key Result addressed: the
    Objectives (so no Objective is completed, even when the update makes
    every Key Result of its Objective Completed), the ledger and every
    other Key Result stay as they are.  With a deadline, a missing Key
    Result is refused with KEY_RESULT_NOT_FOUND and a deadline after the
    target date of the Objective with INVALID_DEADLINE, before any
    statement; without a deadline a missing Key Result is not an error of
    the service: the call returns no Key Result, or throws what the store
    throws, and the store is as before. *)
Theorem updateKeyResult_touches_one_key_result :
  forall (today : Z) (db : DB) (id : nat)
         (data : KeyResultModel.UpdateKeyResultData),
    (List.length (commits (KeyResultService.updateKeyResult id data today db))
     <= 1)%nat
    /\ Forall
         (fun s =>
            objectives s = objectives db
            /\ progress_updates s = progress_updates db
            /\ next_uuid s = next_uuid db
            /\ Forall2 (fun r r' => kr_id r' = kr_id r
                                    /\ (kr_id r <> id -> r' = r))
                 (key_results db) (key_results s))
         (commits (KeyResultService.updateKeyResult id data today db))
    /\ (forall dl,
          KeyResultModel.u_deadline data = Some dl ->
          Read.key_result_row db id = None ->
          KeyResultService.updateKeyResult id data today db
          = mkRun [] (Threw (createError "Key result not found" 404
              "KEY_RESULT_NOT_FOUND")))
    /\ (forall dl kr o,
          KeyResultModel.u_deadline data = Some dl ->
          Read.key_result_row db id = Some kr ->
          Read.objective_row db (kr_objective_id kr) = Some o ->
          o_target_date o < dl ->
          KeyResultService.updateKeyResult id data today db
          = mkRun [] (Threw (createError
              "Key result deadline must be on or before the objective target date"
                400 "INVALID_DEADLINE")))
    /\ (KeyResultModel.u_deadline data = None ->
        Read.key_result_row db id = None ->
        final db (KeyResultService.updateKeyResult id data today db) = db
        /\ (outcome (KeyResultService.updateKeyResult id data today db)
            = Returned None
            \/ exists e,
                 outcome (KeyResultService.updateKeyResult id data today db)
                 = Threw (DatabaseError e))).
Proof.
  intros today db id data.
  split; [|split; [|split; [|split]]].
  - destruct (updateKeyResult_commits id data today db)
      as [-> | (s & rows & _ & ->)]; cbn; lia.
  - destruct (updateKeyResult_commits id data today db)
      as [-> | (s & rows & Hupd & ->)]; [constructor|].
    constructor; [|constructor].
    destruct (update_key_result_inr _ _ _ _ _ _ _ _ _ _ Hupd)
      as (tv & cv & _ & _ & Hobj & Hpus & Hnext & Hkrs & _).
    repeat (split; [assumption|]).
    eapply rowwise_impl; [|exact Hkrs].
    intros r r' Hstep.
    split; [exact (proj1 (update_step_ids _ _ _ _ _ _ _ _ _ Hstep))|].
    intros Hother. unfold update_step in Hstep.
    apply Nat.eqb_neq in Hother. rewrite Hother in Hstep. exact Hstep.
  - intros dl Hdl Hnone. rewrite updateKeyResult_run, Hdl, Hnone. reflexivity.
  - intros dl kr o Hdl Hkr Ho Hlate.
    rewrite updateKeyResult_run, Hdl, Hkr, Ho.
    apply Z.ltb_lt in Hlate. rewrite Hlate. reflexivity.
  - intros Hdl Hnone. rewrite updateKeyResult_run, Hdl.
    rewrite updateKeyResult_model_run, Hdl, Hnone.
    destruct (update_key_result today id _ _ _ _ None db) as [e|[s rows]]
      eqn:Hupd.
    + destruct (KeyResultModel.u_description data),
        (KeyResultModel.u_targetValue data),
        (KeyResultModel.u_currentValue data), (KeyResultModel.u_unit data);
        cbn; (split; [reflexivity|]); eauto.
    + destruct (update_key_result_missing _ _ _ _ _ _ _ _ _ _ Hnone Hupd)
        as [-> ->].
      destruct (KeyResultModel.u_description data),
        (KeyResultModel.u_targetValue data),
        (KeyResultModel.u_currentValue data), (KeyResultModel.u_unit data);
        cbn; (split; [reflexivity|]); eauto.
Qed.

Lemma updateKeyResult_touches_one_key_result_witness :
  KeyResultService.updateKeyResult 2
    (KeyResultModel.mkUpdateKeyResultData None None None None (Some 600)) 5
    Scenario.created
  = mkRun [] (Threw (createError
      "Key result deadline must be on or before the objective target date" 400
          "INVALID_DEADLINE")).
Proof.
  pose (kr := mk_key_results_row 2 1 "Earn three certifications" (Num.dec 300)
      (Num.dec 0) "certs"
                400 not_started).
  pose (o := mk_objectives_row 1 7 "Learn Go" None skills 500 active).
  assert (Hkr : Read.key_result_row Scenario.created 2 = Some kr)
    by reflexivity.
  assert (Ho : Read.objective_row Scenario.created (kr_objective_id kr)
               = Some o) by reflexivity.
  assert (Hlate : o_target_date o < 600) by (cbn; lia).
  destruct (updateKeyResult_touches_one_key_result 5 Scenario.created 2
              (KeyResultModel.mkUpdateKeyResultData None None None None
                 (Some 600))) as (_ & _ & _ & Hrefused & _).
  exact (Hrefused 600 kr o eq_refl Hkr Ho Hlate).
Defined.

(** ** Deleting an Objective *)

Lemma filter_id {A : Type} (f : A -> bool) rows :
  (forall x, In x rows -> f x = true) -> filter f rows = rows.
Proof.
  induction rows as [|a rows IH]; cbn; intros H; [reflexivity|].
  rewrite (H a (or_introl eq_refl)), IH; [reflexivity|].
  intros x Hx. apply H. right. exact Hx.
Qed.

Lemma filter_nil_none {A : Type} (f : A -> bool) rows :
  filter f rows = [] -> forall x, In x rows -> f x = false.
Proof.
  intros Hnil x Hx. destruct (f x) eqn:Hf; [|reflexivity].
  assert (Hin : In x (filter f rows)) by (apply filter_In; split; assumption).
  rewrite Hnil in Hin. contradiction.
Qed.

Lemma deleteObjective_run id today db :
  ObjectiveService.deleteObjective id today db
  = match delete_objective id db with
    | inl e => mkRun [] (Threw (DatabaseError e))
    | inr (db', n) => mkRun [db'] (Returned (Nat.ltb 0 n))
    end.
Proof.
  unfold ObjectiveService.deleteObjective, ObjectiveModel.deleteObjective,
    bind, statement, ret.
  destruct (delete_objective id db) as [e|[db' n]]; reflexivity.
Qed.

(** X5: deleting an Objective never throws; it returns whether the
    Objective was there.  In a store with integrity the state it leaves has
    lost exactly this Objective, the Key Results of this Objective, and the
    Progress Updates of these Key Results: every other row of the three
    tables is kept as it was, in its place. *)
Theorem deleteObjective_cascades :
  forall (today : Z) (db : DB) (id : nat),
    wf db ->
    outcome (ObjectiveService.deleteObjective id today db)
    = Returned (match Read.objective_row db id with
                | Some _ => true
                | None => false
                end)
    /\ objectives (final db (ObjectiveService.deleteObjective id today db))
       = filter (fun o => negb (Nat.eqb (o_id o) id)) (objectives db)
    /\ key_results (final db (ObjectiveService.deleteObjective id today db))
       = filter (fun r => negb (Nat.eqb (kr_objective_id r) id))
           (key_results db)
    /\ progress_updates
         (final db (ObjectiveService.deleteObjective id today db))
       = filter
           (fun u =>
              existsb
                (fun r => Nat.eqb (kr_id r) (pu_key_result_id u)
                          && negb (Nat.eqb (kr_objective_id r) id))
                (key_results db))
           (progress_updates db)
    /\ next_uuid (final db (ObjectiveService.deleteObjective id today db))
       = next_uuid db.
Proof.
  intros today db id Hwf. rewrite deleteObjective_run.
  unfold delete_objective, Read.objective_row.
  assert (Hpus : forall u,
             In u (progress_updates db) ->
             negb (existsb (fun r => Nat.eqb (kr_id r) (pu_key_result_id u))
                     (filter (fun r => Nat.eqb (kr_objective_id r) id)
                        (key_results db)))
             = existsb
                 (fun r => Nat.eqb (kr_id r) (pu_key_result_id u)
                           && negb (Nat.eqb (kr_objective_id r) id))
                 (key_results db)).
  { intros u Hu. apply eq_true_iff_eq.
    rewrite negb_true_iff, <- not_true_iff_false, !existsb_exists.
    pose proof (progress_updates_key_result_id_fkey _ Hwf) as Hfk.
    rewrite Forall_forall in Hfk. specialize (Hfk u Hu).
    apply in_map_iff in Hfk. destruct Hfk as (k & Hk & Hin).
    split.
    - intros Hnot. exists k. split; [exact Hin|].
      rewrite Hk, Nat.eqb_refl. cbn.
      destruct (Nat.eqb (kr_objective_id k) id) eqn:Hoid; [|reflexivity].
      exfalso. apply Hnot. exists k. split.
      + apply filter_In. split; assumption.
      + rewrite Hk. apply Nat.eqb_refl.
    - intros (k1 & Hin1 & Hk1) (k2 & Hin2 & Hk2).
      apply andb_true_iff in Hk1. destruct Hk1 as [Hid1 Hoid1].
      apply filter_In in Hin2. destruct Hin2 as [Hin2 Hoid2].
      apply Nat.eqb_eq in Hid1, Hk2.
      assert (k1 = k2) as ->.
      { apply (primary_key kr_id (key_results db));
          [exact (key_results_pkey _ Hwf) | assumption | assumption
          | congruence]. }
      rewrite Hoid2 in Hoid1. discriminate. }
  destruct (filter (fun o => Nat.eqb (o_id o) id) (objectives db))
    as [|o os] eqn:Hdel.
  - pose proof (filter_nil_none _ _ Hdel) as Hnone.
    assert (Hfind : find (fun r => Nat.eqb (o_id r) id) (objectives db) = None).
    { destruct (find _ (objectives db)) as [o|] eqn:Hf; [|reflexivity].
      apply find_some in Hf. destruct Hf as [Hin Hid].
      rewrite (Hnone o Hin) in Hid. discriminate. }
    rewrite Hfind. cbn.
    assert (Hkrs : forall r, In r (key_results db) ->
                             negb (Nat.eqb (kr_objective_id r) id) = true).
    { intros r Hr. pose proof (key_results_objective_id_fkey _ Hwf) as Hfk.
      rewrite Forall_forall in Hfk. specialize (Hfk r Hr).
      apply in_map_iff in Hfk. destruct Hfk as (o & Ho & Hin).
      rewrite <- Ho, (Hnone o Hin). reflexivity. }
    split; [reflexivity|]. split.
    { symmetry. apply filter_id. intros o Ho. rewrite (Hnone o Ho).
      reflexivity. }
    split; [symmetry; apply filter_id; exact Hkrs|].
    split; [|reflexivity].
    symmetry. apply filter_id. intros u Hu. rewrite <- (Hpus u Hu).
    destruct (filter (fun r => Nat.eqb (kr_objective_id r) id)
                (key_results db)) as [|k ks] eqn:Hcascaded; [reflexivity|].
    exfalso.
    assert (Hin : In k (filter (fun r => Nat.eqb (kr_objective_id r) id)
                          (key_results db)))
      by (rewrite Hcascaded; left; reflexivity).
    apply filter_In in Hin. destruct Hin as [Hin Hoid].
    specialize (Hkrs k Hin). rewrite Hoid in Hkrs. discriminate.
  - assert (Hfind : exists o', find (fun r => Nat.eqb (o_id r) id)
                                 (objectives db) = Some o').
    { destruct (find _ (objectives db)) as [o'|] eqn:Hf; [eauto|].
      exfalso. assert (Hin : In o (filter (fun o => Nat.eqb (o_id o) id)
                                     (objectives db)))
        by (rewrite Hdel; left; reflexivity).
      apply filter_In in Hin. destruct Hin as [Hin Hid].
      rewrite (find_none _ _ Hf o Hin) in Hid. discriminate. }
    destruct Hfind as [o' ->]. cbn.
    split; [reflexivity|]. split; [reflexivity|]. split; [reflexivity|].
    split; [|reflexivity].
    apply filter_ext_in. exact Hpus.
Qed.

Lemma deleteObjective_cascades_witness :
  wf Scenario.created
  /\ outcome (ObjectiveService.deleteObjective 1 0 Scenario.created)
     = Returned true.
Proof.
  split; [exact wf_created|].
  destruct (deleteObjective_cascades 0 Scenario.created 1 wf_created)
    as (Hreturned & _).
  exact Hreturned.
Defined.

(** ** Who may write: the routes *)

Lemma verifyOwnership_run userId existing today db :
  KeyResultsRoute.verifyOwnership userId existing today db
  = match Read.objective_row db (KeyResultModel.objectiveId existing) with
    | Some o =>
        if Nat.eqb (o_user_id o) userId
        then mkRun [] (Returned tt)
        else mkRun [] (Threw (createError "Access denied" 403 "ACCESS_DENIED"))
    | None => mkRun [] (Threw (createError "Access denied" 403 "ACCESS_DENIED"))
    end.
Proof.
  unfold KeyResultsRoute.verifyOwnership, ObjectiveModel.findObjectiveById,
    Read.objective_row, bind, select, ret, throw. cbn.
  destruct (find _ (objectives db)) as [o|]; cbn; [|reflexivity].
  destruct (Nat.eqb (o_user_id o) userId); reflexivity.
Qed.

(** A handler that has found the Key Result and checked its owner. *)
Lemma after_ownership {A : Type} userId id (k : M A) today db :
  (kr <- KeyResultModel.findKeyResultById id ;;
   match kr with
   | None => throw (createError "Key result not found" 404
       "KEY_RESULT_NOT_FOUND")
   | Some kr => KeyResultsRoute.verifyOwnership userId kr ;;; k
   end) today db
  = match Read.key_result_row db id with
    | None => mkRun [] (Threw (createError "Key result not found" 404
        "KEY_RESULT_NOT_FOUND"))
    | Some kr =>
        match Read.objective_row db (kr_objective_id kr) with
        | Some o =>
            if Nat.eqb (o_user_id o) userId
            then k today db
            else mkRun [] (Threw (createError "Access denied" 403
                "ACCESS_DENIED"))
        | None => mkRun [] (Threw (createError "Access denied" 403
            "ACCESS_DENIED"))
        end
    end.
Proof.
  unfold bind at 1. unfold KeyResultModel.findKeyResultById, select,
    Read.key_result_row. cbn [outcome commits final last].
  destruct (find _ (key_results db)) as [kr|]; cbn; [|reflexivity].
  unfold bind. rewrite verifyOwnership_run. cbn.
  destruct (Read.objective_row db (kr_objective_id kr)) as [o|]; cbn;
    [|reflexivity].
  destruct (Nat.eqb (o_user_id o) userId); cbn; [|reflexivity].
  apply Run_eta.
Qed.

Lemma key_results_put_run userId id body today db :
  KeyResultsRoute.put userId id body today db
  = match Read.key_result_row db id with
    | None => mkRun [] (Threw (createError "Key result not found" 404
        "KEY_RESULT_NOT_FOUND"))
    | Some kr =>
        match Read.objective_row db (kr_objective_id kr) with
        | Some o =>
            if negb (Nat.eqb (o_user_id o) userId)
            then mkRun [] (Threw (createError "Access denied" 403
                "ACCESS_DENIED"))
            else if match KeyResultsRoute.description body with
                    | Some d => strlen d <? 5
                    | None => false
                    end
            then mkRun [] (Threw (createError
                "Description must be at least 5 characters" 400
                    "INVALID_DESCRIPTION"))
            else if match KeyResultsRoute.targetValue body with
                    | Some t =>
                        Num.number_leb (KeyResultsRoute.ToNumber t) (Num.num 0)
                    | None => false
                    end
            then mkRun [] (Threw (createError "Target value must be positive"
                400 "INVALID_TARGET_VALUE"))
            else if match KeyResultsRoute.currentValue body with
                    | Some c =>
                        Num.number_ltb (KeyResultsRoute.ToNumber c) (Num.num 0)
                    | None => false
                    end
            then mkRun [] (Threw (createError "Current value cannot be negative"
                400 "INVALID_CURRENT_VALUE"))
            else KeyResultService.updateKeyResult id
                   (KeyResultModel.mkUpdateKeyResultData
                      (KeyResultsRoute.description body)
                      (option_map KeyResultsRoute.parseFloat
                         (KeyResultsRoute.targetValue body))
                      (option_map KeyResultsRoute.parseFloat
                         (KeyResultsRoute.currentValue body))
                      (KeyResultsRoute.unit body)
                      (KeyResultsRoute.deadline body)) today db
        | None => mkRun [] (Threw (createError "Access denied" 403
            "ACCESS_DENIED"))
        end
    end.
Proof.
  unfold KeyResultsRoute.put. rewrite after_ownership.
  destruct (Read.key_result_row db id) as [kr|]; [|reflexivity].
  destruct (Read.objective_row db (kr_objective_id kr)) as [o|];
    [|reflexivity].
  destruct (Nat.eqb (o_user_id o) userId); cbn [negb]; [|reflexivity].
  unfold bind, ret, throw.
  destruct (KeyResultsRoute.description body) as [d|]; cbn.
  1: destruct (strlen d <? 5); cbn; [reflexivity|].
  all: destruct (KeyResultsRoute.targetValue body) as [t|]; cbn.
  all: try (destruct (Num.number_leb _ _); cbn; [reflexivity|]).
  all: destruct (KeyResultsRoute.currentValue body) as [c|]; cbn.
  all: try (destruct (Num.number_ltb _ _); cbn; [reflexivity|]).
  all: apply Run_eta.
Qed.

Lemma key_results_delete_run userId id today db :
  KeyResultsRoute.delete userId id today db
  = match Read.key_result_row db id with
    | None => mkRun [] (Threw (createError "Key result not found" 404
        "KEY_RESULT_NOT_FOUND"))
    | Some kr =>
        match Read.objective_row db (kr_objective_id kr) with
        | Some o =>
            if negb (Nat.eqb (o_user_id o) userId)
            then mkRun [] (Threw (createError "Access denied" 403
                "ACCESS_DENIED"))
            else
              mkRun (commits (KeyResultService.deleteKeyResult id today db))
                (match outcome (KeyResultService.deleteKeyResult id today db)
                 with
                 | Returned _ => Returned tt
                 | Threw e => Threw e
                 end)
        | None => mkRun [] (Threw (createError "Access denied" 403
            "ACCESS_DENIED"))
        end
    end.
Proof.
  unfold KeyResultsRoute.delete. rewrite after_ownership.
  destruct (Read.key_result_row db id) as [kr|]; [|reflexivity].
  destruct (Read.objective_row db (kr_objective_id kr)) as [o|];
    [|reflexivity].
  destruct (Nat.eqb (o_user_id o) userId); cbn [negb]; [|reflexivity].
  unfold bind, ret.
  destruct (outcome (KeyResultService.deleteKeyResult id today db)); cbn;
    rewrite ?app_nil_r; reflexivity.
Qed.

Lemma key_results_postProgress_run userId id v notes today db :
  KeyResultsRoute.postProgress userId id (Some v) notes today db
  = match Read.key_result_row db id with
    | None => mkRun [] (Threw (createError "Key result not found" 404
        "KEY_RESULT_NOT_FOUND"))
    | Some kr =>
        match Read.objective_row db (kr_objective_id kr) with
        | Some o =>
            if negb (Nat.eqb (o_user_id o) userId)
            then mkRun [] (Threw (createError "Access denied" 403
                "ACCESS_DENIED"))
            else
              mkRun
                (commits (KeyResultService.updateProgress
                            (KeyResultService.mkUpdateProgressRequest id
                               (KeyResultsRoute.parseFloat v) notes) today db))
                (match outcome (KeyResultService.updateProgress
                                  (KeyResultService.mkUpdateProgressRequest id
                                     (KeyResultsRoute.parseFloat v) notes)
                                  today db) with
                 | Returned pu =>
                     Returned
                       (pu,
                        option_map KeyResultModel.mapRowToKeyResult
                          (Read.key_result_row
                             (final db
                                (KeyResultService.updateProgress
                                   (KeyResultService.mkUpdateProgressRequest
                                      id (KeyResultsRoute.parseFloat v) notes)
                                   today db)) id))
                 | Threw e => Threw e
                 end)
        | None => mkRun [] (Threw (createError "Access denied" 403
            "ACCESS_DENIED"))
        end
    end.
Proof.
  unfold KeyResultsRoute.postProgress. rewrite after_ownership.
  destruct (Read.key_result_row db id) as [kr|]; [|reflexivity].
  destruct (Read.objective_row db (kr_objective_id kr)) as [o|];
    [|reflexivity].
  destruct (Nat.eqb (o_user_id o) userId); cbn [negb]; [|reflexivity].
  unfold bind at 1.
  destruct (outcome (KeyResultService.updateProgress _ today db)); cbn;
    rewrite ?app_nil_r; reflexivity.
Qed.

(** What a call of [updateProgress] that returns has left. *)
Lemma updateProgress_returned data today db pu :
  outcome (KeyResultService.updateProgress data today db) = Returned pu ->
  exists kr v row,
    Read.key_result_row db (KeyResultService.keyResultId data) = Some kr
    /\ Num.to_decimal_10_2 (KeyResultService.valueRecorded data) = Some v
    /\ row = mk_progress_updates_row (next_uuid db)
               (KeyResultService.keyResultId data) v
               (ObjectiveModel.or_null (KeyResultService.notes data))
    /\ pu = ProgressUpdateModel.mapRowToProgressUpdate row
    /\ Read.key_result_row
         (final db (KeyResultService.updateProgress data today db))
         (KeyResultService.keyResultId data)
       = Some (update_key_result_status today (with_current_value kr v))
    /\ Forall2 (progress_step today (KeyResultService.keyResultId data) v)
         (key_results db)
         (key_results
            (final db (KeyResultService.updateProgress data today db)))
    /\ progress_updates
         (final db (KeyResultService.updateProgress data today db))
       = progress_updates db ++ [row]
    /\ next_uuid (final db (KeyResultService.updateProgress data today db))
       = S (next_uuid db).
Proof.
  rewrite updateProgress_run.
  destruct (Read.key_result_row db _) as [kr|] eqn:Hkr; [|discriminate].
  destruct (Num.number_ltb _ _); [discriminate|].
  destruct (insert_progress_update _ _ _ _ db) as [e|[s1 row]] eqn:Hins;
    [discriminate|].
  destruct (insert_progress_update_inr _ _ _ _ _ _ _ Hins)
    as (v & Hv & Hrow & _ & _ & Hpus & Hnext & Hkrs).
  pose proof (progress_step_found _ _ _ _ _ _ Hkrs Hkr) as Hfound.
  destruct (ObjectiveService.allCompleted _).
  - destruct (update_objective _ _ _ _ _ _ _ s1) as [e|[s2 ret]] eqn:Hupd;
      [discriminate|].
    destruct (update_objective_completed_inr _ _ _ _ _ Hupd)
      as (Hkrs2 & Hpus2 & Hnext2 & _).
    intros [= <-]. exists kr, v, row. cbn.
    unfold Read.key_result_row. rewrite Hkrs2, Hpus2, Hnext2.
    repeat (split; [first [reflexivity | assumption]|]). assumption.
  - intros [= <-]. exists kr, v, row. cbn.
    repeat (split; [first [reflexivity | assumption]|]). assumption.
Qed.

(** X7: for the owner the routes write what the services write.  DELETE
    commits the states of [deleteKeyResult] and throws what it throws; the
    progress route commits the states of [updateProgress] for the number
    read from the value of the body, and the Key Result in its result,
    read after the write, is the one addressed, carries the value of the
    Progress Update in the result, and the status computed from it that
    day; PUT throws a 400 error before any statement when the description
    has fewer than five characters, the target value is not above 0 or the
    current value is below 0, and is the update of the service with the
    fields of the body, the numbers read from their values, otherwise. *)
Theorem key_result_routes_for_the_owner :
  forall (today : Z) (db : DB) (userId id : nat) (kr : key_results_row)
         (o : objectives_row),
    Read.key_result_row db id = Some kr ->
    Read.objective_row db (kr_objective_id kr) = Some o ->
    o_user_id o = userId ->
    (commits (KeyResultsRoute.delete userId id today db)
     = commits (KeyResultService.deleteKeyResult id today db)
     /\ forall e,
          outcome (KeyResultService.deleteKeyResult id today db) = Threw e ->
          outcome (KeyResultsRoute.delete userId id today db) = Threw e)
    /\ (forall v notes,
          commits (KeyResultsRoute.postProgress userId id (Some v) notes today
                     db)
          = commits (KeyResultService.updateProgress
                       (KeyResultService.mkUpdateProgressRequest id
                          (KeyResultsRoute.parseFloat v) notes)
                       today db)
          /\ forall pu updatedKeyResult,
               outcome (KeyResultsRoute.postProgress userId id (Some v) notes
                          today db) = Returned (pu, updatedKeyResult) ->
               exists row,
                 updatedKeyResult = Some (KeyResultModel.mapRowToKeyResult row)
                 /\ kr_id row = id
                 /\ ProgressUpdateModel.keyResultId pu = id
                 /\ KeyResultModel.currentValue
                      (KeyResultModel.mapRowToKeyResult row)
                    = ProgressUpdateModel.valueRecorded pu
                 /\ kr_status row = Read.recomputed_status today row)
    /\ (forall body,
          if match KeyResultsRoute.description body with
             | Some d => strlen d <? 5
             | None => false
             end
             || match KeyResultsRoute.targetValue body with
                | Some t =>
                    Num.number_leb (KeyResultsRoute.ToNumber t) (Num.num 0)
                | None => false
                end
             || match KeyResultsRoute.currentValue body with
                | Some c =>
                    Num.number_ltb (KeyResultsRoute.ToNumber c) (Num.num 0)
                | None => false
                end
          then exists message code,
                 KeyResultsRoute.put userId id body today db
                 = mkRun [] (Threw (AppError message 400 code))
          else KeyResultsRoute.put userId id body today db
               = KeyResultService.updateKeyResult id
                   (KeyResultModel.mkUpdateKeyResultData
                      (KeyResultsRoute.description body)
                      (option_map KeyResultsRoute.parseFloat
                         (KeyResultsRoute.targetValue body))
                      (option_map KeyResultsRoute.parseFloat
                         (KeyResultsRoute.currentValue body))
                      (KeyResultsRoute.unit body)
                      (KeyResultsRoute.deadline body)) today db).
Proof.
  intros today db userId id kr o Hkr Ho Howner.
  apply Nat.eqb_eq in Howner.
  split; [|split].
  - rewrite key_results_delete_run, Hkr, Ho, Howner. cbn [negb].
    split; [reflexivity|]. intros e He. rewrite He. reflexivity.
  - intros v notes.
    rewrite key_results_postProgress_run, Hkr, Ho, Howner. cbn [negb].
    split; [reflexivity|]. intros pu updatedKeyResult. cbn [outcome].
    destruct (outcome (KeyResultService.updateProgress _ today db))
      as [pu'|e] eqn:Hout; [|discriminate].
    intros [= <- <-].
    destruct (updateProgress_returned _ _ _ _ Hout)
      as (kr' & x & row & Hkr' & _ & Hrow & Hpu & Hfound & _).
    cbn [KeyResultService.keyResultId] in *. rewrite Hfound.
    eexists. split; [reflexivity|]. rewrite Hpu, Hrow. cbn.
    rewrite Hkr in Hkr'. injection Hkr' as <-.
    unfold Read.key_result_row in Hkr. apply find_some in Hkr.
    destruct Hkr as [_ Hid]. apply Nat.eqb_eq in Hid.
    repeat split; try assumption; reflexivity.
  - intros body. rewrite key_results_put_run, Hkr, Ho, Howner. cbn [negb].
    destruct (match KeyResultsRoute.description body with
              | Some d => strlen d <? 5
              | None => false
              end); cbn [orb]; [eauto|].
    destruct (match KeyResultsRoute.targetValue body with
              | Some t => Num.number_leb _ _
              | None => false
              end); cbn [orb]; [eauto|].
    destruct (match KeyResultsRoute.currentValue body with
              | Some c => Num.number_ltb _ _
              | None => false
              end); cbn [orb]; [eauto|].
    reflexivity.
Qed.

Lemma key_result_routes_for_the_owner_witness :
  commits (KeyResultsRoute.delete 7 2 0 Scenario.created)
  = commits (KeyResultService.deleteKeyResult 2 0 Scenario.created).
Proof.
  pose (kr := mk_key_results_row 2 1 "Earn three certifications" (Num.dec 300)
      (Num.dec 0) "certs"
                400 not_started).
  pose (o := mk_objectives_row 1 7 "Learn Go" None skills 500 active).
  assert (Hkr : Read.key_result_row Scenario.created 2 = Some kr)
    by reflexivity.
  assert (Ho : Read.objective_row Scenario.created (kr_objective_id kr)
               = Some o) by reflexivity.
  assert (Howner : o_user_id o = 7%nat) by reflexivity.
  destruct (key_result_routes_for_the_owner 0 Scenario.created 7 2 kr o Hkr Ho
              Howner) as ((Hdelete & _) & _).
  exact Hdelete.
Defined.

Lemma getObjectiveWithKeyResults_run id today db :
  ObjectiveService.getObjectiveWithKeyResults id today db
  = mkRun []
      (Returned
         (option_map
            (fun o =>
               ObjectiveService.mkObjectiveWithKeyResults
                 (ObjectiveModel.mapRowToObjective o)
                 (map KeyResultModel.mapRowToKeyResult
                    (Read.key_results_of db id)))
            (Read.objective_row db id))).
Proof.
  unfold ObjectiveService.getObjectiveWithKeyResults,
    ObjectiveModel.findObjectiveById,
    KeyResultModel.findKeyResultsByObjectiveId, Read.objective_row,
    Read.key_results_of, bind, select, ret. cbn.
  destruct (find _ (objectives db)); reflexivity.
Qed.

(** A handler that has read the Objective and checked its owner. *)
Lemma after_objective_ownership {A : Type} userId id
    (k : ObjectiveService.ObjectiveWithKeyResults -> M A) today db :
  (existing <- ObjectiveService.getObjectiveWithKeyResults id ;;
   match existing with
   | None => throw (createError "Objective not found" 404 "OBJECTIVE_NOT_FOUND")
   | Some existing =>
       if negb (Nat.eqb
                  (ObjectiveModel.userId (ObjectiveService.objective existing))
                  userId)
       then throw (createError "Access denied" 403 "ACCESS_DENIED")
       else k existing
   end) today db
  = match Read.objective_row db id with
    | None => mkRun [] (Threw (createError "Objective not found" 404
        "OBJECTIVE_NOT_FOUND"))
    | Some o =>
        if Nat.eqb (o_user_id o) userId
        then k (ObjectiveService.mkObjectiveWithKeyResults
                  (ObjectiveModel.mapRowToObjective o)
                  (map KeyResultModel.mapRowToKeyResult
                     (Read.key_results_of db id))) today db
        else mkRun [] (Threw (createError "Access denied" 403 "ACCESS_DENIED"))
    end.
Proof.
  unfold bind at 1. rewrite getObjectiveWithKeyResults_run.
  cbn [outcome commits final last].
  destruct (Read.objective_row db id) as [o|]; cbn; [|reflexivity].
  destruct (Nat.eqb (o_user_id o) userId); cbn; [|reflexivity].
  apply Run_eta.
Qed.

(** ** Nothing is lost but by a DELETE *)

Lemma grown_from_refl db : grown_from db db.
Proof.
  unfold grown_from.
  split; [exists []; rewrite app_nil_r; reflexivity|].
  split; [exists []; rewrite app_nil_r; reflexivity|].
  split; [exists []; rewrite app_nil_r; reflexivity | lia].
Qed.

Lemma grown_from_trans db1 db2 db3 :
  grown_from db1 db2 -> grown_from db2 db3 -> grown_from db1 db3.
Proof.
  intros ([os1 H1] & [ks1 H2] & [us1 H3] & H4)
         ([os2 H5] & [ks2 H6] & [us2 H7] & H8).
  unfold grown_from.
  split; [exists (os1 ++ os2); rewrite H5, H1, app_assoc; reflexivity|].
  split; [exists (ks1 ++ ks2); rewrite H6, H2, app_assoc; reflexivity|].
  split; [exists (us1 ++ us2); rewrite H7, H3, app_assoc; reflexivity | lia].
Qed.

Lemma grown_from_tables db db' os ks us :
  map o_id (objectives db') = map o_id (objectives db) ++ os ->
  map kr_id (key_results db') = map kr_id (key_results db) ++ ks ->
  progress_updates db' = progress_updates db ++ us ->
  (next_uuid db <= next_uuid db')%nat ->
  grown_from db db'.
Proof. unfold grown_from. eauto 10. Qed.

Lemma grown_from_insert_objective today user title d c target db db' row :
  insert_objective today user title d c target db = inr (db', row) ->
  grown_from db db'.
Proof.
  intros Hins.
  destruct (insert_objective_inr _ _ _ _ _ _ _ _ _ Hins)
    as (_ & _ & Hobj & Hkrs & Hpus & Hnext).
  apply (grown_from_tables db db' [o_id row] [] []);
    rewrite ?Hobj, ?Hkrs, ?Hpus, ?Hnext, ?map_app, ?app_nil_r;
    first [reflexivity | lia].
Qed.

Lemma grown_from_insert_key_result today oid d tv cv u dl db db' row :
  insert_key_result today oid d tv cv u dl db = inr (db', row) ->
  grown_from db db'.
Proof.
  intros Hins.
  destruct (insert_key_result_inr _ _ _ _ _ _ _ _ _ _ Hins)
    as (tv' & cv' & _ & _ & _ & _ & _ & Hobj & Hkrs & Hpus & Hnext).
  apply (grown_from_tables db db' [] [kr_id row] []);
    rewrite ?Hobj, ?Hkrs, ?Hpus, ?Hnext, ?map_app, ?app_nil_r;
    first [reflexivity | lia].
Qed.

Lemma grown_from_insert_progress_update today k x notes db db' row :
  insert_progress_update today k x notes db = inr (db', row) ->
  grown_from db db'.
Proof.
  intros Hins.
  destruct (insert_progress_update_inr _ _ _ _ _ _ _ Hins)
    as (v & _ & _ & _ & Hobj & Hpus & Hnext & Hkrs).
  apply (grown_from_tables db db' [] [] [row]);
    rewrite ?Hobj, ?Hpus, ?Hnext, ?app_nil_r; try first [reflexivity | lia].
  eapply (rowwise_map _ kr_id); [|exact Hkrs].
  intros r r' H. exact (proj1 (progress_step_ids _ _ _ _ _ H)).
Qed.

Lemma grown_from_update_key_result today id d tv cv u dl db db' ret :
  update_key_result today id d tv cv u dl db = inr (db', ret) ->
  grown_from db db'.
Proof.
  intros Hupd.
  destruct (update_key_result_inr _ _ _ _ _ _ _ _ _ _ Hupd)
    as (tv' & cv' & _ & _ & Hobj & Hpus & Hnext & Hkrs & _).
  apply (grown_from_tables db db' [] [] []);
    rewrite ?Hobj, ?Hpus, ?Hnext, ?app_nil_r; try first [reflexivity | lia].
  eapply (rowwise_map _ kr_id); [|exact Hkrs].
  intros r r' H. exact (proj1 (update_step_ids _ _ _ _ _ _ _ _ _ H)).
Qed.

Lemma grown_from_update_objective today id t d c td st db db' ret :
  update_objective today id t d c td st db = inr (db', ret) ->
  grown_from db db'.
Proof.
  intros Hupd.
  destruct (update_objective_inr _ _ _ _ _ _ _ _ _ _ Hupd)
    as (Hkrs & Hpus & Hnext & Hobj).
  apply (grown_from_tables db db' [] [] []);
    rewrite ?Hkrs, ?Hpus, ?Hnext, ?app_nil_r; try first [reflexivity | lia].
  eapply (rowwise_map _ o_id); [|exact Hobj].
  intros r r' H. exact (objective_step_id _ _ _ _ _ _ _ _ _ H).
Qed.

Ltac grown_from_statement :=
  idtac;
  match goal with
  | H : grown_from ?db0 ?db |- grown_from ?db0 _ =>
      apply (grown_from_trans db0 db); [exact H|];
      first [ eapply grown_from_insert_objective; eassumption
            | eapply grown_from_insert_key_result; eassumption
            | eapply grown_from_insert_progress_update; eassumption
            | eapply grown_from_update_key_result; eassumption
            | eapply grown_from_update_objective; eassumption ]
  end.

Section GrownFrom.

Variable db0 : DB.

Lemma keeps_grown_updateObjective id data :
  keeps (grown_from db0) (ObjectiveModel.updateObjective id data).
Proof.
  unfold ObjectiveModel.updateObjective. keeps_by grown_from_statement.
Qed.

Lemma keeps_grown_checkAndUpdateObjectiveCompletion id :
  keeps (grown_from db0) (ObjectiveService.checkAndUpdateObjectiveCompletion
      id).
Proof.
  unfold ObjectiveService.checkAndUpdateObjectiveCompletion.
  keeps_by grown_from_statement.
  all: try apply keeps_grown_updateObjective.
Qed.

Lemma keeps_grown_createObjectiveWithKeyResults data :
  keeps (grown_from db0) (ObjectiveService.createObjectiveWithKeyResults data).
Proof.
  unfold ObjectiveService.createObjectiveWithKeyResults.
  keeps_by grown_from_statement.
Qed.

Lemma keeps_grown_updateProgress data :
  keeps (grown_from db0) (KeyResultService.updateProgress data).
Proof.
  unfold KeyResultService.updateProgress. keeps_by grown_from_statement.
  all: try apply keeps_grown_checkAndUpdateObjectiveCompletion.
Qed.

Lemma keeps_grown_updateKeyResult id data :
  keeps (grown_from db0) (KeyResultService.updateKeyResult id data).
Proof.
  unfold KeyResultService.updateKeyResult, KeyResultModel.updateKeyResult,
    ObjectiveService.getObjectiveWithKeyResults.
  keeps_by grown_from_statement.
Qed.

Lemma keeps_grown_batchUpdateProgress_loop updates :
  forall results ids,
    keeps (grown_from db0)
      (KeyResultService.batchUpdateProgress_loop updates results ids).
Proof.
  induction updates as [|u rest IH]; intros results ids; cbn.
  - apply keeps_ret.
  - keeps_by grown_from_statement. all: try apply IH.
Qed.

Lemma keeps_grown_batchUpdateProgress updates :
  keeps (grown_from db0) (KeyResultService.batchUpdateProgress updates).
Proof.
  unfold KeyResultService.batchUpdateProgress.
  keeps_by grown_from_statement.
  all: first [ apply keeps_grown_batchUpdateProgress_loop
             | apply keeps_grown_checkAndUpdateObjectiveCompletion ].
Qed.

Lemma keeps_grown_put userId id body :
  keeps (grown_from db0) (ObjectivesRoute.put userId id body).
Proof.
  intros today db Hdb.
  destruct (put_run userId id body today db)
    as [[e ->] | (o & data & _ & _ & -> & _)]; [constructor|].
  apply keeps_grown_updateObjective. exact Hdb.
Qed.

End GrownFrom.

(** X9: only the three DELETE statements take anything away.  In every
    state committed by creating an Objective with its Key Results, by
    recording progress (single or batch), by updating a Key Result or an
    Objective or by the completion check, the three tables still hold every
    Objective and Key Result the store had, under the same identifiers and
    in the same places, the ledger still starts with the rows it had,
    unchanged, and the counter of identifiers has not gone back: rows are
    only appended. *)
Theorem writes_only_append :
  forall (today : Z) (db : DB),
    (forall data,
        Forall (grown_from db)
          (commits (ObjectiveService.createObjectiveWithKeyResults data today
                      db)))
    /\ (forall data,
          Forall (grown_from db)
            (commits (KeyResultService.updateProgress data today db)))
    /\ (forall updates,
          Forall (grown_from db)
            (commits (KeyResultService.batchUpdateProgress updates today db)))
    /\ (forall id data,
          Forall (grown_from db)
            (commits (KeyResultService.updateKeyResult id data today db)))
    /\ (forall id,
          Forall (grown_from db)
            (commits (ObjectiveService.checkAndUpdateObjectiveCompletion id
                        today db)))
    /\ (forall userId id body,
          Forall (grown_from db)
            (commits (ObjectivesRoute.put userId id body today db))).
Proof.
  intros today db. pose proof (grown_from_refl db) as Hdb.
  repeat split; intros.
  - apply keeps_grown_createObjectiveWithKeyResults. exact Hdb.
  - apply keeps_grown_updateProgress. exact Hdb.
  - apply keeps_grown_batchUpdateProgress. exact Hdb.
  - apply keeps_grown_updateKeyResult. exact Hdb.
  - apply keeps_grown_checkAndUpdateObjectiveCompletion. exact Hdb.
  - apply keeps_grown_put. exact Hdb.
Qed.

(** ** An Objective created with its Key Results *)

Lemma last_app_last {A : Type} (l1 l2 : list A) d :
  last (l1 ++ l2) d = last l2 (last l1 d).
Proof.
  revert d. induction l1 as [|a l1 IH]; intros d; [reflexivity|].
  change ((a :: l1) ++ l2) with (a :: (l1 ++ l2)).
  rewrite !last_cons. apply IH.
Qed.

Lemma to_decimal_10_2_zero :
  Num.to_decimal_10_2 (Num.num 0) = Some (Num.dec 0).
Proof. reflexivity. Qed.

(** The row of a Key Result created without a current value: the texts
    cut to their columns, a target above 0 and the status NotStarted, or
    the target [NaN] and the status Completed. *)
Lemma insert_key_result_fresh today oid d tv u dl db db' row :
  insert_key_result today oid d tv (Num.num 0) u dl db = inr (db', row) ->
  exists tv',
    Num.to_decimal_10_2 tv = Some tv'
    /\ match tv' with Num.dec t => 0 < t | Num.dec_NaN => True end
    /\ row = mk_key_results_row (next_uuid db) oid (truncate 300 d) tv'
               (Num.dec 0) (truncate 50 u) dl
               (match tv' with
                | Num.dec _ => not_started
                | Num.dec_NaN => kr_completed
                end).
Proof.
  intros Hins.
  destruct (insert_key_result_inr _ _ _ _ _ _ _ _ _ _ Hins)
    as (tv' & cv' & Htv & Hcv & Hrow & Hchk & _).
  rewrite to_decimal_10_2_zero in Hcv. injection Hcv as <-.
  exists tv'. split; [exact Htv|].
  rewrite Hrow in Hchk. apply key_results_checks_values in Hchk.
  cbn [update_key_result_status kr_target_value kr_current_value] in Hchk.
  rewrite Hrow. unfold update_key_result_status.
  cbn [kr_id kr_objective_id kr_description kr_target_value kr_current_value
       kr_unit kr_deadline].
  destruct tv' as [t|].
  - split; [lia|].
    rewrite auto_status_decimal by lia.
    replace (t <=? 0) with false by (symmetry; apply Z.leb_gt; lia).
    reflexivity.
  - split; [exact I|]. rewrite auto_status_NaN_target. reflexivity.
Qed.

Lemma Promise_all_createKeyResult oid specs :
  forall today s krs,
    outcome (Promise_all
               (map (fun kr =>
                       KeyResultModel.createKeyResult
                         (KeyResultModel.mkCreateKeyResultData oid
                            (ObjectiveService.k_description kr)
                            (ObjectiveService.k_targetValue kr)
                            (ObjectiveService.k_unit kr)
                            (ObjectiveService.k_deadline kr) None))
                  specs) today s) = Returned krs ->
    exists rows,
      krs = map KeyResultModel.mapRowToKeyResult rows
      /\ commits
           (Promise_all
              (map (fun kr =>
                      KeyResultModel.createKeyResult
                        (KeyResultModel.mkCreateKeyResultData oid
                           (ObjectiveService.k_description kr)
                           (ObjectiveService.k_targetValue kr)
                           (ObjectiveService.k_unit kr)
                           (ObjectiveService.k_deadline kr) None))
                 specs) today s)
         = map (fun n => mkDB (objectives s) (key_results s ++ firstn n rows)
                           (progress_updates s) (next_uuid s + n))
             (seq 1 (List.length specs))
      /\ Forall2
           (fun spec row =>
              exists tv,
                Num.to_decimal_10_2 (ObjectiveService.k_targetValue spec)
                = Some tv
                /\ match tv with Num.dec t => 0 < t | Num.dec_NaN => True end
                /\ row = mk_key_results_row (kr_id row) oid
                           (truncate 300 (ObjectiveService.k_description spec))
                           tv (Num.dec 0)
                           (truncate 50 (ObjectiveService.k_unit spec))
                           (ObjectiveService.k_deadline spec)
                           (match tv with
                            | Num.dec _ => not_started
                            | Num.dec_NaN => kr_completed
                            end))
           specs rows
      /\ map kr_id rows = seq (next_uuid s) (List.length specs).
Proof.
  induction specs as [|spec specs IH]; intros today s krs.
  - cbn. intros [= <-]. exists []. repeat split; constructor.
  - cbn [map Promise_all]. rewrite createKeyResult_run.
    cbn [KeyResultModel.c_objectiveId KeyResultModel.c_description
           KeyResultModel.c_targetValue KeyResultModel.c_currentValue
           KeyResultModel.c_unit KeyResultModel.c_deadline
           KeyResultModel.or_zero].
    destruct (insert_key_result _ _ _ _ _ _ _ s) as [e|[s1 row]] eqn:Hins;
      cbn [outcome commits]; [discriminate|].
    change (final s (mkRun [s1]
                       (Returned (KeyResultModel.mapRowToKeyResult row))))
      with s1.
    destruct (outcome (Promise_all _ today s1)) as [l|e] eqn:Hrest;
      [|discriminate].
    intros [= <-].
    destruct (IH _ _ _ Hrest) as (rows & -> & Hcommits & Hrows & Hids).
    destruct (insert_key_result_fresh _ _ _ _ _ _ _ _ _ Hins)
      as (tv & Htv & Hpos & Hrow).
    destruct (insert_key_result_inr _ _ _ _ _ _ _ _ _ _ Hins)
      as (_ & _ & _ & _ & _ & _ & _ & Hobj & Hkrs & Hpus & Hnext).
    exists (row :: rows). split; [reflexivity|]. split; [|split].
    + rewrite Hcommits. cbn [List.length seq map app].
      f_equal.
      * destruct s1; cbn in *. subst. cbn. f_equal. lia.
      * rewrite <- (seq_shift (List.length specs) 1), map_map.
        apply map_ext. intros n.
        rewrite Hobj, Hkrs, Hpus, Hnext, <- app_assoc. cbn. f_equal. lia.
    + constructor; [|exact Hrows]. exists tv. split; [exact Htv|].
      split; [exact Hpos|]. rewrite Hrow. reflexivity.
    + cbn. rewrite Hids, Hnext. f_equal. rewrite Hrow. reflexivity.
Qed.

Lemma last_map_seq {A : Type} (f : nat -> A) a n d :
  last (map f (seq a (S n))) d = f (a + n)%nat.
Proof.
  revert a d. induction n as [|n IH]; intros a d.
  - cbn. f_equal. lia.
  - change (seq a (S (S n))) with (a :: seq (S a) (S n)).
    cbn [map]. rewrite last_cons, IH. f_equal. lia.
Qed.

Lemma createObjectiveWithKeyResults_run data today db :
  ObjectiveService.createObjectiveWithKeyResults data today db
  = if (List.length (ObjectiveService.r_keyResults data) <? 2)%nat
       || (5 <? List.length (ObjectiveService.r_keyResults data))%nat
    then mkRun [] (Threw (createError
        "Each objective must have between 2 and 5 key results" 400
            "INVALID_KEY_RESULTS_COUNT"))
    else if (0 <? List.length
                    (filter
                       (fun kr => (ObjectiveService.r_targetDate data
                                   <? ObjectiveService.k_deadline kr)%Z)
                       (ObjectiveService.r_keyResults data)))%nat
    then mkRun [] (Threw (createError
        "All key result deadlines must be on or before the objective target date"
          400 "INVALID_DEADLINE"))
    else
      match insert_objective today (ObjectiveService.r_userId data)
              (ObjectiveService.r_title data)
              (ObjectiveModel.or_null (ObjectiveService.r_description data))
              (ObjectiveService.r_category data)
              (ObjectiveService.r_targetDate data) db with
      | inl e => mkRun [] (Threw (DatabaseError e))
      | inr (s1, row) =>
          mkRun
            (s1 :: commits
                     (Promise_all
                        (map (fun kr =>
                                KeyResultModel.createKeyResult
                                  (KeyResultModel.mkCreateKeyResultData
                                     (o_id row)
                                     (ObjectiveService.k_description kr)
                                     (ObjectiveService.k_targetValue kr)
                                     (ObjectiveService.k_unit kr)
                                     (ObjectiveService.k_deadline kr) None))
                           (ObjectiveService.r_keyResults data)) today s1))
            (match outcome
                     (Promise_all
                        (map (fun kr =>
                                KeyResultModel.createKeyResult
                                  (KeyResultModel.mkCreateKeyResultData
                                     (o_id row)
                                     (ObjectiveService.k_description kr)
                                     (ObjectiveService.k_targetValue kr)
                                     (ObjectiveService.k_unit kr)
                                     (ObjectiveService.k_deadline kr) None))
                           (ObjectiveService.r_keyResults data)) today s1)
             with
             | Returned krs =>
                 Returned
                   (ObjectiveService.mkObjectiveWithKeyResults
                      (ObjectiveModel.mapRowToObjective row) krs)
             | Threw e => Threw e
             end)
      end.
Proof.
  unfold ObjectiveService.createObjectiveWithKeyResults.
  destruct ((_ <? 2)%nat || (5 <? _)%nat); [reflexivity|].
  destruct (0 <? List.length (filter _ _))%nat; [reflexivity|].
  unfold bind at 1. rewrite createObjective_run.
  cbn [ObjectiveModel.c_userId ObjectiveModel.c_title
         ObjectiveModel.c_description ObjectiveModel.c_category
         ObjectiveModel.c_targetDate].
  destruct (insert_objective _ _ _ _ _ _ db) as [e|[s1 row]];
    cbn [outcome commits]; [reflexivity|].
  change (final db (mkRun [s1]
                      (Returned (ObjectiveModel.mapRowToObjective row))))
    with s1.
  change (ObjectiveModel.id (ObjectiveModel.mapRowToObjective row))
    with (o_id row).
  unfold bind. cbn [outcome commits].
  destruct (outcome (Promise_all _ today s1)); cbn; rewrite ?app_nil_r;
    reflexivity.
Qed.

(** What a call that returns has left. *)
Lemma createObjectiveWithKeyResults_returned :
  forall (today : Z) (db : DB)
         (data : ObjectiveService.CreateObjectiveRequest)
         (r : ObjectiveService.ObjectiveWithKeyResults),
    wf db ->
    outcome (ObjectiveService.createObjectiveWithKeyResults data today db)
    = Returned r ->
    exists rows,
      (2 <= List.length (ObjectiveService.r_keyResults data) <= 5)%nat
      /\ ObjectiveService.objective r
         = ObjectiveModel.mkObjective (next_uuid db)
             (ObjectiveService.r_userId data)
             (truncate 200 (ObjectiveService.r_title data))
             (ObjectiveModel.or_null (ObjectiveService.r_description data))
             (ObjectiveService.r_category data)
             (ObjectiveService.r_targetDate data) active
      /\ ObjectiveService.keyResults r
         = map KeyResultModel.mapRowToKeyResult rows
      /\ Forall2
           (fun spec row =>
              ObjectiveService.k_deadline spec
              <= ObjectiveService.r_targetDate data
              /\ exists tv,
                   Num.to_decimal_10_2 (ObjectiveService.k_targetValue spec)
                   = Some tv
                   /\ match tv with
                      | Num.dec t => 0 < t
                      | Num.dec_NaN => True
                      end
                   /\ row = mk_key_results_row (kr_id row) (next_uuid db)
                              (truncate 300
                                 (ObjectiveService.k_description spec))
                              tv (Num.dec 0)
                              (truncate 50 (ObjectiveService.k_unit spec))
                              (ObjectiveService.k_deadline spec)
                              (match tv with
                               | Num.dec _ => not_started
                               | Num.dec_NaN => kr_completed
                               end))
           (ObjectiveService.r_keyResults data) rows
      /\ map kr_id rows
         = seq (S (next_uuid db))
             (List.length (ObjectiveService.r_keyResults data))
      /\ List.length
           (commits (ObjectiveService.createObjectiveWithKeyResults data today
                       db))
         = S (List.length (ObjectiveService.r_keyResults data))
      /\ final db (ObjectiveService.createObjectiveWithKeyResults data today db)
         = mkDB
             (objectives db
              ++ [mk_objectives_row (next_uuid db)
                    (ObjectiveService.r_userId data)
                    (truncate 200 (ObjectiveService.r_title data))
                    (ObjectiveModel.or_null
                       (ObjectiveService.r_description data))
                    (ObjectiveService.r_category data)
                    (ObjectiveService.r_targetDate data) active])
             (key_results db ++ rows) (progress_updates db)
             (S (next_uuid db)
              + List.length (ObjectiveService.r_keyResults data))
      /\ Read.key_results_of
           (final db
              (ObjectiveService.createObjectiveWithKeyResults data today db))
           (next_uuid db) = rows.
Proof.
  intros today db data r Hwf. rewrite createObjectiveWithKeyResults_run.
  destruct ((_ <? 2)%nat || (5 <? _)%nat) eqn:Hcount; [discriminate|].
  apply orb_false_iff in Hcount. destruct Hcount as [H2 H5].
  apply Nat.ltb_ge in H2, H5.
  destruct (0 <? List.length (filter _ _))%nat eqn:Hlate; [discriminate|].
  assert (Hdl : Forall (fun kr => ObjectiveService.k_deadline kr
                                  <= ObjectiveService.r_targetDate data)
                  (ObjectiveService.r_keyResults data)).
  { apply Forall_forall. intros kr Hin.
    destruct (ObjectiveService.r_targetDate data
              <? ObjectiveService.k_deadline kr) eqn:Hcmp;
      [|apply Z.ltb_ge in Hcmp; exact Hcmp].
    exfalso.
    assert (Hin' : In kr (filter
                            (fun kr => ObjectiveService.r_targetDate data
                                       <? ObjectiveService.k_deadline kr)
                            (ObjectiveService.r_keyResults data))).
    { apply filter_In. split; assumption. }
    destruct (filter _ _); [contradiction | discriminate]. }
  destruct (insert_objective _ _ _ _ _ _ db) as [e|[s1 row]] eqn:Hins;
    [discriminate|].
  destruct (insert_objective_inr _ _ _ _ _ _ _ _ _ Hins)
    as (Hrow & _ & Hobj & Hkrs & Hpus & Hnext).
  assert (Hoid : o_id row = next_uuid db) by (rewrite Hrow; reflexivity).
  rewrite Hoid. cbn [outcome commits].
  destruct (outcome (Promise_all _ today s1)) as [krs|e] eqn:Hall;
    [|discriminate].
  intros [= <-].
  destruct (Promise_all_createKeyResult _ _ _ _ _ Hall)
    as (rows & -> & Hcommits & Hrows & Hids).
  rewrite Hcommits.
  assert (Hlen : List.length rows
                 = List.length (ObjectiveService.r_keyResults data)).
  { rewrite <- (length_map kr_id), Hids, length_seq. reflexivity. }
  assert (Hfinal : final db
                     (mkRun
                        (s1
                         :: map (fun n =>
                                   mkDB (objectives s1)
                                     (key_results s1 ++ firstn n rows)
                                     (progress_updates s1) (next_uuid s1 + n))
                              (seq 1
                                 (List.length
                                    (ObjectiveService.r_keyResults data))))
                        (Returned
                           (ObjectiveService.mkObjectiveWithKeyResults
                              (ObjectiveModel.mapRowToObjective row)
                              (map KeyResultModel.mapRowToKeyResult rows))))
                   = mkDB (objectives db ++ [row]) (key_results db ++ rows)
                       (progress_updates db)
                       (S (next_uuid db)
                        + List.length (ObjectiveService.r_keyResults data))).
  { unfold final. cbn [commits]. rewrite last_cons.
    destruct (List.length (ObjectiveService.r_keyResults data)) as [|n] eqn:Hn;
      [lia|].
    rewrite last_map_seq.
    rewrite Hobj, Hkrs, Hpus, Hnext.
    replace (1 + n)%nat with (List.length rows) by lia.
    rewrite firstn_all, Hlen. reflexivity. }
  exists rows. rewrite Hfinal.
  split; [lia|]. split; [rewrite Hrow; reflexivity|].
  split; [reflexivity|]. split.
  { clear -Hrows Hdl Hnext.
    induction Hrows as [|spec row' specs rows' Hr _ IH]; [constructor|].
    inversion Hdl; subst. constructor; [|apply IH; assumption].
    split; assumption. }
  split; [rewrite Hids, Hnext; reflexivity|].
  split; [cbn; rewrite length_map, length_seq; reflexivity|].
  split; [rewrite Hrow; reflexivity|].
  unfold Read.key_results_of. cbn [key_results]. rewrite filter_app.
  assert (Hold : filter (fun r0 => Nat.eqb (kr_objective_id r0) (next_uuid db))
                   (key_results db) = []).
  { destruct (filter _ (key_results db)) as [|k ks] eqn:Hf; [reflexivity|].
    exfalso.
    assert (Hin : In k (filter
                          (fun r0 => Nat.eqb (kr_objective_id r0) (next_uuid
                              db))
                          (key_results db)))
      by (rewrite Hf; left; reflexivity).
    apply filter_In in Hin. destruct Hin as [Hin Hk]. apply Nat.eqb_eq in Hk.
    pose proof (key_results_objective_id_fkey _ Hwf) as Hfk.
    pose proof (objectives_issued _ Hwf) as Hlt.
    rewrite Forall_forall in Hfk, Hlt.
    specialize (Hfk k Hin). apply in_map_iff in Hfk.
    destruct Hfk as (o & Ho & Hino). specialize (Hlt o Hino). lia. }
  rewrite Hold. cbn [app]. apply filter_id.
  intros k Hk. clear -Hrows Hk.
  induction Hrows as [|spec row' specs rows' Hr _ IH]; [contradiction|].
  destruct Hk as [<- | Hk]; [|apply IH; exact Hk].
  destruct Hr as (tv & _ & _ & ->). cbn. apply Nat.eqb_refl.
Qed.

(** X10: when creating an Objective with its Key Results returns, the
    request had between two and five Key Results, none due after the target
    date; the store has gained one Objective, Active, with the next
    identifier and the title cut to 200 characters, and one Key Result per
    entry of the request, in the order of the request, with the identifiers
    that follow, each attached to the new Objective, with the description
    cut to 300 characters and the unit to 50, the target value as the
    column stores the requested one, and current value 0; a target that is
    a number is above 0 and the status is NotStarted, a target that is NaN
    is stored and the status is Completed.  One state was committed per
    row; and in a store with integrity the Key Results of the new Objective
    are exactly these, and the new Objective is the one found under its
    identifier. *)
Theorem createObjectiveWithKeyResults_returns :
  forall (today : Z) (db : DB)
         (data : ObjectiveService.CreateObjectiveRequest)
         (r : ObjectiveService.ObjectiveWithKeyResults),
    wf db ->
    outcome (ObjectiveService.createObjectiveWithKeyResults data today db)
    = Returned r ->
    exists rows,
      (2 <= List.length (ObjectiveService.r_keyResults data) <= 5)%nat
      /\ ObjectiveService.objective r
         = ObjectiveModel.mkObjective (next_uuid db)
             (ObjectiveService.r_userId data)
             (truncate 200 (ObjectiveService.r_title data))
             (ObjectiveModel.or_null (ObjectiveService.r_description data))
             (ObjectiveService.r_category data)
             (ObjectiveService.r_targetDate data) active
      /\ ObjectiveService.keyResults r
         = map KeyResultModel.mapRowToKeyResult rows
      /\ Forall2
           (fun spec row =>
              ObjectiveService.k_deadline spec
              <= ObjectiveService.r_targetDate data
              /\ exists tv,
                   Num.to_decimal_10_2 (ObjectiveService.k_targetValue spec)
                   = Some tv
                   /\ match tv with
                      | Num.dec t => 0 < t
                      | Num.dec_NaN => True
                      end
                   /\ row = mk_key_results_row (kr_id row) (next_uuid db)
                              (truncate 300
                                 (ObjectiveService.k_description spec))
                              tv (Num.dec 0)
                              (truncate 50 (ObjectiveService.k_unit spec))
                              (ObjectiveService.k_deadline spec)
                              (match tv with
                               | Num.dec _ => not_started
                               | Num.dec_NaN => kr_completed
                               end))
           (ObjectiveService.r_keyResults data) rows
      /\ map kr_id rows
         = seq (S (next_uuid db))
             (List.length (ObjectiveService.r_keyResults data))
      /\ List.length
           (commits (ObjectiveService.createObjectiveWithKeyResults data today
                       db))
         = S (List.length (ObjectiveService.r_keyResults data))
      /\ final db (ObjectiveService.createObjectiveWithKeyResults data today db)
         = mkDB
             (objectives db
              ++ [mk_objectives_row (next_uuid db)
                    (ObjectiveService.r_userId data)
                    (truncate 200 (ObjectiveService.r_title data))
                    (ObjectiveModel.or_null
                       (ObjectiveService.r_description data))
                    (ObjectiveService.r_category data)
                    (ObjectiveService.r_targetDate data) active])
             (key_results db ++ rows) (progress_updates db)
             (S (next_uuid db)
              + List.length (ObjectiveService.r_keyResults data))
      /\ Read.key_results_of
           (final db
              (ObjectiveService.createObjectiveWithKeyResults data today db))
           (next_uuid db) = rows
      /\ Read.objective_row
           (final db
              (ObjectiveService.createObjectiveWithKeyResults data today db))
           (next_uuid db)
         = Some (mk_objectives_row (next_uuid db)
                   (ObjectiveService.r_userId data)
                   (truncate 200 (ObjectiveService.r_title data))
                   (ObjectiveModel.or_null
                      (ObjectiveService.r_description data))
                   (ObjectiveService.r_category data)
                   (ObjectiveService.r_targetDate data) active).
Proof.
  intros today db data r Hwf Hout.
  destruct (createObjectiveWithKeyResults_returned _ _ _ _ Hwf Hout)
    as (rows & Hcount & Hobjective & Hresults & Hrows & Hids & Hcommits
        & Hfinal & Hnew).
  exists rows.
  repeat (split; [assumption|]).
  rewrite Hfinal. unfold Read.objective_row. cbn [objectives].
  pose proof (objectives_issued _ Hwf) as Hissued. clear - Hissued.
  set (os := objectives db) in *. clearbody os.
  induction Hissued as [|o os Ho _ IH]; cbn.
  - rewrite Nat.eqb_refl. reflexivity.
  - replace (Nat.eqb (o_id o) (next_uuid db)) with false; [exact IH|].
    symmetry. apply Nat.eqb_neq. lia.
Qed.

Lemma createObjectiveWithKeyResults_returns_witness :
  wf Scenario.empty
  /\ List.length
       (commits (ObjectiveService.createObjectiveWithKeyResults
                   Scenario.learn_go 0 Scenario.empty)) = 3%nat.
Proof.
  split; [exact wf_empty|].
  pose (r := ObjectiveService.mkObjectiveWithKeyResults
               (ObjectiveModel.mkObjective 1 7 "Learn Go" None skills 500
                  active)
               [KeyResultModel.mapRowToKeyResult
                  (mk_key_results_row 2 1 "Earn three certifications" (Num.dec
                      300) (Num.dec 0)
                     "certs" 400 not_started);
                KeyResultModel.mapRowToKeyResult
                  (mk_key_results_row 3 1 "Study one hundred hours" (Num.dec
                      10000) (Num.dec 0)
                     "hours" 450 not_started)]).
  assert (Hreturned :
            outcome (ObjectiveService.createObjectiveWithKeyResults
                       Scenario.learn_go 0 Scenario.empty) = Returned r)
    by reflexivity.
  destruct (createObjectiveWithKeyResults_returns 0 Scenario.empty
              Scenario.learn_go r wf_empty Hreturned)
    as (rows & _ & _ & _ & _ & _ & Hcommits & _).
  exact Hcommits.
Defined.

(** ** The queries *)

Lemma insert_by_perm {R : Set} (key : R -> Z) x rows :
  Permutation (insert_by key x rows) (x :: rows).
Proof.
  induction rows as [|y rows IH]; cbn; [reflexivity|].
  destruct (key x <=? key y); [reflexivity|].
  rewrite IH. apply perm_swap.
Qed.

Lemma order_by_perm {R : Set} (key : R -> Z) rows :
  Permutation (order_by key rows) rows.
Proof.
  induction rows as [|x rows IH]; cbn; [constructor|].
  fold (order_by key rows). rewrite insert_by_perm. constructor. exact IH.
Qed.

Lemma insert_by_ascending {R : Set} (key : R -> Z) x rows :
  ascending key rows -> ascending key (insert_by key x rows).
Proof.
  induction rows as [|y rows IH]; cbn; [intros _; split; constructor|].
  intros [Hy Hrows]. destruct (key x <=? key y) eqn:Hle; cbn.
  - apply Z.leb_le in Hle. split; [|split; assumption].
    constructor; [exact Hle|].
    eapply Forall_impl; [|exact Hy]. cbn. intros z Hz. lia.
  - apply Z.leb_gt in Hle. split; [|apply IH; exact Hrows].
    eapply Permutation_Forall; [symmetry; apply insert_by_perm|].
    constructor; [lia | exact Hy].
Qed.

Lemma order_by_ascending {R : Set} (key : R -> Z) rows :
  ascending key (order_by key rows).
Proof.
  induction rows as [|x rows IH]; cbn; [exact I|].
  apply insert_by_ascending. exact IH.
Qed.

Lemma order_by_In {R : Set} (key : R -> Z) rows x :
  In x (order_by key rows) <-> In x rows.
Proof.
  split; apply Permutation_in; [|symmetry]; apply order_by_perm.
Qed.

Lemma existsb_pointwise {A : Type} (f g : A -> bool) rows :
  (forall a, f a = g a) -> existsb f rows = existsb g rows.
Proof.
  intros Hfg. induction rows as [|a rows IH]; cbn; [reflexivity|].
  rewrite Hfg, IH. reflexivity.
Qed.

(** A join on a primary key finds a row at most once. *)
Lemma join_on_key {R S : Set} (key : S -> nat) (f : S -> bool) (x : R) c
    rows :
  NoDup (map key rows) ->
  (forall o, In o rows -> f o = true -> key o = c) ->
  flat_map (fun o => if f o then [x] else []) rows
  = if existsb f rows then [x] else [].
Proof.
  induction rows as [|a rows IH]; cbn; [reflexivity|].
  intros Hnd Hkey. inversion Hnd as [|k ks Hnotin Hnd']; subst.
  rewrite IH by auto.
  destruct (f a) eqn:Hfa; cbn; [|reflexivity].
  destruct (existsb f rows) eqn:Hex; [|reflexivity].
  exfalso. apply existsb_exists in Hex. destruct Hex as (o & Hin & Hfo).
  apply Hnotin. rewrite (Hkey a (or_introl eq_refl) Hfa),
    <- (Hkey o (or_intror Hin) Hfo).
  apply in_map. exact Hin.
Qed.

Lemma flat_map_filter {R : Set} (f : R -> bool) rows :
  flat_map (fun r => if f r then [r] else []) rows = filter f rows.
Proof.
  induction rows as [|a rows IH]; cbn; [reflexivity|].
  rewrite IH. destruct (f a); reflexivity.
Qed.

Lemma key_result_status_eqb_true a b :
  key_result_status_eqb a b = true <-> a = b.
Proof. destruct a, b; cbn; split; intros H; congruence. Qed.

(** X11: the list of the Key Results at risk is read without writing and
    never fails; it is in ascending order of deadline and holds the Key
    Results whose stored status is AtRisk and whose Objective belongs to
    the user, and no other; in a store with integrity each of them occurs
    once. *)
Theorem getAtRiskKeyResults_lists_the_users_own :
  forall (today : Z) (db : DB) (userId : nat),
    exists rows,
      KeyResultService.getAtRiskKeyResults userId today db
      = mkRun [] (Returned (map KeyResultModel.mapRowToKeyResult rows))
      /\ ascending kr_deadline rows
      /\ (forall r,
            In r rows
            <-> In r (key_results db)
                /\ kr_status r = at_risk
                /\ exists o, In o (objectives db)
                             /\ o_id o = kr_objective_id r
                             /\ o_user_id o = userId)
      /\ (wf db ->
          Permutation rows
            (filter
               (fun r =>
                  key_result_status_eqb (kr_status r) at_risk
                  && existsb
                       (fun o => Nat.eqb (o_id o) (kr_objective_id r)
                                 && Nat.eqb (o_user_id o) userId)
                       (objectives db))
               (key_results db))).
Proof.
  intros today db userId.
  unfold KeyResultService.getAtRiskKeyResults,
    KeyResultModel.getAtRiskKeyResults, select.
  eexists. split; [reflexivity|]. split; [apply order_by_ascending|]. split.
  - intros r. rewrite order_by_In, in_flat_map. split.
    + intros (kr & Hkr & Hin). apply in_flat_map in Hin.
      destruct Hin as (o & Ho & Hin).
      destruct (Nat.eqb (kr_objective_id kr) (o_id o)) eqn:Hoid;
        [|contradiction].
      destruct (Nat.eqb (o_user_id o) userId) eqn:Huser; [|contradiction].
      destruct (key_result_status_eqb (kr_status kr) at_risk) eqn:Hst;
        [|contradiction].
      destruct Hin as [<- | []].
      apply Nat.eqb_eq in Hoid, Huser.
      apply key_result_status_eqb_true in Hst. eauto 10.
    + intros (Hr & Hst & o & Ho & Hoid & Huser).
      exists r. split; [exact Hr|]. apply in_flat_map. exists o.
      split; [exact Ho|].
      rewrite Hoid, Huser, Hst, !Nat.eqb_refl. left. reflexivity.
  - intros Hwf. rewrite order_by_perm.
    rewrite <- flat_map_filter.
    erewrite flat_map_ext; [reflexivity|].
    intros r.
    rewrite (join_on_key o_id _ r (kr_objective_id r)).
    + destruct (key_result_status_eqb (kr_status r) at_risk) eqn:Hst; cbn.
      * erewrite existsb_pointwise; [reflexivity|]. intros o.
        rewrite andb_true_r, (Nat.eqb_sym (kr_objective_id r)). reflexivity.
      * replace (existsb _ (objectives db)) with false; [reflexivity|].
        symmetry. apply not_true_iff_false. rewrite existsb_exists.
        intros (o & _ & Ho). rewrite andb_false_r in Ho. discriminate.
    + exact (objectives_pkey _ Hwf).
    + intros o _ Ho. apply andb_true_iff in Ho. destruct Ho as [Ho _].
      apply andb_true_iff in Ho. destruct Ho as [Ho _].
      apply Nat.eqb_eq in Ho. congruence.
Qed.

Lemma getAtRiskKeyResults_lists_the_users_own_witness :
  exists rows,
    KeyResultService.getAtRiskKeyResults 7 390
      (final Scenario.created
         (KeyResultService.updateProgress (Scenario.record 2 1) 390
            Scenario.created))
    = mkRun [] (Returned (map KeyResultModel.mapRowToKeyResult rows))
    /\ Permutation rows
         [mk_key_results_row 2 1 "Earn three certifications" (Num.dec 300)
             (Num.dec 100) "certs"
            400 at_risk].
Proof.
  assert (Hwf : wf (final Scenario.created
                      (KeyResultService.updateProgress (Scenario.record 2 1)
                         390 Scenario.created))).
  { apply final_keeps; [exact wf_created|].
    apply keeps_wf_updateProgress. exact wf_created. }
  destruct (getAtRiskKeyResults_lists_the_users_own 390
              (final Scenario.created
                 (KeyResultService.updateProgress (Scenario.record 2 1) 390
                    Scenario.created)) 7)
    as (rows & Hrun & _ & _ & Honce).
  exists rows. split; [exact Hrun | exact (Honce Hwf)].
Defined.

Lemma Promise_all_selects {A B C : Type} (q : A -> DB -> B) (f : A -> B -> C)
    xs today db :
  Promise_all (map (fun x => b <- select (q x) ;; ret (f x b)) xs) today db
  = mkRun [] (Returned (map (fun x => f x (q x db)) xs)).
Proof.
  revert db. induction xs as [|x xs IH]; intros db; [reflexivity|].
  cbn [map Promise_all]. rewrite IH. reflexivity.
Qed.

(** X12: the list of a user's Objectives is read without writing and never
    fails; it is in ascending order of target date, holds each Objective of
    the user that passes the filters on category and status once, and no
    other, and each comes with exactly its own Key Results, in the order of
    the table. *)
Theorem getUserObjectivesWithKeyResults_lists_the_users_own :
  forall (today : Z) (db : DB) (userId : nat)
         (category : option objective_category)
         (status : option objective_status),
    exists rows,
      ObjectiveService.getUserObjectivesWithKeyResults userId category status
        today db
      = mkRun []
          (Returned
             (map (fun o =>
                     ObjectiveService.mkObjectiveWithKeyResults
                       (ObjectiveModel.mapRowToObjective o)
                       (map KeyResultModel.mapRowToKeyResult
                          (Read.key_results_of db (o_id o))))
                rows))
      /\ ascending o_target_date rows
      /\ (forall o,
            In o rows
            <-> In o (objectives db)
                /\ o_user_id o = userId
                /\ match category with
                   | Some c => o_category o = c
                   | None => True
                   end
                /\ match status with
                   | Some s => o_status o = s
                   | None => True
                   end)
      /\ (NoDup (map o_id (objectives db)) -> NoDup (map o_id rows)).
Proof.
  intros today db userId category status.
  unfold ObjectiveService.getUserObjectivesWithKeyResults,
    ObjectiveModel.findObjectivesByUserId,
    KeyResultModel.findKeyResultsByObjectiveId.
  unfold bind at 1, select at 1. cbn [outcome commits final last app].
  rewrite map_map.
  rewrite (Promise_all_selects
             (fun o db0 =>
                map KeyResultModel.mapRowToKeyResult
                  (filter
                     (fun r => Nat.eqb (kr_objective_id r)
                                 (ObjectiveModel.id
                                    (ObjectiveModel.mapRowToObjective o)))
                     (key_results db0)))
             (fun o krs =>
                ObjectiveService.mkObjectiveWithKeyResults
                  (ObjectiveModel.mapRowToObjective o) krs)).
  eexists. split; [reflexivity|]. split; [apply order_by_ascending|]. split.
  - intros o. rewrite order_by_In, <- in_rev, filter_In.
    rewrite !andb_true_iff, Nat.eqb_eq.
    assert (Hc : match category with
                 | Some c =>
                     match o_category o, c with
                     | career, career | health, health
                     | relationships, relationships | skills, skills
                     | financial, financial | personal, personal => true
                     | _, _ => false
                     end
                 | None => true
                 end = true
                 <-> match category with
                     | Some c => o_category o = c
                     | None => True
                     end).
    { destruct category as [c|]; [|tauto].
      destruct (o_category o), c; split; intros H; congruence. }
    assert (Hs : match status with
                 | Some st =>
                     match o_status o, st with
                     | active, active | completed, completed
                     | archived, archived | abandoned, abandoned => true
                     | _, _ => false
                     end
                 | None => true
                 end = true
                 <-> match status with
                     | Some s => o_status o = s
                     | None => True
                     end).
    { destruct status as [s|]; [|tauto].
      destruct (o_status o), s; split; intros H; congruence. }
    tauto.
  - intros Hnd.
    eapply Permutation_NoDup;
      [apply Permutation_map; symmetry; apply order_by_perm|].
    eapply Permutation_NoDup;
      [apply Permutation_map; apply Permutation_rev|].
    apply NoDup_map_filter. exact Hnd.
Qed.

Lemma getUserObjectivesWithKeyResults_lists_the_users_own_witness :
  exists rows,
    ObjectiveService.getUserObjectivesWithKeyResults 7 None (Some active) 0
      Scenario.created
    = mkRun []
        (Returned
           (map (fun o =>
                   ObjectiveService.mkObjectiveWithKeyResults
                     (ObjectiveModel.mapRowToObjective o)
                     (map KeyResultModel.mapRowToKeyResult
                        (Read.key_results_of Scenario.created (o_id o))))
              rows))
    /\ NoDup (map o_id rows).
Proof.
  destruct (getUserObjectivesWithKeyResults_lists_the_users_own 0
              Scenario.created 7 None (Some active))
    as (rows & Hrun & _ & _ & Honce).
  exists rows. split; [exact Hrun|].
  apply Honce. exact (objectives_pkey _ wf_created).
Defined.

(** ** The Authorization header *)

Lemma prefix_split (p s : string) :
  String.prefix p s = true ->
  s = (p ++ String.substring (String.length p)
              (String.length s - String.length p) s)%string.
Proof.
  revert s. induction p as [|a p IH]; intros s; cbn.
  - intros _. rewrite Nat.sub_0_r. clear.
    induction s as [|c s IH]; cbn; [reflexivity|]. rewrite <- IH. reflexivity.
  - destruct s as [|c s]; cbn; [discriminate|].
    destruct (Ascii.ascii_dec a c) as [<-|]; [|discriminate].
    intros H. rewrite <- (IH s H). reflexivity.
Qed.

Lemma prefix_app (p t : string) : String.prefix p (p ++ t) = true.
Proof.
  induction p as [|a p IH]; cbn; [destruct t; reflexivity|].
  destruct (Ascii.ascii_dec a a); [exact IH | congruence].
Qed.

Lemma substring_app (p t : string) :
  String.substring (String.length p)
    (String.length (p ++ t) - String.length p) (p ++ t) = t.
Proof.
  induction p as [|a p IH]; cbn.
  - rewrite Nat.sub_0_r. induction t as [|c t IH]; cbn; [reflexivity|].
    rewrite IH. reflexivity.
  - exact IH.
Qed.

(** X13: [extractToken] returns a token exactly on the headers that are
    the text "Bearer " followed by a token that is not empty, and it returns
    that token; a missing or empty header is refused with "No authorization
    header", a header that does not start with "Bearer " with "Invalid
    authorization header format", and the bare "Bearer " with "No token
    provided". *)
Theorem extractToken_round_trip :
  (forall token,
      token <> EmptyString ->
      AuthService.extractToken (Some ("Bearer " ++ token)%string) = inr token)
  /\ (forall header token,
        AuthService.extractToken header = inr token ->
        token <> EmptyString /\ header = Some ("Bearer " ++ token)%string)
  /\ (forall header message,
        AuthService.extractToken header = inl message ->
        (message = "No authorization header"%string
         /\ (header = None \/ header = Some EmptyString))
        \/ (message = "Invalid authorization header format"%string
            /\ exists h, header = Some h
                         /\ String.prefix "Bearer " h = false)
        \/ (message = "No token provided"%string
            /\ header = Some "Bearer "%string)).
Proof.
  split; [|split].
  - intros token Htoken. unfold AuthService.extractToken.
    pose proof (prefix_app "Bearer " token) as Hprefix.
    pose proof (substring_app "Bearer " token) as Hsub.
    change (String.length "Bearer ") with 7%nat in Hsub.
    destruct ("Bearer " ++ token)%string as [|c h] eqn:Hheader;
      [discriminate Hheader|].
    rewrite Hprefix. cbn [negb]. rewrite Hsub.
    destruct token; [congruence | reflexivity].
  - intros header token. unfold AuthService.extractToken.
    destruct header as [[|c h]|]; [discriminate| |discriminate].
    destruct (String.prefix "Bearer " (String c h)) eqn:Hprefix;
      cbn [negb]; [|discriminate].
    pose proof (prefix_split _ _ Hprefix) as Hsplit.
    change (String.length "Bearer ") with 7%nat in Hsplit.
    destruct (String.substring 7 (String.length (String c h) - 7)
                (String c h)) as [|t ts] eqn:Hsub; [discriminate|].
    intros [= <-]. split; [discriminate|]. rewrite Hsplit at 1. reflexivity.
  - intros header message. unfold AuthService.extractToken.
    destruct header as [[|c h]|]; [intros [= <-]; left; eauto| |
                                   intros [= <-]; left; eauto].
    destruct (String.prefix "Bearer " (String c h)) eqn:Hprefix;
      cbn [negb]; [|intros [= <-]; right; left; eauto].
    pose proof (prefix_split _ _ Hprefix) as Hsplit.
    change (String.length "Bearer ") with 7%nat in Hsplit.
    destruct (String.substring 7 (String.length (String c h) - 7)
                (String c h)) as [|t ts] eqn:Hsub; [|discriminate].
    intros [= <-]. right. right. split; [reflexivity|].
    rewrite Hsplit. reflexivity.
Qed.

Lemma extractToken_round_trip_witness :
  AuthService.extractToken (Some "Bearer abc"%string) = inr "abc"%string.
Proof.
  assert (Htoken : "abc"%string <> EmptyString) by discriminate.
  destruct extractToken_round_trip as (Hreturns & _).
  exact (Hreturns "abc"%string Htoken).
Defined.

(** ** A batch of one entry *)

(** X14: a batch of one entry whose value is not below 0 commits exactly
    the states that recording that entry alone commits.  When the Key
    Result exists it ends as the single call ends: with the same error, or
    with the list of the one Progress Update the single call returns.  When
    the Key Result is missing both throw a 404 error KEY_RESULT_NOT_FOUND,
    with different messages: the one of the batch names the identifier. *)
Theorem batchUpdateProgress_of_one_entry :
  forall (today : Z) (db : DB) (u : KeyResultService.UpdateProgressRequest),
    Num.number_ltb (KeyResultService.valueRecorded u) (Num.num 0) = false ->
    commits (KeyResultService.batchUpdateProgress [u] today db)
    = commits (KeyResultService.updateProgress u today db)
    /\ match Read.key_result_row db (KeyResultService.keyResultId u) with
       | Some _ =>
           outcome (KeyResultService.batchUpdateProgress [u] today db)
           = match outcome (KeyResultService.updateProgress u today db) with
             | Returned pu => Returned [pu]
             | Threw e => Threw e
             end
       | None =>
           outcome (KeyResultService.batchUpdateProgress [u] today db)
           = Threw (AppError
                      (text_id "Key result not found: "
                         (KeyResultService.keyResultId u))
                      404 "KEY_RESULT_NOT_FOUND")
           /\ outcome (KeyResultService.updateProgress u today db)
              = Threw (AppError (text "Key result not found") 404
                         "KEY_RESULT_NOT_FOUND")
       end.
Proof.
  intros today db u Hvalue.
  unfold KeyResultService.batchUpdateProgress. unfold bind at 1 3 5.
  rewrite batchUpdateProgress_loop_cons, updateProgress_run, Hvalue.
  destruct (Read.key_result_row db (KeyResultService.keyResultId u))
    as [kr|]; [|repeat split; reflexivity].
  destruct (insert_progress_update _ _ _ _ db) as [e|[s1 row]];
    [split; reflexivity|].
  cbn [KeyResultService.batchUpdateProgress_loop ret outcome commits app snd
         fst KeyResultService.Set_add existsb for_of].
  change (final db
            (mkRun [s1]
               (Returned
                  ([ProgressUpdateModel.mapRowToProgressUpdate row],
                   [kr_objective_id kr])))) with s1.
  unfold bind. rewrite checkAndUpdateObjectiveCompletion_run.
  unfold Read.key_results_of.
  destruct (ObjectiveService.allCompleted _); [|split; reflexivity].
  destruct (update_objective _ _ _ _ _ _ _ s1) as [e|[s2 rows]];
    split; reflexivity.
Qed.

Lemma batchUpdateProgress_of_one_entry_witness :
  commits (KeyResultService.batchUpdateProgress [Scenario.record 2 3] 10
             Scenario.created)
  = commits (KeyResultService.updateProgress (Scenario.record 2 3) 10
               Scenario.created).
Proof.
  assert (Hvalue : Num.number_ltb
                     (KeyResultService.valueRecorded (Scenario.record 2 3))
                     (Num.num 0)
                   = false) by reflexivity.
  exact (proj1 (batchUpdateProgress_of_one_entry 10 Scenario.created
                  (Scenario.record 2 3) Hvalue)).
Defined.

(** ** A Progress Update deleted again *)

Lemma deleteProgressUpdate_run id today db :
  ProgressUpdateModel.deleteProgressUpdate id today db
  = mkRun
      [mkDB (objectives db) (key_results db)
         (filter (fun u => negb (Nat.eqb (pu_id u) id)) (progress_updates db))
         (next_uuid db)]
      (Returned
         (Nat.ltb 0
            (List.length
               (filter (fun u => Nat.eqb (pu_id u) id) (progress_updates
                   db))))).
Proof. reflexivity. Qed.

(** X15: deleting a Progress Update does not undo it.  When, in a store
    with integrity, the Progress Update that a call of [updateProgress] has
    just returned is deleted, the ledger is again what it was before the
    call, and nothing else changes: the Key Result keeps the value and the
    status the deleted Progress Update gave it, and an Objective completed
    by it stays Completed. *)
Theorem deleteProgressUpdate_does_not_undo :
  forall (today later : Z) (db : DB)
         (data : KeyResultService.UpdateProgressRequest)
         (pu : ProgressUpdateModel.ProgressUpdate),
    wf db ->
    outcome (KeyResultService.updateProgress data today db) = Returned pu ->
    outcome (ProgressUpdateModel.deleteProgressUpdate
               (ProgressUpdateModel.id pu) later
               (final db (KeyResultService.updateProgress data today db)))
    = Returned true
    /\ final (final db (KeyResultService.updateProgress data today db))
         (ProgressUpdateModel.deleteProgressUpdate (ProgressUpdateModel.id pu)
            later (final db (KeyResultService.updateProgress data today db)))
       = mkDB
           (objectives
              (final db (KeyResultService.updateProgress data today db)))
           (key_results
              (final db (KeyResultService.updateProgress data today db)))
           (progress_updates db)
           (next_uuid
              (final db (KeyResultService.updateProgress data today db)))
    /\ exists row,
         Read.key_result_row
           (final db (KeyResultService.updateProgress data today db))
           (KeyResultService.keyResultId data) = Some row
         /\ Num.of_decimal (kr_current_value row)
            = ProgressUpdateModel.valueRecorded pu.
Proof.
  intros today later db data pu Hwf Hout.
  destruct (updateProgress_returned _ _ _ _ Hout)
    as (kr & v & row & Hkr & Hv & Hrow & Hpu & Hfound & _ & Hpus & Hnext).
  rewrite deleteProgressUpdate_run.
  set (s := final db (KeyResultService.updateProgress data today db)) in *.
  assert (Hid : ProgressUpdateModel.id pu = next_uuid db)
    by (rewrite Hpu, Hrow; reflexivity).
  assert (Hold : forall u, In u (progress_updates db) ->
                           Nat.eqb (pu_id u) (next_uuid db) = false).
  { intros u Hu. pose proof (progress_updates_issued _ Hwf) as Hlt.
    rewrite Forall_forall in Hlt. specialize (Hlt u Hu).
    apply Nat.eqb_neq. lia. }
  assert (Hnew : Nat.eqb (pu_id row) (next_uuid db) = true)
    by (rewrite Hrow; apply Nat.eqb_refl).
  rewrite Hid, Hpus, !filter_app. cbn [filter]. rewrite Hnew. cbn [negb].
  split; [|split].
  - rewrite length_app, Nat.add_comm. reflexivity.
  - unfold final. cbn [commits last]. f_equal.
    rewrite app_nil_r. apply filter_id. intros u Hu.
    rewrite (Hold u Hu). reflexivity.
  - eexists. split; [exact Hfound|].
    rewrite Hpu, Hrow. reflexivity.
Qed.

Lemma deleteProgressUpdate_does_not_undo_witness :
  wf Scenario.created
  /\ outcome (ProgressUpdateModel.deleteProgressUpdate 4 11 Scenario.certified)
     = Returned true.
Proof.
  split; [exact wf_created|].
  pose (pu := ProgressUpdateModel.mkProgressUpdate 4 2 (Num.of_decimal (Num.dec
      300))
                None).
  assert (Hreturned :
            outcome (KeyResultService.updateProgress (Scenario.record 2 3) 10
                       Scenario.created) = Returned pu) by reflexivity.
  destruct (deleteProgressUpdate_does_not_undo 10 11 Scenario.created
              (Scenario.record 2 3) pu wf_created Hreturned)
    as (Hdeleted & _).
  exact Hdeleted.
Defined.

(** ** Stored numbers *)

Lemma round_half_away_of_decimal v :
  Num.round_half_away (Num.hundredths_Q v * 100) = v.
Proof.
  cbv [Num.round_half_away Num.hundredths_Q Qdiv Qmult Qinv inject_Z Qnum
       Qden].
  change (Z.pos (1 * 100 * 1)) with 100.
  replace (v * 1 * 100) with (v * 100) by lia.
  rewrite Z.abs_mul, Z.sgn_mul.
  change (Z.abs 100) with 100. change (Z.sgn 100) with 1.
  replace (2 * (Z.abs v * 100) + 100) with (Z.abs v * (2 * 100) + 100) by lia.
  rewrite Z.div_add_l by lia.
  change (100 / (2 * 100)) with 0.
  rewrite Z.add_0_r, Z.mul_1_r, Z.mul_comm. apply Z.abs_sgn.
Qed.

Lemma round_half_away_error x :
  (Qabs (inject_Z (Num.round_half_away x) - x) <= 1 # 2)%Q.
Proof.
  destruct x as [n d]. unfold Num.round_half_away. cbn [Qnum Qden].
  apply Qabs_Qle_condition.
  assert (Hd : 0 < Z.pos d) by lia.
  pose proof (Z.div_mod (2 * Z.abs n + Z.pos d) (2 * Z.pos d)) as Hdiv.
  pose proof (Z.mod_pos_bound (2 * Z.abs n + Z.pos d) (2 * Z.pos d)) as Hmod.
  set (q := (2 * Z.abs n + Z.pos d) / (2 * Z.pos d)) in *.
  set (m := (2 * Z.abs n + Z.pos d) mod (2 * Z.pos d)) in *.
  specialize (Hdiv ltac:(lia)). specialize (Hmod ltac:(lia)).
  unfold Qle, Qminus, Qplus, Qopp; cbn [Qnum Qden inject_Z].
  destruct (Z.sgn_spec n) as [[Hn ->] | [[Hn ->] | [Hn ->]]];
    split; nia.
Qed.

(** What a column stores of what it is given: a number for a number, at
    most 0.005 away and of at most ten digits, and [NaN] for [NaN]; an
    infinity is not stored. *)
Lemma to_decimal_10_2_stored x v :
  Num.to_decimal_10_2 x = Some v ->
  match x, v with
  | Num.num q, Num.dec z =>
      (Qabs (Num.hundredths_Q z - q) <= 1 # 200)%Q /\ Z.abs z < 10 ^ 10
  | Num.NaN, Num.dec_NaN => True
  | _, _ => False
  end.
Proof.
  destruct x as [q| | |]; cbn [Num.to_decimal_10_2]; try discriminate.
  - destruct (Z.abs (Num.round_half_away (q * 100)) <? 10 ^ 10) eqn:Hlt;
      [|discriminate].
    intros [= <-]. split; [|apply Z.ltb_lt; exact Hlt].
    pose proof (round_half_away_error (q * 100)) as Herr.
    apply Qabs_Qle_condition in Herr. apply Qabs_Qle_condition.
    unfold Num.hundredths_Q, Qdiv. change (/ 100)%Q with (1 # 100)%Q.
    set (r := inject_Z (Num.round_half_away (q * 100))) in *. clearbody r.
    split; lra.
  - intros [= <-]. exact I.
Qed.

(** X16: what is stored of a number.  A number accepted by a
    [DECIMAL(10,2)] column is stored as a number at most 0.005 away from
    it, and NaN as NaN; a stored value that is read and written back is
    stored unchanged; so the Progress Update that [updateProgress] returns
    carries a number at most 0.005 away from the number recorded, or NaN
    for NaN. *)
Theorem stored_values_are_rounded :
  (forall x v,
      Num.to_decimal_10_2 x = Some v ->
      match x, v with
      | Num.num q, Num.dec z => (Qabs (Num.hundredths_Q z - q) <= 1 # 200)%Q
      | Num.NaN, Num.dec_NaN => True
      | _, _ => False
      end
      /\ Num.to_decimal_10_2 (Num.of_decimal v) = Some v)
  /\ (forall today db data pu,
        outcome (KeyResultService.updateProgress data today db) = Returned pu ->
        match KeyResultService.valueRecorded data,
              ProgressUpdateModel.valueRecorded pu with
        | Num.num q, Num.num q' => (Qabs (q' - q) <= 1 # 200)%Q
        | Num.NaN, Num.NaN => True
        | _, _ => False
        end).
Proof.
  split.
  - intros x v Hv. pose proof (to_decimal_10_2_stored _ _ Hv) as Hstored.
    destruct x as [q| | |], v as [z|]; try contradiction.
    + destruct Hstored as [Herr Hrange]. split; [exact Herr|].
      cbn [Num.of_decimal Num.to_decimal_10_2].
      rewrite round_half_away_of_decimal.
      apply Z.ltb_lt in Hrange. rewrite Hrange. reflexivity.
    + split; [exact I | reflexivity].
  - intros today db data pu Hout.
    destruct (updateProgress_returned _ _ _ _ Hout)
      as (kr & v & row & _ & Hv & Hrow & Hpu & _).
    rewrite Hpu, Hrow. cbn [ProgressUpdateModel.valueRecorded
                              ProgressUpdateModel.mapRowToProgressUpdate
                              pu_value_recorded].
    pose proof (to_decimal_10_2_stored _ _ Hv) as Hstored.
    destruct (KeyResultService.valueRecorded data) as [q| | |], v as [z|];
      try contradiction; cbn [Num.of_decimal].
    + exact (proj1 Hstored).
    + exact I.
Qed.

Lemma stored_values_are_rounded_witness :
  (Qabs (Num.hundredths_Q 235 - (2345 # 1000)) <= 1 # 200)%Q
  /\ Num.to_decimal_10_2 (Num.of_decimal (Num.dec 235)) = Some (Num.dec 235).
Proof.
  assert (Hstored : Num.to_decimal_10_2 (Num.num (2345 # 1000))
                    = Some (Num.dec 235))
    by reflexivity.
  destruct stored_values_are_rounded as (Hrounded & _).
  exact (Hrounded (Num.num (2345 # 1000)) (Num.dec 235) Hstored).
Defined.

(** ** At least two Key Results *)

Lemma length_filter_key {R : Set} (key : R -> nat) (f : nat -> bool) rows :
  List.length (filter (fun r => f (key r)) rows)
  = List.length (filter f (map key rows)).
Proof.
  induction rows as [|a rows IH]; cbn; [reflexivity|].
  destruct (f (key a)); cbn; rewrite IH; reflexivity.
Qed.

Lemma length_key_results_of db id :
  List.length (Read.key_results_of db id)
  = List.length (filter (fun k => Nat.eqb k id)
                   (map kr_objective_id (key_results db))).
Proof.
  unfold Read.key_results_of.
  apply (length_filter_key kr_objective_id (fun k => Nat.eqb k id)).
Qed.

(** The property depends on the identifiers of the Objectives and on the
    Objectives the Key Results are attached to, and on nothing else. *)
Lemma at_least_two_same db db' :
  map o_id (objectives db') = map o_id (objectives db) ->
  map kr_objective_id (key_results db')
  = map kr_objective_id (key_results db) ->
  at_least_two db -> at_least_two db'.
Proof.
  unfold at_least_two. rewrite !Forall_forall. intros Hos Hkrs Hdb o' Ho'.
  assert (Hin : In (o_id o') (map o_id (objectives db)))
    by (rewrite <- Hos; apply in_map; exact Ho').
  apply in_map_iff in Hin. destruct Hin as (o & Hid & Ho).
  specialize (Hdb o Ho).
  rewrite length_key_results_of in *. rewrite Hkrs, <- Hid. exact Hdb.
Qed.

Lemma at_least_two_insert_progress_update today k x notes db db' row :
  insert_progress_update today k x notes db = inr (db', row) ->
  at_least_two db -> at_least_two db'.
Proof.
  intros Hins.
  destruct (insert_progress_update_inr _ _ _ _ _ _ _ Hins)
    as (v & _ & _ & _ & Hobj & _ & _ & Hkrs).
  apply at_least_two_same; [rewrite Hobj; reflexivity|].
  eapply (rowwise_map _ kr_objective_id); [|exact Hkrs].
  intros r r' H. exact (proj2 (progress_step_ids _ _ _ _ _ H)).
Qed.

Lemma at_least_two_update_key_result today id d tv cv u dl db db' ret :
  update_key_result today id d tv cv u dl db = inr (db', ret) ->
  at_least_two db -> at_least_two db'.
Proof.
  intros Hupd.
  destruct (update_key_result_inr _ _ _ _ _ _ _ _ _ _ Hupd)
    as (tv' & cv' & _ & _ & Hobj & _ & _ & Hkrs & _).
  apply at_least_two_same; [rewrite Hobj; reflexivity|].
  eapply (rowwise_map _ kr_objective_id); [|exact Hkrs].
  intros r r' H. exact (proj2 (update_step_ids _ _ _ _ _ _ _ _ _ H)).
Qed.

Lemma at_least_two_update_objective today id t d c td st db db' ret :
  update_objective today id t d c td st db = inr (db', ret) ->
  at_least_two db -> at_least_two db'.
Proof.
  intros Hupd.
  destruct (update_objective_inr _ _ _ _ _ _ _ _ _ _ Hupd)
    as (Hkrs & _ & _ & Hobj).
  apply at_least_two_same; [|rewrite Hkrs; reflexivity].
  eapply (rowwise_map _ o_id); [|exact Hobj].
  intros r r' H. exact (objective_step_id _ _ _ _ _ _ _ _ _ H).
Qed.

Lemma at_least_two_delete_progress_update id db db' n :
  delete_progress_update id db = inr (db', n) ->
  at_least_two db -> at_least_two db'.
Proof. intros [= <- _]. apply at_least_two_same; reflexivity. Qed.

Lemma filter_filter_other {A : Type} (f g : A -> bool) rows :
  (forall x, In x rows -> f x = true -> g x = true) ->
  filter f (filter g rows) = filter f rows.
Proof.
  induction rows as [|a rows IH]; cbn; intros H; [reflexivity|].
  assert (IH' := IH (fun x Hx => H x (or_intror Hx))).
  destruct (g a) eqn:Hg; cbn; rewrite IH'; [reflexivity|].
  destruct (f a) eqn:Hf; [|reflexivity].
  rewrite (H a (or_introl eq_refl) Hf) in Hg. discriminate.
Qed.

Lemma at_least_two_delete_objective id db db' n :
  delete_objective id db = inr (db', n) ->
  at_least_two db -> at_least_two db'.
Proof.
  unfold delete_objective.
  destruct (filter _ (objectives db)) as [|o os]; intros [= <- _];
    [trivial|].
  unfold at_least_two. cbn [objectives]. rewrite !Forall_forall.
  intros Hdb o' Ho'. apply filter_In in Ho'. destruct Ho' as [Ho' Hother].
  specialize (Hdb o' Ho'). unfold Read.key_results_of in *.
  cbn [key_results]. rewrite filter_filter_other; [exact Hdb|].
  intros r _ Hr. apply Nat.eqb_eq in Hr. rewrite Hr. exact Hother.
Qed.

Ltac at_least_two_statement :=
  first
    [ eapply at_least_two_insert_progress_update; eassumption
    | eapply at_least_two_update_key_result; eassumption
    | eapply at_least_two_update_objective; eassumption
    | eapply at_least_two_delete_progress_update; eassumption
    | eapply at_least_two_delete_objective; eassumption ].

Lemma keeps_two_updateObjective id data :
  keeps at_least_two (ObjectiveModel.updateObjective id data).
Proof.
  unfold ObjectiveModel.updateObjective. keeps_by at_least_two_statement.
Qed.

Lemma keeps_two_checkAndUpdateObjectiveCompletion id :
  keeps at_least_two (ObjectiveService.checkAndUpdateObjectiveCompletion id).
Proof.
  unfold ObjectiveService.checkAndUpdateObjectiveCompletion.
  keeps_by at_least_two_statement.
  all: try apply keeps_two_updateObjective.
Qed.

Lemma keeps_two_updateProgress data :
  keeps at_least_two (KeyResultService.updateProgress data).
Proof.
  unfold KeyResultService.updateProgress. keeps_by at_least_two_statement.
  all: try apply keeps_two_checkAndUpdateObjectiveCompletion.
Qed.

Lemma keeps_two_updateKeyResult id data :
  keeps at_least_two (KeyResultService.updateKeyResult id data).
Proof.
  unfold KeyResultService.updateKeyResult, KeyResultModel.updateKeyResult,
    ObjectiveService.getObjectiveWithKeyResults.
  keeps_by at_least_two_statement.
Qed.

Lemma keeps_two_batchUpdateProgress_loop updates :
  forall results ids,
    keeps at_least_two
      (KeyResultService.batchUpdateProgress_loop updates results ids).
Proof.
  induction updates as [|u rest IH]; intros results ids; cbn.
  - apply keeps_ret.
  - keeps_by at_least_two_statement. all: try apply IH.
Qed.

Lemma keeps_two_batchUpdateProgress updates :
  keeps at_least_two (KeyResultService.batchUpdateProgress updates).
Proof.
  unfold KeyResultService.batchUpdateProgress.
  keeps_by at_least_two_statement.
  all: first [ apply keeps_two_batchUpdateProgress_loop
             | apply keeps_two_checkAndUpdateObjectiveCompletion ].
Qed.

Lemma keeps_two_put userId id body :
  keeps at_least_two (ObjectivesRoute.put userId id body).
Proof.
  intros today db Hdb.
  destruct (put_run userId id body today db)
    as [[e ->] | (o & data & _ & _ & -> & _)]; [constructor|].
  apply keeps_two_updateObjective. exact Hdb.
Qed.

Lemma keeps_two_deleteObjective id :
  keeps at_least_two (ObjectiveService.deleteObjective id).
Proof.
  unfold ObjectiveService.deleteObjective, ObjectiveModel.deleteObjective.
  keeps_by at_least_two_statement.
Qed.

Lemma keeps_two_deleteProgressUpdate id :
  keeps at_least_two (ProgressUpdateModel.deleteProgressUpdate id).
Proof.
  unfold ProgressUpdateModel.deleteProgressUpdate.
  keeps_by at_least_two_statement.
Qed.

Lemma deleteKeyResult_run id today db :
  KeyResultService.deleteKeyResult id today db
  = match Read.key_result_row db id with
    | None => mkRun [] (Returned false)
    | Some kr =>
        if (List.length (Read.key_results_of db (kr_objective_id kr)) <=? 2)%nat
        then mkRun [] (Threw (createError
            "Cannot delete key result. Objectives must have at least 2 key results."
              400 "MINIMUM_KEY_RESULTS_REQUIRED"))
        else
          mkRun
            [mkDB (objectives db)
               (filter (fun r => negb (Nat.eqb (kr_id r) id)) (key_results db))
               (filter (fun u => negb (Nat.eqb (pu_key_result_id u) id))
                  (progress_updates db))
               (next_uuid db)]
            (Returned
               (Nat.ltb 0
                  (List.length
                     (filter (fun r => Nat.eqb (kr_id r) id)
                        (key_results db)))))
    end.
Proof.
  unfold KeyResultService.deleteKeyResult, KeyResultModel.findKeyResultById,
    KeyResultModel.findKeyResultsByObjectiveId, Read.key_result_row,
    Read.key_results_of.
  unfold bind at 1, select at 1. cbn [outcome commits final last].
  destruct (find _ (key_results db)) as [kr|]; cbn; [|reflexivity].
  unfold bind, select. cbn. rewrite length_map.
  destruct (List.length _ <=? 2)%nat; reflexivity.
Qed.

(** Deleting the row with a given primary key takes one row away, from
    the Key Results of one Objective. *)
Lemma length_filter_delete rows id kr (f : key_results_row -> bool) :
  NoDup (map kr_id rows) ->
  In kr rows -> kr_id kr = id ->
  List.length (filter f rows)
  = (List.length
       (filter f (filter (fun r => negb (Nat.eqb (kr_id r) id)) rows))
     + if f kr then 1 else 0)%nat.
Proof.
  induction rows as [|a rows IH]; cbn; [contradiction|].
  intros Hnd Hin Hid. inversion Hnd as [|k ks Hnotin Hnd']; subst.
  destruct Hin as [<- | Hin].
  - rewrite Nat.eqb_refl. cbn [negb].
    rewrite (filter_id (fun r => negb (Nat.eqb (kr_id r) (kr_id a))) rows).
    + destruct (f a); cbn; lia.
    + intros x Hx. apply negb_true_iff, Nat.eqb_neq. intros Heq.
      apply Hnotin. rewrite <- Heq. apply in_map. exact Hx.
  - assert (Hneq : Nat.eqb (kr_id a) (kr_id kr) = false).
    { apply Nat.eqb_neq. intros Heq. apply Hnotin. rewrite Heq.
      apply in_map. exact Hin. }
    rewrite Hneq. cbn [negb filter].
    specialize (IH Hnd' Hin eq_refl).
    destruct (f a); cbn [List.length]; lia.
Qed.

Lemma keeps_two_deleteKeyResult id today db :
  wf db -> at_least_two db ->
  Forall at_least_two (commits (KeyResultService.deleteKeyResult id today db)).
Proof.
  intros Hwf Hdb. rewrite deleteKeyResult_run.
  destruct (Read.key_result_row db id) as [kr|] eqn:Hkr; [|constructor].
  destruct (List.length _ <=? 2)%nat eqn:Hcount; [constructor|].
  apply Nat.leb_gt in Hcount.
  constructor; [|constructor].
  unfold Read.key_result_row in Hkr. apply find_some in Hkr.
  destruct Hkr as [Hin Hid]. apply Nat.eqb_eq in Hid.
  unfold at_least_two in *. cbn [objectives]. rewrite !Forall_forall in *.
  intros o Ho. specialize (Hdb o Ho).
  unfold Read.key_results_of in *. cbn [key_results].
  pose proof (length_filter_delete (key_results db) id kr
                (fun r => Nat.eqb (kr_objective_id r) (o_id o))
                (key_results_pkey _ Hwf) Hin Hid) as Hlen.
  destruct (Nat.eqb (kr_objective_id kr) (o_id o)) eqn:Hoid; [|lia].
  apply Nat.eqb_eq in Hoid. rewrite Hoid in Hcount. lia.
Qed.

Lemma at_least_two_created data today db r :
  wf db -> at_least_two db ->
  outcome (ObjectiveService.createObjectiveWithKeyResults data today db)
  = Returned r ->
  at_least_two
    (final db (ObjectiveService.createObjectiveWithKeyResults data today db)).
Proof.
  intros Hwf Hdb Hout.
  destruct (createObjectiveWithKeyResults_returned _ _ _ _ Hwf Hout)
    as (rows & Hcount & _ & _ & Hrows & Hids & _ & Hfinal & Hnew).
  assert (Hlen : List.length rows
                 = List.length (ObjectiveService.r_keyResults data)).
  { rewrite <- (length_map kr_id), Hids, length_seq. reflexivity. }
  unfold at_least_two. rewrite Hfinal at 1. cbn [objectives].
  apply Forall_app. split.
  - unfold at_least_two in Hdb. rewrite Forall_forall in *.
    intros o Ho. specialize (Hdb o Ho).
    rewrite Hfinal. unfold Read.key_results_of in *. cbn [key_results].
    rewrite filter_app, length_app. lia.
  - constructor; [|constructor]. cbn [o_id]. rewrite Hnew. lia.
Qed.

Lemma at_least_two_empty : at_least_two Scenario.empty.
Proof. constructor. Qed.

(** X18: every Objective has at least two Key Results.  From a store with
    integrity in which this holds, it holds in the store that creating an
    Objective with its Key Results leaves when the call returns, and in
    every state committed by deleting a Key Result, by recording progress
    (single or batch), by updating a Key Result or an Objective, by the
    completion check, and by deleting an Objective or a Progress Update. *)
Theorem every_objective_keeps_two_key_results :
  forall (today : Z) (db : DB),
    wf db -> at_least_two db ->
    (forall data r,
        outcome (ObjectiveService.createObjectiveWithKeyResults data today db)
        = Returned r ->
        at_least_two
          (final db
             (ObjectiveService.createObjectiveWithKeyResults data today db)))
    /\ (forall id,
          Forall at_least_two
            (commits (KeyResultService.deleteKeyResult id today db)))
    /\ (forall data,
          Forall at_least_two
            (commits (KeyResultService.updateProgress data today db)))
    /\ (forall updates,
          Forall at_least_two
            (commits (KeyResultService.batchUpdateProgress updates today db)))
    /\ (forall id data,
          Forall at_least_two
            (commits (KeyResultService.updateKeyResult id data today db)))
    /\ (forall id,
          Forall at_least_two
            (commits (ObjectiveService.checkAndUpdateObjectiveCompletion id
                        today db)))
    /\ (forall userId id body,
          Forall at_least_two
            (commits (ObjectivesRoute.put userId id body today db)))
    /\ (forall id,
          Forall at_least_two
            (commits (ObjectiveService.deleteObjective id today db)))
    /\ (forall id,
          Forall at_least_two
            (commits (ProgressUpdateModel.deleteProgressUpdate id today db))).
Proof.
  intros today db Hwf Hdb. repeat split; intros.
  - eapply at_least_two_created; eassumption.
  - apply keeps_two_deleteKeyResult; assumption.
  - apply keeps_two_updateProgress. exact Hdb.
  - apply keeps_two_batchUpdateProgress. exact Hdb.
  - apply keeps_two_updateKeyResult. exact Hdb.
  - apply keeps_two_checkAndUpdateObjectiveCompletion. exact Hdb.
  - apply keeps_two_put. exact Hdb.
  - apply keeps_two_deleteObjective. exact Hdb.
  - apply keeps_two_deleteProgressUpdate. exact Hdb.
Qed.

Lemma every_objective_keeps_two_key_results_witness :
  wf Scenario.empty /\ at_least_two Scenario.empty
  /\ at_least_two Scenario.created.
Proof.
  split; [exact wf_empty|]. split; [exact at_least_two_empty|].
  pose (r := ObjectiveService.mkObjectiveWithKeyResults
               (ObjectiveModel.mkObjective 1 7 "Learn Go" None skills 500
                  active)
               [KeyResultModel.mapRowToKeyResult
                  (mk_key_results_row 2 1 "Earn three certifications" (Num.dec
                      300) (Num.dec 0)
                     "certs" 400 not_started);
                KeyResultModel.mapRowToKeyResult
                  (mk_key_results_row 3 1 "Study one hundred hours" (Num.dec
                      10000) (Num.dec 0)
                     "hours" 450 not_started)]).
  assert (Hreturned :
            outcome (ObjectiveService.createObjectiveWithKeyResults
                       Scenario.learn_go 0 Scenario.empty) = Returned r)
    by reflexivity.
  destruct (every_objective_keeps_two_key_results 0 Scenario.empty wf_empty
              at_least_two_empty) as (Hcreated & _).
  exact (Hcreated Scenario.learn_go r Hreturned).
Defined.

(** ** The completion check *)

(** X19: what the completion check does in a store with integrity.  When
    the Objective has no Key Result, or one that is not Completed, nothing
    is written.  Otherwise the Objective is there, and on a day up to its
    target date one statement sets its status to Completed and changes
    nothing else; on a later day the store refuses that statement, since
    the constraint on the target date is tested again on every UPDATE of
    the row: the check throws and the Objective is not completed. *)
Theorem checkAndUpdateObjectiveCompletion_by_target_date :
  forall (today : Z) (db : DB) (id : nat),
    wf db ->
    if ObjectiveService.allCompleted
         (map KeyResultModel.mapRowToKeyResult (Read.key_results_of db id))
    then
      exists o,
        Read.objective_row db id = Some o
        /\ if today <=? o_target_date o
           then
             ObjectiveService.checkAndUpdateObjectiveCompletion id today db
             = mkRun
                 [mkDB
                    (map (fun r => if Nat.eqb (o_id r) id
                                   then with_status r completed else r)
                       (objectives db))
                    (key_results db) (progress_updates db) (next_uuid db)]
                 (Returned tt)
           else
             ObjectiveService.checkAndUpdateObjectiveCompletion id today db
             = mkRun []
                 (Threw (DatabaseError
                           (check_violation "objectives_target_date_future")))
    else
      ObjectiveService.checkAndUpdateObjectiveCompletion id today db
      = mkRun [] (Returned tt).
Proof.
  intros today db id Hwf. rewrite checkAndUpdateObjectiveCompletion_run.
  destruct (ObjectiveService.allCompleted _) eqn:Hall; [|reflexivity].
  assert (Hrow : exists o, Read.objective_row db id = Some o).
  { unfold ObjectiveService.allCompleted in Hall. rewrite length_map in Hall.
    destruct (Read.key_results_of db id) as [|kr krs] eqn:Hkrs;
      [discriminate|].
    assert (Hin : In kr (Read.key_results_of db id))
      by (rewrite Hkrs; left; reflexivity).
    apply filter_In in Hin. destruct Hin as [Hin Hoid].
    apply Nat.eqb_eq in Hoid.
    pose proof (key_results_objective_id_fkey _ Hwf) as Hfk.
    rewrite Forall_forall in Hfk. specialize (Hfk kr Hin).
    rewrite Hoid in Hfk. apply (existsb_key o_id) in Hfk.
    unfold Read.objective_row.
    destruct (find (fun r => Nat.eqb (o_id r) id) (objectives db)) as [o|]
      eqn:Hfind; [eauto|].
    exfalso. apply existsb_exists in Hfk. destruct Hfk as (o & Ho & Hid).
    rewrite (find_none _ _ Hfind o Ho) in Hid. discriminate. }
  destruct Hrow as [o Hrow]. exists o. split; [exact Hrow|].
  pose proof Hrow as Hfind. unfold Read.objective_row in Hfind.
  apply find_some in Hfind. destruct Hfind as [Hin Hid].
  pose proof (objectives_title_length _ Hwf) as Htitle.
  rewrite Forall_forall in Htitle. specialize (Htitle o Hin).
  destruct (today <=? o_target_date o) eqn:Hdate.
  - assert (Hvalid : objectives_checks today o = None).
    { unfold objectives_checks. rewrite Hdate. cbn [negb].
      replace ((5 <=? strlen (o_title o)) && (strlen (o_title o) <=? 200))
        with true; [reflexivity|].
      symmetry. apply andb_true_iff. split; apply Z.leb_le; lia. }
    destruct (update_objective_status today id completed db o Hrow Hvalid
                (objectives_pkey _ Hwf)) as [rest ->].
    reflexivity.
  - unfold update_objective. cbn [varchar_opt].
    rewrite (update_where_rejects _ _ _ o
               (check_violation "objectives_target_date_future"));
      [reflexivity | exact Hrow |].
    unfold objectives_checks. cbn [o_target_date]. rewrite Hdate. reflexivity.
Qed.

Lemma checkAndUpdateObjectiveCompletion_by_target_date_witness :
  exists o,
    Read.objective_row Scenario.certified 1 = Some o
    /\ ObjectiveService.checkAndUpdateObjectiveCompletion 1 501
         (final Scenario.certified
            (ProgressUpdateModel.createProgressUpdate
               (ProgressUpdateModel.mkCreateProgressUpdateData 3 (Num.num 100)
                   None) 501
               Scenario.certified))
       = mkRun []
           (Threw (DatabaseError
                     (check_violation "objectives_target_date_future"))).
Proof.
  assert (Hwf : wf (final Scenario.certified
                      (ProgressUpdateModel.createProgressUpdate
                         (ProgressUpdateModel.mkCreateProgressUpdateData 3
                             (Num.num 100)
                            None) 501 Scenario.certified))).
  { apply final_keeps; [exact wf_certified|].
    apply keeps_wf_createProgressUpdate. exact wf_certified. }
  pose proof (checkAndUpdateObjectiveCompletion_by_target_date 501
                (final Scenario.certified
                   (ProgressUpdateModel.createProgressUpdate
                      (ProgressUpdateModel.mkCreateProgressUpdateData 3 (Num.num
                          100)
                         None) 501 Scenario.certified)) 1 Hwf) as Hcheck.
  change (ObjectiveService.allCompleted _) with true in Hcheck.
  cbv iota in Hcheck.
  destruct Hcheck as (o & Hrow & Hrefused).
  exists o. split; [exact Hrow|].
  assert (Ho : o = mk_objectives_row 1 7 "Learn Go" None skills 500 active).
  { assert (Hfound : Read.objective_row
                       (final Scenario.certified
                          (ProgressUpdateModel.createProgressUpdate
                             (ProgressUpdateModel.mkCreateProgressUpdateData 3
                                (Num.num 100) None) 501 Scenario.certified)) 1
                     = Some (mk_objectives_row 1 7 "Learn Go" None skills 500
                               active)) by reflexivity.
    rewrite Hfound in Hrow. injection Hrow as <-. reflexivity. }
  rewrite Ho in Hrefused. exact Hrefused.
Defined.

(** ** What recording progress leaves alone *)

(** X20: every state committed by [updateProgress] differs from the store
    before the call in three places at most: the ledger has one more row,
    for the Key Result addressed, under the next identifier; the Key Result
    addressed has the value of that row and the status computed from it
    that day; and the Objective of that Key Result may have become
    Completed.  Every other Key Result and every other Objective is as it
    was, and nothing is deleted. *)
Theorem updateProgress_touches_one_key_result :
  forall (today : Z) (db : DB) (data : KeyResultService.UpdateProgressRequest)
         (s : DB),
    In s (commits (KeyResultService.updateProgress data today db)) ->
    exists kr row,
      Read.key_result_row db (KeyResultService.keyResultId data) = Some kr
      /\ progress_updates s = progress_updates db ++ [row]
      /\ pu_id row = next_uuid db
      /\ pu_key_result_id row = KeyResultService.keyResultId data
      /\ next_uuid s = S (next_uuid db)
      /\ Forall2
           (fun r r' =>
              if Nat.eqb (kr_id r) (KeyResultService.keyResultId data)
              then r' = update_key_result_status today
                          (with_current_value r (pu_value_recorded row))
              else r' = r)
           (key_results db) (key_results s)
      /\ Forall2
           (fun o o' =>
              if Nat.eqb (o_id o) (kr_objective_id kr)
              then o' = o \/ o' = with_status o completed
              else o' = o)
           (objectives db) (objectives s).
Proof.
  intros today db data s. rewrite updateProgress_run.
  destruct (Read.key_result_row db _) as [kr|] eqn:Hkr; [|contradiction].
  destruct (Num.number_ltb _ _); [contradiction|].
  destruct (insert_progress_update _ _ _ _ db) as [e|[s1 row]] eqn:Hins;
    [contradiction|].
  destruct (insert_progress_update_inr _ _ _ _ _ _ _ Hins)
    as (v & _ & Hrow & _ & Hobj & Hpus & Hnext & Hkrs).
  assert (Hkrs' : Forall2
                    (fun r r' =>
                       if Nat.eqb (kr_id r) (KeyResultService.keyResultId data)
                       then r' = update_key_result_status today
                                   (with_current_value r
                                      (pu_value_recorded row))
                       else r' = r)
                    (key_results db) (key_results s1)).
  { eapply rowwise_impl; [|exact Hkrs]. intros r r'. unfold progress_step.
    rewrite Hrow. cbn [pu_value_recorded].
    destruct (Nat.eqb (kr_id r) _); tauto. }
  assert (Hfirst : exists kr0 row0,
             Some kr = Some kr0
             /\ progress_updates s1 = progress_updates db ++ [row0]
             /\ pu_id row0 = next_uuid db
             /\ pu_key_result_id row0 = KeyResultService.keyResultId data
             /\ next_uuid s1 = S (next_uuid db)
             /\ Forall2
                  (fun r r' =>
                     if Nat.eqb (kr_id r) (KeyResultService.keyResultId data)
                     then r' = update_key_result_status today
                                 (with_current_value r
                                    (pu_value_recorded row0))
                     else r' = r)
                  (key_results db) (key_results s1)
             /\ Forall2
                  (fun o o' =>
                     if Nat.eqb (o_id o) (kr_objective_id kr0)
                     then o' = o \/ o' = with_status o completed
                     else o' = o)
                  (objectives db) (objectives s1)).
  { exists kr, row. rewrite Hrow at 2 3. cbn [pu_id pu_key_result_id].
    repeat (split; [first [reflexivity | assumption]|]).
    rewrite Hobj. apply rowwise_refl. intros o.
    destruct (Nat.eqb (o_id o) (kr_objective_id kr)); auto. }
  destruct (ObjectiveService.allCompleted _).
  - destruct (update_objective _ _ _ _ _ _ _ s1) as [e|[s2 ret]] eqn:Hupd.
    + intros [<- | []]. exact Hfirst.
    + intros [<- | [<- | []]]; [exact Hfirst|].
      destruct (update_objective_completed_inr _ _ _ _ _ Hupd)
        as (Hkrs2 & Hpus2 & Hnext2 & Hos).
      exists kr, row. rewrite Hkrs2, Hpus2, Hnext2. rewrite Hrow at 2 3.
      cbn [pu_id pu_key_result_id].
      repeat (split; [first [reflexivity | assumption]|]).
      rewrite <- Hobj. eapply rowwise_impl; [|exact Hos].
      intros o o'. unfold completion_step, with_status.
      destruct (Nat.eqb (o_id o) (kr_objective_id kr)); auto.
  - intros [<- | []]. exact Hfirst.
Qed.

Lemma updateProgress_touches_one_key_result_witness :
  exists kr row,
    Read.key_result_row Scenario.created 2 = Some kr
    /\ progress_updates Scenario.certified
       = progress_updates Scenario.created ++ [row].
Proof.
  assert (Hcommitted :
            In Scenario.certified
              (commits (KeyResultService.updateProgress (Scenario.record 2 3)
                          10 Scenario.created)))
    by (left; reflexivity).
  destruct (updateProgress_touches_one_key_result 10 Scenario.created
              (Scenario.record 2 3) Scenario.certified Hcommitted)
    as (kr & row & Hkr & Hledger & _).
  exists kr, row. split; [exact Hkr | exact Hledger].
Defined.

(** ** A batch that returns *)

Lemma final_bind {A B : Type} (m : M A) (k : A -> M B) today db a :
  outcome (m today db) = Returned a ->
  final db (bind m k today db)
  = final (final db (m today db)) (k a today (final db (m today db))).
Proof.
  intros Hout. unfold bind. rewrite Hout. unfold final. cbn [commits].
  apply last_app_last.
Qed.

Section AfterTheWrites.

Variable w : DB.

(** The completion checks that end a batch leave the ledger and the Key
    Results as the writes have left them. *)
Lemma keeps_written_check id :
  keeps (fun s =>
           progress_updates s = progress_updates w
           /\ key_results s = key_results w
           /\ Forall2 kept_or_completed (objectives w) (objectives s))
    (ObjectiveService.checkAndUpdateObjectiveCompletion id).
Proof.
  intros today db (Hpus & Hkrs & Hos).
  rewrite checkAndUpdateObjectiveCompletion_run.
  destruct (ObjectiveService.allCompleted _); [|constructor].
  destruct (update_objective _ _ _ _ _ _ _ db) as [e|[s2 ret]] eqn:Hupd;
    [constructor|].
  destruct (update_objective_completed_inr _ _ _ _ _ Hupd)
    as (Hkrs2 & Hpus2 & _ & Hos2).
  constructor; [|constructor].
  split; [congruence|]. split; [congruence|].
  eapply rowwise_trans; [exact kept_or_completed_trans | exact Hos |].
  eapply rowwise_impl; [|exact Hos2].
  apply completion_step_kept_or_completed.
Qed.

End AfterTheWrites.

(** X21: when a batch returns, it returns one Progress Update per entry,
    in the order of the entries; the ledger has gained exactly these rows,
    in that order; the Key Results are what writing the entries one by one
    has made of them; and every Objective is still there, with the status
    it had or Completed. *)
Theorem batchUpdateProgress_returns :
  forall (today : Z) (db : DB)
         (updates : list KeyResultService.UpdateProgressRequest)
         (results : list ProgressUpdateModel.ProgressUpdate),
    outcome (KeyResultService.batchUpdateProgress updates today db)
    = Returned results ->
    exists rows,
      results = map ProgressUpdateModel.mapRowToProgressUpdate rows
      /\ map pu_key_result_id rows
         = map KeyResultService.keyResultId updates
      /\ progress_updates
           (final db (KeyResultService.batchUpdateProgress updates today db))
         = progress_updates db ++ rows
      /\ key_results
           (final db (KeyResultService.batchUpdateProgress updates today db))
         = key_results (Session.progress_written today updates db)
      /\ Forall2 kept_or_completed (objectives db)
           (objectives
              (final db
                 (KeyResultService.batchUpdateProgress updates today db))).
Proof.
  intros today db updates results.
  unfold KeyResultService.batchUpdateProgress.
  destruct (outcome (KeyResultService.batchUpdateProgress_loop updates [] []
                       today db)) as [[results' ids]|e] eqn:Hloop.
  - rewrite (final_bind _ _ _ _ _ Hloop).
    destruct (batchUpdateProgress_loop_returns _ _ _ _ _ _ _ Hloop)
      as (Hfinal & Hobj & rows & Hres & Hpus & Hids).
    rewrite Hfinal. unfold bind at 1. rewrite Hloop. cbn [outcome snd fst].
    rewrite Hfinal.
    set (w := Session.progress_written today updates db) in *.
    assert (Hchecks :
              Forall
                (fun s =>
                   progress_updates s = progress_updates w
                   /\ key_results s = key_results w
                   /\ Forall2 kept_or_completed (objectives w) (objectives s))
                (commits
                   (for_of ids
                      ObjectiveService.checkAndUpdateObjectiveCompletion
                      today w))).
    { apply keeps_for_of; [intros id; apply keeps_written_check|].
      split; [reflexivity|]. split; [reflexivity|].
      apply rowwise_refl, kept_or_completed_refl. }
    unfold bind.
    destruct (outcome (for_of ids _ today w)) as [[]|e] eqn:Hfor;
      [|discriminate].
    cbn [ret outcome commits]. intros [= <-]. rewrite app_nil_r.
    assert (Hend : progress_updates
                     (final w
                        (for_of ids
                           ObjectiveService.checkAndUpdateObjectiveCompletion
                           today w)) = progress_updates w
                   /\ key_results
                        (final w
                           (for_of ids
                              ObjectiveService.checkAndUpdateObjectiveCompletion
                              today w)) = key_results w
                   /\ Forall2 kept_or_completed (objectives w)
                        (objectives
                           (final w
                              (for_of ids
                                 ObjectiveService.checkAndUpdateObjectiveCompletion
                                 today w)))).
    { apply (final_keeps
               (fun s =>
                  progress_updates s = progress_updates w
                  /\ key_results s = key_results w
                  /\ Forall2 kept_or_completed (objectives w) (objectives s)));
        [|exact Hchecks].
      split; [reflexivity|]. split; [reflexivity|].
      apply rowwise_refl, kept_or_completed_refl. }
    destruct Hend as (Hpus' & Hkrs' & Hos').
    exists rows. cbn [app] in Hres.
    change (final w
              (mkRun
                 (commits
                    (for_of ids
                       ObjectiveService.checkAndUpdateObjectiveCompletion
                       today w)) (Returned results')))
      with (final w
              (for_of ids ObjectiveService.checkAndUpdateObjectiveCompletion
                 today w)).
    rewrite Hpus', Hkrs', Hpus.
    repeat (split; [first [reflexivity | assumption]|]).
    rewrite <- Hobj. exact Hos'.
  - unfold bind. rewrite Hloop. discriminate.
Qed.

Lemma batchUpdateProgress_returns_witness :
  exists rows,
    map pu_key_result_id rows = [2; 3]%nat
    /\ progress_updates
         (final Scenario.created
            (KeyResultService.batchUpdateProgress
               [Scenario.record 2 1; Scenario.record 3 10] 20
               Scenario.created))
       = progress_updates Scenario.created ++ rows.
Proof.
  pose (results :=
          [ProgressUpdateModel.mkProgressUpdate 4 2 (Num.of_decimal (Num.dec
              100)) None;
           ProgressUpdateModel.mkProgressUpdate 5 3 (Num.of_decimal (Num.dec
               1000))
             None]).
  assert (Hreturned :
            outcome (KeyResultService.batchUpdateProgress
                       [Scenario.record 2 1; Scenario.record 3 10] 20
                       Scenario.created) = Returned results) by reflexivity.
  destruct (batchUpdateProgress_returns 20 Scenario.created
              [Scenario.record 2 1; Scenario.record 3 10] results Hreturned)
    as (rows & _ & Hids & Hledger & _).
  exists rows. split; [exact Hids | exact Hledger].
Defined.

(** ** The Objectives a batch checks *)

Lemma Set_add_In x s i :
  In i (KeyResultService.Set_add x s) <-> In i s \/ i = x.
Proof.
  unfold KeyResultService.Set_add.
  destruct (existsb (Nat.eqb x) s) eqn:Hex.
  - apply existsb_exists in Hex. destruct Hex as (y & Hy & Hxy).
    apply Nat.eqb_eq in Hxy. subst y. split; [tauto|].
    intros [H | ->]; assumption.
  - rewrite in_app_iff. cbn. split; intros [H | H]; auto.
    + destruct H as [<- | []]. auto.
Qed.

Lemma Set_add_NoDup x s : NoDup s -> NoDup (KeyResultService.Set_add x s).
Proof.
  intros Hs. unfold KeyResultService.Set_add.
  destruct (existsb (Nat.eqb x) s) eqn:Hex; [exact Hs|].
  apply NoDup_app; [exact Hs | constructor; [intros [] | constructor] |].
  intros y Hy [Hxy | []]. subst y.
  assert (Htrue : existsb (Nat.eqb x) s = true).
  { apply existsb_exists. exists x. split; [exact Hy | apply Nat.eqb_refl]. }
  congruence.
Qed.

(** The Key Result found under an identifier keeps its Objective while
    progress is written. *)
Lemma progress_step_objective today k v rows rows' id :
  Forall2 (progress_step today k v) rows rows' ->
  option_map kr_objective_id (find (fun r => Nat.eqb (kr_id r) id) rows')
  = option_map kr_objective_id (find (fun r => Nat.eqb (kr_id r) id) rows).
Proof.
  induction 1 as [|a a' rows rows' Ha _ IH]; cbn; [reflexivity|].
  destruct (progress_step_ids _ _ _ _ _ Ha) as [-> Hoid].
  destruct (Nat.eqb (kr_id a) id); [cbn; congruence | exact IH].
Qed.

Lemma batchUpdateProgress_loop_objectives updates :
  forall results ids today db results' ids',
    outcome (KeyResultService.batchUpdateProgress_loop updates results ids
               today db) = Returned (results', ids') ->
    (NoDup ids -> NoDup ids')
    /\ forall i,
         In i ids'
         <-> In i ids
             \/ exists u,
                  In u updates
                  /\ option_map kr_objective_id
                       (Read.key_result_row db (KeyResultService.keyResultId u))
                     = Some i.
Proof.
  induction updates as [|u rest IH];
    intros results ids today db results' ids'.
  - cbn. intros [= <- <-]. split; [trivial|].
    intros i. split; [auto|]. intros [H | (u & [] & _)]. exact H.
  - rewrite batchUpdateProgress_loop_cons.
    destruct (Read.key_result_row db (KeyResultService.keyResultId u))
      as [kr|] eqn:Hkr; [|discriminate].
    destruct (insert_progress_update _ _ _ _ db) as [e|[s1 row]] eqn:Hins;
      [discriminate|].
    cbn [outcome]. intros Hout.
    destruct (IH _ _ _ _ _ _ Hout) as [Hnodup Hin].
    destruct (insert_progress_update_inr _ _ _ _ _ _ _ Hins)
      as (v & _ & _ & _ & _ & _ & _ & Hkrs).
    split; [intros Hids; apply Hnodup, Set_add_NoDup; exact Hids|].
    intros i. rewrite Hin, Set_add_In.
    assert (Hsame : forall u',
               option_map kr_objective_id
                 (Read.key_result_row s1 (KeyResultService.keyResultId u'))
               = option_map kr_objective_id
                   (Read.key_result_row db (KeyResultService.keyResultId u'))).
    { intros u'. unfold Read.key_result_row.
      exact (progress_step_objective _ _ _ _ _ _ Hkrs). }
    split.
    + intros [[H | ->] | (u' & Hu' & Hoid)].
      * left. exact H.
      * right. exists u. split; [left; reflexivity|]. rewrite Hkr. reflexivity.
      * right. exists u'. split; [right; exact Hu'|].
        rewrite <- Hsame. exact Hoid.
    + intros [H | (u' & [<- | Hu'] & Hoid)].
      * left. left. exact H.
      * left. right. rewrite Hkr in Hoid. cbn in Hoid. congruence.
      * right. exists u'. split; [exact Hu'|]. rewrite Hsame. exact Hoid.
Qed.

(** X22: the Objectives whose completion a batch checks.  When the first
    loop of a batch gets through its entries, the set it has collected
    holds the Objective of every Key Result addressed by an entry, nothing
    else, and each once: so the completion check that follows runs once
    for each Objective touched, however many entries touch it. *)
Theorem batchUpdateProgress_checks_each_objective_once :
  forall (today : Z) (db : DB)
         (updates : list KeyResultService.UpdateProgressRequest)
         (results : list ProgressUpdateModel.ProgressUpdate)
         (objectiveIds : list nat),
    outcome (KeyResultService.batchUpdateProgress_loop updates [] [] today db)
    = Returned (results, objectiveIds) ->
    NoDup objectiveIds
    /\ (forall i,
          In i objectiveIds
          <-> exists u kr,
                In u updates
                /\ Read.key_result_row db (KeyResultService.keyResultId u)
                   = Some kr
                /\ kr_objective_id kr = i)
    /\ commits (KeyResultService.batchUpdateProgress updates today db)
       = commits (KeyResultService.batchUpdateProgress_loop updates [] []
                    today db)
         ++ commits
              (for_of objectiveIds
                 ObjectiveService.checkAndUpdateObjectiveCompletion today
                 (Session.progress_written today updates db)).
Proof.
  intros today db updates results ids Hout.
  destruct (batchUpdateProgress_loop_objectives _ _ _ _ _ _ _ Hout)
    as [Hnodup Hin].
  split; [apply Hnodup; constructor|]. split.
  - intros i. rewrite Hin. split.
    + intros [[] | (u & Hu & Hoid)].
      destruct (Read.key_result_row db (KeyResultService.keyResultId u))
        as [kr|] eqn:Hkr; [|discriminate].
      injection Hoid as Hoid. eauto.
    + intros (u & kr & Hu & Hkr & Hoid). right. exists u.
      split; [exact Hu|]. rewrite Hkr, <- Hoid. reflexivity.
  - destruct (batchUpdateProgress_loop_returns _ _ _ _ _ _ _ Hout)
      as (Hfinal & _).
    unfold KeyResultService.batchUpdateProgress. unfold bind at 1.
    rewrite Hout, Hfinal. cbn [commits snd]. f_equal.
    unfold bind.
    destruct (outcome (for_of ids _ today _)); cbn; rewrite ?app_nil_r;
      reflexivity.
Qed.

Lemma batchUpdateProgress_checks_each_objective_once_witness :
  NoDup [1%nat]
  /\ commits (KeyResultService.batchUpdateProgress
                [Scenario.record 2 1; Scenario.record 3 10] 20
                Scenario.created)
     = commits (KeyResultService.batchUpdateProgress_loop
                  [Scenario.record 2 1; Scenario.record 3 10] [] [] 20
                  Scenario.created)
       ++ commits
            (for_of [1%nat] ObjectiveService.checkAndUpdateObjectiveCompletion
               20
               (Session.progress_written 20
                  [Scenario.record 2 1; Scenario.record 3 10]
                  Scenario.created)).
Proof.
  pose (results :=
          [ProgressUpdateModel.mkProgressUpdate 4 2 (Num.of_decimal (Num.dec
              100)) None;
           ProgressUpdateModel.mkProgressUpdate 5 3 (Num.of_decimal (Num.dec
               1000))
             None]).
  assert (Hreturned :
            outcome (KeyResultService.batchUpdateProgress_loop
                       [Scenario.record 2 1; Scenario.record 3 10] [] [] 20
                       Scenario.created) = Returned (results, [1%nat]))
    by reflexivity.
  destruct (batchUpdateProgress_checks_each_objective_once 20 Scenario.created
              [Scenario.record 2 1; Scenario.record 3 10] results [1%nat]
              Hreturned) as (Honce & _ & Hcommits).
  split; [exact Honce | exact Hcommits].
Defined.

(** ** The status update of the owner, on the scenario *)


